(** * AI-Agent-Eval-Model: the two edge functions, embedded and verified

    The repository has two request handlers written for Deno:
    [evaluate] (Pass@K for one model) and [ab-test] (three models side by
    side).  Both call the generation API through [fetch], normalise the reply
    into a [RunResult] and fold the runs into summary numbers.

    The embedding is shallow.  Asynchronous code is strictly sequential in the
    sources (every promise is awaited at once), so it is written in a state
    and exception monad over a [World] that holds the clock, the provider and
    the log of calls.  Values of TypeScript type [any] (the parsed provider
    reply) are modelled by the dynamic type [value]; values with a declared
    type (the request body, the result records) by records whose optional
    fields say what the handlers test for ([?.], [||]).

    Conventions on data:
    - a JavaScript number is an exact rational ([Q]) or [NaN]: IEEE doubles
      are idealised, infinities and the negative zero are left out; clock
      readings and loop counters are integers ([Z]);
    - a JavaScript string is a sequence of code units below U+0100 (Rocq's
      8-bit [ascii]); [trim] and [toLowerCase] are the standard ones
      restricted to that range.  The success check is also given on strings
      of arbitrary UTF-16 code units ([Wide]), of which the one on 8-bit
      strings is the restriction;
    - a timer fires exactly when it is due, and reading a response body takes
      no time;
    - the messages of the errors the engine throws are those of V8, the
      engine of Deno. *)

From Stdlib Require Import ZArith QArith Qround String Ascii List Lia.
From Stdlib Require Import DecimalString.
From stdpp Require Import base gmap strings list.
From Equations Require Import Equations.

Set Warnings "-register-all".
Local Open Scope Z_scope.

(** ** Strings *)

Module JsString.

(** WhiteSpace and LineTerminator code units below U+0100:
    TAB, LF, VT, FF, CR, SPACE and NO-BREAK SPACE. *)
Definition is_whitespace (c : ascii) : bool :=
  let n := N_of_ascii c in
  ((9 <=? n) && (n <=? 13) || (n =? 32) || (n =? 160))%N.

Fixpoint trimStart (s : string) : string :=
  match s with
  | EmptyString => EmptyString
  | String c rest => if is_whitespace c then trimStart rest else s
  end.

Fixpoint trimEnd (s : string) : string :=
  match s with
  | EmptyString => EmptyString
  | String c rest =>
      match trimEnd rest with
      | EmptyString => if is_whitespace c then EmptyString else String c EmptyString
      | kept => String c kept
      end
  end.

(** [String.prototype.trim]. *)
Definition trim (s : string) : string := trimEnd (trimStart s).

(** Simple lower-case mapping below U+0100: A-Z, and the Latin-1 capitals
    U+00C0..U+00DE except the multiplication sign U+00D7. *)
Definition lower_char (c : ascii) : ascii :=
  let n := N_of_ascii c in
  if ((65 <=? n) && (n <=? 90)
      || (192 <=? n) && (n <=? 222) && negb (n =? 215))%N
  then ascii_of_N (n + 32) else c.

(** [String.prototype.toLowerCase] on code units below U+0100, where it maps
    character by character ([Wide.toLowerCase] is the general one). *)
Fixpoint toLowerCase (s : string) : string :=
  match s with
  | EmptyString => EmptyString
  | String c rest => String (lower_char c) (toLowerCase rest)
  end.

(** [String.prototype.includes]: does [needle] occur in [s]? *)
Fixpoint includes (s needle : string) : bool :=
  String.prefix needle s
  || match s with
     | EmptyString => false
     | String _ rest => includes rest needle
     end.

(** [s.replace(pat, by)] for a one-character pattern: the first occurrence
    only. *)
Fixpoint replace_first (pat : ascii) (by_ : string) (s : string) : string :=
  match s with
  | EmptyString => EmptyString
  | String c rest =>
      if Ascii.eqb c pat then String.append by_ rest
      else String c (replace_first pat by_ rest)
  end.

(** [s.substring(0, n)]. *)
Definition substring0 (n : nat) (s : string) : string := String.substring 0 n s.

(** JavaScript truthiness of a string. *)
Definition nonempty (s : string) : bool :=
  match s with EmptyString => false | _ => true end.

End JsString.

(** ** Numbers *)

Inductive number : Type :=
| NaN
| Fin (q : Q).

Module JsNumber.

Definition add (a b : number) : number :=
  match a, b with
  | Fin x, Fin y => Fin (x + y)
  | _, _ => NaN
  end.

Definition mul (a b : number) : number :=
  match a, b with
  | Fin x, Fin y => Fin (x * y)
  | _, _ => NaN
  end.

(** Division by a divisor the caller has checked to be positive (both
    sources guard their divisions with [> 0]). *)
Definition div (a b : number) : number :=
  match a, b with
  | Fin x, Fin y => Fin (x / y)
  | _, _ => NaN
  end.

(** [Math.round] on rationals: the nearest integer, ties towards
    +infinity. *)
Definition Math_round (x : Q) : Q := inject_Z (Qfloor (x + (1 # 2))).

Definition round (a : number) : number :=
  match a with
  | Fin x => Fin (Math_round x)
  | NaN => NaN
  end.

(** The idiom [Math.round(x * 100) / 100] of both sources. *)
Definition round2 (x : Q) : Q := Math_round (x * 100) / 100.

Definition round2n (a : number) : number :=
  div (round (mul a (Fin 100))) (Fin 100).

Definition is_zero (q : Q) : bool := Qeq_bool q 0.

End JsNumber.

(** ** Exceptions

    A thrown value: an [Error] object of a given constructor name with its
    message, or something that is not an [Error]. *)

Inductive exn : Type :=
| ErrorObject (name : string) (message : string)
| NotAnError.

Definition is_TypeError (e : exn) : bool :=
  match e with
  | ErrorObject name _ => String.eqb name "TypeError"
  | NotAnError => false
  end.

Inductive Outcome (A : Type) : Type :=
| Returned (a : A)
| Thrown (e : exn).
Arguments Returned {A} a.
Arguments Thrown {A} e.

Definition obind {A B} (o : Outcome A) (k : A -> Outcome B) : Outcome B :=
  match o with
  | Returned a => k a
  | Thrown e => Thrown e
  end.

(** ** Dynamic values

    What [response.json()] can return, plus [undefined], which property
    reads produce.  An object is the list of its own properties; its
    prototype is [Object.prototype] (an array's is [Array.prototype]), since
    [JSON.parse] defines every entry, [__proto__] included, as an own
    property. *)

Inductive value : Type :=
| VUndefined
| VNull
| VBool (b : bool)
| VNum (n : number)
| VStr (s : string)
| VArr (items : list value)
| VObj (props : list (string * value)).

(** The values that are not objects. *)
Inductive primitive : Type :=
| PUndefined
| PNull
| PBool (b : bool)
| PNum (n : number)
| PStr (s : string).

(** Built-in operations of the JavaScript engine that the sources reach only
    on ill-shaped data and that have no finite description here; they are
    left abstract. *)
Class JsEngine : Type := {
  (** [Number::toString] outside the integers printed in plain decimal *)
  Number_toString_other : Q -> string;
  (** [StringToNumber] of a string that is not a sequence of decimal digits *)
  StringToNumber : string -> number;
  (** [Date.prototype.toISOString] of the date at a clock reading *)
  Date_toISOString : Z -> string;
  (** [String.prototype.toLowerCase] on a string of UTF-16 code units that
      has a unit from U+0100 on and is not made of Greek letters only *)
  toLowerCase_other : list N -> list N
}.

Module Js.
Import JsString JsNumber.

Definition nullish (v : value) : bool :=
  match v with
  | VUndefined | VNull => true
  | _ => false
  end.

(** ToBoolean. *)
Definition truthy (v : value) : bool :=
  match v with
  | VUndefined | VNull => false
  | VBool b => b
  | VNum NaN => false
  | VNum (Fin q) => negb (is_zero q)
  | VStr s => nonempty s
  | VArr _ | VObj _ => true
  end.

(** [a || b]. *)
Definition or_else (a b : value) : value := if truthy a then a else b.

Fixpoint assoc (k : string) (props : list (string * value)) : value :=
  match props with
  | [] => VUndefined
  | (k', v) :: rest => if String.eqb k k' then v else assoc k rest
  end.

(** Whether an object has an own property of the given name. *)
Definition owns (name : string) (props : list (string * value)) : bool :=
  existsb (fun entry => String.eqb name (fst entry)) props.

(** Reading the property [name] of a value that is neither [null] nor
    [undefined].  The names the sources read (candidates, content, parts,
    text, safetyRatings, category, probability, usageMetadata,
    promptTokenCount, candidatesTokenCount, detail) are defined on no
    built-in prototype, so the read sees own properties only; arrays and
    primitive wrappers own none of them. *)
Definition read (v : value) (name : string) : value :=
  match v with
  | VObj props => assoc name props
  | _ => VUndefined
  end.

(** Reading index [0]. *)
Definition read0 (v : value) : value :=
  match v with
  | VObj props => assoc "0" props
  | VArr items => hd VUndefined items
  | VStr (String c _) => VStr (String c EmptyString)
  | _ => VUndefined
  end.

(** [v?.name] and [v?.[0]]. *)
Definition opt_read (v : value) (name : string) : value :=
  if nullish v then VUndefined else read v name.

Definition opt_read0 (v : value) : value :=
  if nullish v then VUndefined else read0 v.

(** The strings [Array.prototype.join] puts together: the elements
    converted in order, [null] and [undefined] to the empty string. *)
Fixpoint elements (convert : value -> Outcome string) (items : list value)
  : Outcome (list string) :=
  match items with
  | [] => Returned []
  | e :: rest =>
      obind (if nullish e then Returned EmptyString else convert e) (fun part =>
      obind (elements convert rest) (fun parts =>
      Returned (part :: parts)))
  end.

(** What V8 throws when neither [valueOf] nor [toString] of an object gives
    a primitive. *)
Definition cannot_convert : exn :=
  ErrorObject "TypeError" "Cannot convert object to primitive value".

Section Conversions.
Context `{JsEngine}.

(** Integers of magnitude below 10^21 print in plain decimal. *)
Definition Number_toString (q : Q) : string :=
  let r := Qred q in
  if (Qden r =? 1)%positive && (Z.abs (Qnum r) <? 10 ^ 21)
  then NilZero.string_of_int (Z.to_int (Qnum r))
  else Number_toString_other q.

Definition join_comma (parts : list string) : string :=
  match parts with
  | [] => EmptyString
  | p :: rest => fold_left (fun acc x => String.append acc (String.append "," x)) rest p
  end.

Definition primitive_to_string (p : primitive) : string :=
  match p with
  | PUndefined => "undefined"
  | PNull => "null"
  | PBool true => "true"
  | PBool false => "false"
  | PNum NaN => "NaN"
  | PNum (Fin q) => Number_toString q
  | PStr s => s
  end.

(** ToNumber of a primitive.  A string of decimal digits, the empty one
    included, has its decimal value; other strings are left to the engine. *)
Definition primitive_to_number (p : primitive) : number :=
  match p with
  | PUndefined => NaN
  | PNull => Fin 0
  | PBool true => Fin 1
  | PBool false => Fin 0
  | PNum n => n
  | PStr s =>
      match NilEmpty.uint_of_string s with
      | Some digits => Fin (inject_Z (Z.of_uint digits))
      | None => StringToNumber s
      end
  end.

(** ToString.  An array goes through the inherited [join], which converts
    its elements in order, [null] and [undefined] to the empty string.  An
    object goes through [toString] and [valueOf]: the inherited ones give
    "[object Object]" and the object itself; an own entry of either name,
    which is never a function in parsed JSON, is skipped.  So an object that
    has a [toString] entry of its own cannot be converted. *)
Fixpoint to_string (v : value) : Outcome string :=
  match v with
  | VUndefined => Returned (primitive_to_string PUndefined)
  | VNull => Returned (primitive_to_string PNull)
  | VBool b => Returned (primitive_to_string (PBool b))
  | VNum n => Returned (primitive_to_string (PNum n))
  | VStr s => Returned s
  | VArr items =>
      obind (elements to_string items) (fun parts => Returned (join_comma parts))
  | VObj props =>
      if owns "toString" props then Thrown cannot_convert
      else Returned "[object Object]"
  end.

(** ToPrimitive: arrays and objects become their string (for the values of
    parsed JSON the order in which [valueOf] and [toString] are tried makes
    no difference). *)
Definition to_primitive (v : value) : Outcome primitive :=
  match v with
  | VUndefined => Returned PUndefined
  | VNull => Returned PNull
  | VBool b => Returned (PBool b)
  | VNum n => Returned (PNum n)
  | VStr s => Returned (PStr s)
  | VArr _ | VObj _ => obind (to_string v) (fun s => Returned (PStr s))
  end.

(** ToNumber. *)
Definition to_number (v : value) : Outcome number :=
  obind (to_primitive v) (fun p => Returned (primitive_to_number p)).

(** The binary [+]: both operands are made primitive, the left one first. *)
Definition plus (a b : value) : Outcome value :=
  obind (to_primitive a) (fun pa =>
  obind (to_primitive b) (fun pb =>
  Returned
    match pa, pb with
    | PStr _, _ | _, PStr _ =>
        VStr (String.append (primitive_to_string pa) (primitive_to_string pb))
    | _, _ => VNum (JsNumber.add (primitive_to_number pa) (primitive_to_number pb))
    end)).

End Conversions.

End Js.

(** ** The world and the monad of effects *)

(** What the provider sends back: the status, the raw body
    ([await response.text()]) and what [await response.json()] gives, the
    parsed body or the error thrown when the body is not JSON. *)
Record HttpReply : Type := {
  status : Z;
  body_text : string;
  body_json : Outcome value
}.

Inductive FetchResult : Type :=
| Responded (r : HttpReply)
| Rejected (e : exn).

Record Reply : Type := {
  elapsed : Z;            (* clock ticks between the two [Date.now()] *)
  result : FetchResult
}.

Record Call : Type := {
  call_url : string;
  call_payload : value;
  call_reply : Reply
}.

(** The provider is any function of the number of earlier calls, the URL
    and the JSON payload. *)
Record World : Type := {
  clock : Z;
  provider : nat -> string -> value -> Reply;
  calls : list Call;
  pauses : list Z
}.

Definition M (A : Type) : Type := World -> Outcome A * World.

Definition ret {A} (a : A) : M A := fun w => (Returned a, w).

Definition throw {A} (e : exn) : M A := fun w => (Thrown e, w).

Definition bind {A B} (m : M A) (k : A -> M B) : M B :=
  fun w =>
    match m w with
    | (Returned a, w') => k a w'
    | (Thrown e, w') => (Thrown e, w')
    end.

Definition lift {A} (o : Outcome A) : M A := fun w => (o, w).

(** [try { body } catch (error) { handler }]. *)
Definition try_catch {A} (body : M A) (handler : exn -> M A) : M A :=
  fun w =>
    match body w with
    | (Returned a, w') => (Returned a, w')
    | (Thrown e, w') => handler e w'
    end.

Declare Scope js_scope.
Delimit Scope js_scope with js.
Notation "'let*' x := m 'in' k" := (bind m (fun x => k))
  (at level 10, x name, m at level 100, k at level 200) : js_scope.
Notation "m ;; k" := (bind m (fun _ => k))
  (at level 100, k at level 200, right associativity) : js_scope.

Module Effects.

(** [Date.now()] *)
Definition Date_now : M Z := fun w => (Returned (clock w), w).

(** [await fetch(url, { method: "POST", body: JSON.stringify(payload) })] *)
Definition fetch (url : string) (payload : value) : M HttpReply :=
  fun w =>
    let r := provider w (length (calls w)) url payload in
    let w' := {| clock := clock w + elapsed r;
                 provider := provider w;
                 calls := calls w ++ [ {| call_url := url;
                                          call_payload := payload;
                                          call_reply := r |} ];
                 pauses := pauses w |} in
    match result r with
    | Responded resp => (Returned resp, w')
    | Rejected e => (Thrown e, w')
    end.

(** [response.ok] *)
Definition ok (r : HttpReply) : bool := (200 <=? status r) && (status r <=? 299).

(** [await response.json()] *)
Definition json (r : HttpReply) : M value :=
  lift (body_json r).

(** [await new Promise((resolve) => setTimeout(resolve, ms))] *)
Definition sleep (ms : Z) : M unit :=
  fun w => (Returned tt,
            {| clock := clock w + ms;
               provider := provider w;
               calls := calls w;
               pauses := pauses w ++ [ms] |}).

(** [new Date().toISOString().replace("T", " ").substring(0, 19)] *)
Definition timestamp_now `{JsEngine} : M string :=
  fun w =>
    (Returned (JsString.substring0 19
                 (JsString.replace_first "T" " " (Date_toISOString (clock w)))),
     w).

End Effects.

(** ** HTTP responses of the handlers *)

Inductive ResponseBody (A : Type) : Type :=
| BodyNull
| BodyDetail (detail : string)       (* [JSON.stringify({ detail })] *)
| BodyJson (a : A).                  (* [JSON.stringify(a)] *)
Arguments BodyNull {A}.
Arguments BodyDetail {A} detail.
Arguments BodyJson {A} a.

Record Response (A : Type) : Type := {
  resp_status : Z;
  resp_headers : list (string * string);
  resp_body : ResponseBody A
}.
Arguments resp_status {A} _.
Arguments resp_headers {A} _.
Arguments resp_body {A} _.
Arguments Build_Response {A} _ _ _.

Definition corsHeaders : list (string * string) :=
  [ ("Access-Control-Allow-Origin", "*");
    ("Access-Control-Allow-Methods", "GET, POST, PUT, DELETE, OPTIONS");
    ("Access-Control-Allow-Headers", "Content-Type, Authorization, X-Client-Info, Apikey") ]%string.

Definition jsonHeaders : list (string * string) :=
  corsHeaders ++ [ ("Content-Type", "application/json") ]%string.

(** An incoming request: its method and what [await req.json()] gives, the
    parsed body or the error thrown when the body is not JSON. *)
Record Request (B : Type) : Type := {
  method : string;
  req_json : Outcome B
}.
Arguments method {B} _.
Arguments req_json {B} _.

(** ** The result record of one run (declared identically in both sources) *)

Record RunResult : Type := {
  run_number : Z;
  response_text : value;
  latency_ms : Q;
  token_count : value;
  safety_ratings : gmap string value;
  success : bool;
  timestamp : string
}.

(** [result.run_number = n] *)
Definition set_run_number (n : Z) (r : RunResult) : RunResult :=
  {| run_number := n;
     response_text := response_text r;
     latency_ms := latency_ms r;
     token_count := token_count r;
     safety_ratings := safety_ratings r;
     success := success r;
     timestamp := timestamp r |}.

Definition Qltb (x y : Q) : bool := negb (Qle_bool y x).

(** [x || d] for a field declared [number] or [string] that may be absent:
    [undefined], [null], [0] and the empty string give [d]. *)
Definition num_or (x : option Q) (d : Q) : Q :=
  match x with
  | Some n => if JsNumber.is_zero n then d else n
  | None => d
  end.

Definition str_or (x : option string) (d : string) : string :=
  match x with
  | Some s => if JsString.nonempty s then s else d
  | None => d
  end.

(** ** Reading the provider's reply

    Lines 69-80 of the ab-test source and 279-290 of the evaluate source are
    the same text; the three constants they define are given here once, as
    functions of [data]. *)

Module Runner.
Import Js.

Definition cannot_read (v : value) (what : string) : exn :=
  ErrorObject "TypeError"
    (String.append "Cannot read properties of "
       (String.append (match v with VNull => "null" | _ => "undefined" end)
          (String.append " (reading '" (String.append what "')")))).

(** [v.name] and [v[0]], which throw on [null] and [undefined]. *)
Definition member (v : value) (name : string) : Outcome value :=
  if nullish v then Thrown (cannot_read v name) else Returned (read v name).

Definition member0 (v : value) : Outcome value :=
  if nullish v then Thrown (cannot_read v "0") else Returned (read0 v).

(** [data.candidates?.[0]?.content?.parts?.[0]?.text || ""] *)
Definition responseText (data : value) : Outcome value :=
  obind (member data "candidates") (fun candidates =>
  Returned
    (or_else
       (opt_read (opt_read0 (opt_read (opt_read (opt_read0 candidates) "content") "parts")) "text")
       (VStr EmptyString))).

(** The values a [for ... of] visits. *)
Definition iterate (v : value) : Outcome (list value) :=
  match v with
  | VArr items => Returned items
  | VStr s => Returned (List.map (fun c => VStr (String c EmptyString)) (list_ascii_of_string s))
  | _ => Thrown (ErrorObject "TypeError" "data.candidates[0].safetyRatings is not iterable")
  end.

(** The prototype of the object [safetyRatings]: [Object.prototype] at
    first; an assignment to [__proto__] can replace it by [null] or by a
    value of the reply. *)
Inductive prototype : Type :=
| ObjectPrototype
| NullPrototype
| ReplyPrototype (v : value).

(** The object [safetyRatings]: its own properties and its prototype. *)
Record RatingsObject : Type := {
  own : gmap string value;
  proto : prototype
}.

(** [{}] *)
Definition empty_object : RatingsObject := {| own := ∅; proto := ObjectPrototype |}.

(** Whether the lookup of [__proto__] along the prototype chain ends at the
    accessor of [Object.prototype]: not when the chain is empty, and not when
    it starts at an object of the reply that has an own entry of that
    name. *)
Definition inherits_proto_setter (p : prototype) : bool :=
  match p with
  | ObjectPrototype => true
  | NullPrototype => false
  | ReplyPrototype (VObj props) => negb (owns "__proto__" props)
  | ReplyPrototype _ => true
  end.

Section WithEngine.
Context `{JsEngine}.

(** [obj[key] = v]: the key is converted with ToString.  Every name but
    [__proto__] becomes (or stays) an own property.  The name [__proto__],
    unless it is an own property already, reaches the setter inherited from
    [Object.prototype] when there is one: the setter replaces the prototype
    when [v] is [null], an object or an array and does nothing otherwise. *)
Definition assign (obj : RatingsObject) (key v : value) : Outcome RatingsObject :=
  obind (to_string key) (fun k =>
  Returned
    (if String.eqb k "__proto__"
        && negb (bool_decide (is_Some (own obj !! k)))
        && inherits_proto_setter (proto obj)
     then
       match v with
       | VNull => {| own := own obj; proto := NullPrototype |}
       | VArr _ | VObj _ => {| own := own obj; proto := ReplyPrototype v |}
       | _ => obj
       end
     else {| own := <[k := v]> (own obj); proto := proto obj |})).

(** The body of the loop, over the ratings still to visit. *)
Fixpoint safetyRatings_loop (ratings : list value) (safetyRatings : RatingsObject)
  : Outcome RatingsObject :=
  match ratings with
  | [] => Returned safetyRatings
  | rating :: rest =>
      obind (member rating "category") (fun category =>
      obind (member rating "probability") (fun probability =>
      obind (assign safetyRatings category probability) (fun safetyRatings' =>
      safetyRatings_loop rest safetyRatings')))
  end.

(** The constant [safetyRatings] after the loop; the run keeps its own
    properties, which are what [JSON.stringify] writes. *)
Definition safetyRatings_object (data : value) : Outcome RatingsObject :=
  obind (member data "candidates") (fun candidates =>
  if truthy (opt_read (opt_read0 candidates) "safetyRatings") then
    obind (member data "candidates") (fun candidates' =>
    obind (member0 candidates') (fun first =>
    obind (member first "safetyRatings") (fun ratings =>
    obind (iterate ratings) (fun items =>
    safetyRatings_loop items empty_object))))
  else Returned empty_object).

Definition safetyRatings (data : value) : Outcome (gmap string value) :=
  obind (safetyRatings_object data) (fun safetyRatings => Returned (own safetyRatings)).

(** [(data.usageMetadata?.promptTokenCount || 0) +
     (data.usageMetadata?.candidatesTokenCount || 0)] *)
Definition tokenCount (data : value) : Outcome value :=
  obind (member data "usageMetadata") (fun usage1 =>
  obind (member data "usageMetadata") (fun usage2 =>
  plus (or_else (opt_read usage1 "promptTokenCount") (VNum (Fin 0)))
       (or_else (opt_read usage2 "candidatesTokenCount") (VNum (Fin 0))))).

(** The request sent to the provider. *)
Definition endpoint (GEMINI_API_KEY : option string) (modelName : string) : string :=
  String.append "https://generativelanguage.googleapis.com/v1beta/models/"
    (String.append modelName
       (String.append ":generateContent?key="
          (match GEMINI_API_KEY with Some key => key | None => "undefined" end))).

Definition payload (task : string) : value :=
  VObj [ ("contents"%string,
          VArr [ VObj [ ("parts"%string, VArr [ VObj [ ("text"%string, VStr task) ] ]) ] ]) ].

(** [`Gemini API error: ${response.status} - ${errorData}`] *)
Definition provider_error (response : HttpReply) : exn :=
  ErrorObject "Error"
    (String.append "Gemini API error: "
       (String.append (Number_toString (inject_Z (status response)))
          (String.append " - " (body_text response)))).

End WithEngine.

End Runner.

(** ** The loop both aggregators share

    [testModel] and [calculatePassAtK] contain the same loop, over
    [runsPerModel] in one and [k] in the other:
<<
      for (let i = 0; i < n; i++) {
        const result = await runSingleEvaluation(...);
        result.run_number = i + 1;
        runs.push(result);
        if (i < n - 1) await new Promise((resolve) => setTimeout(resolve, 500));
      }
>>
    [run_loop] is that loop from the state it has when the test [i < n] is
    made; the awaited call is the parameter [runner]. *)

Module Loop.
Import Effects.

Section Loop.
Variable runner : M RunResult.
Variable n : Q.

Definition pause_between (i : Z) : M unit :=
  if Qltb (inject_Z i) (n - 1) then sleep 500 else ret tt.

Equations? run_loop (i : Z) (runs : list RunResult) (w : World)
  : Outcome (list RunResult) * World
  by wf (Z.to_nat (Qceiling n - i)) lt :=
  run_loop i runs w with Qlt_le_dec (inject_Z i) n := {
    | right _ => (Returned runs, w)
    | left _ with runner w := {
      | (Thrown e, w1) => (Thrown e, w1)
      | (Returned result, w1) with pause_between i w1 := {
        | (Thrown e, w2) => (Thrown e, w2)
        | (Returned _, w2) =>
            run_loop (i + 1) (runs ++ [set_run_number (i + 1) result]) w2 } } }.
Proof.
  assert (Hc : (inject_Z i < inject_Z (Qceiling n))%Q)
    by (eapply Qlt_le_trans; [eassumption | apply Qle_ceiling]).
  rewrite <- Zlt_Qlt in Hc. lia.
Qed.

End Loop.

End Loop.

(** ** The ab-test function (source lines 1-205) *)

Module ABTest.
Import Js Runner Effects Loop.
Local Open Scope js_scope.

Record ABTestRequest : Type := {
  task : option string;            (* absent or [null] is [None] *)
  runs_per_model : option Q
}.

Record ModelResult : Type := {
  model_name : string;
  average_latency : Q;
  success_rate : Q;
  average_tokens : number;
  runs : list RunResult
}.

Record ABTestResponse : Type := {
  models : list ModelResult
}.

Section Program.
Context `{JsEngine}.
Variable GEMINI_API_KEY : option string.

Definition runSingleEvaluation (task modelName : string) : M RunResult :=
  let* startTime := Date_now in
  let* response := fetch (endpoint GEMINI_API_KEY modelName) (payload task) in
  let* endTime := Date_now in
  let latencyMs := endTime - startTime in
  if negb (ok response) then
    throw (provider_error response)
  else
    let* data := json response in
    let* responseText := lift (responseText data) in
    let* safetyRatings := lift (safetyRatings data) in
    let* tokenCount := lift (tokenCount data) in
    let* now := timestamp_now in
    ret {| run_number := 0;
           response_text := responseText;
           latency_ms := JsNumber.round2 (inject_Z latencyMs);
           token_count := tokenCount;
           safety_ratings := safetyRatings;
           success := true;
           timestamp := now |}.

(** [runs.reduce((sum, run) => sum + run.token_count, 0)], from the sum so
    far. *)
Fixpoint reduce_tokens (runs : list RunResult) (sum : value) : Outcome value :=
  match runs with
  | [] => Returned sum
  | run :: rest => obind (plus sum (token_count run)) (fun sum' => reduce_tokens rest sum')
  end.

(** The constant [averageTokens] of [testModel]. *)
Definition averageTokens (runs : list RunResult) : Outcome number :=
  if (0 <? length runs)%nat then
    obind (reduce_tokens runs (VNum (Fin 0))) (fun total =>
    obind (to_number total) (fun total' =>
    Returned (JsNumber.div total' (Fin (inject_Z (Z.of_nat (length runs)))))))
  else Returned (Fin 0).

Definition testModel (task modelId modelDisplayName : string) (runsPerModel : Q)
  : M ModelResult :=
  let* runs := run_loop (runSingleEvaluation task modelId) runsPerModel 0 [] in
  let averageLatency : Q :=
    if (0 <? length runs)%nat
    then (fold_left (fun sum run => sum + latency_ms run) runs 0 / inject_Z (Z.of_nat (length runs)))%Q
    else 0%Q in
  let* averageTokens := lift (averageTokens runs) in
  ret {| model_name := modelDisplayName;
         average_latency := JsNumber.round2 averageLatency;
         success_rate := 100;
         average_tokens := JsNumber.round2n averageTokens;
         runs := runs |}.

Definition models_table : list (string * string) :=
  [ ("gemini-1.5-flash-8b", "Gemini 1.5 Flash 8B (Fast)");
    ("gemini-1.5-flash", "Gemini 1.5 Flash (Balanced)");
    ("gemini-1.5-pro", "Gemini 1.5 Pro (Quality)") ]%string.

(** [for (const [modelId, modelDisplayName] of models)] *)
Fixpoint models_loop (task : string) (runsPerModel : Q)
  (models : list (string * string)) (results : list ModelResult)
  : M (list ModelResult) :=
  match models with
  | [] => ret results
  | (modelId, modelDisplayName) :: rest =>
      let* modelResult := testModel task modelId modelDisplayName runsPerModel in
      sleep 1000 ;;
      models_loop task runsPerModel rest (results ++ [modelResult])
  end.

Definition error_detail (error : exn) : string :=
  match error with
  | ErrorObject _ message => message
  | NotAnError => "An error occurred"
  end.

(** The function passed to [Deno.serve]. *)
Definition handler (req : Request ABTestRequest) : M (Response ABTestResponse) :=
  if String.eqb (method req) "OPTIONS" then
    ret (Build_Response 200 corsHeaders BodyNull)
  else
    try_catch
      (match GEMINI_API_KEY with
       | Some key => if JsString.nonempty key then ret tt
                     else throw (ErrorObject "Error" "GEMINI_API_KEY environment variable is required")
       | None => throw (ErrorObject "Error" "GEMINI_API_KEY environment variable is required")
       end ;;
       let* body := lift (req_json req) in
       match task body with
       | None => ret (Build_Response 400 jsonHeaders (BodyDetail "task cannot be empty"))
       | Some task =>
           if negb (JsString.nonempty (JsString.trim task)) then
             ret (Build_Response 400 jsonHeaders (BodyDetail "task cannot be empty"))
           else
             let runsPerModel : Q := num_or (runs_per_model body) 3%Q in
             if Qltb runsPerModel 1%Q || Qltb 10%Q runsPerModel then
               ret (Build_Response 400 jsonHeaders
                      (BodyDetail "runs_per_model must be between 1 and 10"))
             else
               let* results := models_loop task runsPerModel models_table [] in
               ret (Build_Response 200 jsonHeaders (BodyJson {| models := results |}))
       end)
      (fun error => ret (Build_Response 500 jsonHeaders (BodyDetail (error_detail error)))).

End Program.

End ABTest.

(** ** The evaluate function (source lines 206-397) *)

Module Evaluate.
Import Js Runner Effects Loop.
Local Open Scope js_scope.

Record EvaluationRequest : Type := {
  task : option string;            (* absent or [null] is [None] *)
  expected_output : option string;
  k : option Q
}.

Record EvaluationResponse : Type := {
  pass_at_k : Q;
  average_latency : Q;
  success_rate : Q;
  total_runs : Q;
  runs : list RunResult
}.

(** [checkSuccess]; its first argument comes from the provider's reply and
    has no method [toLowerCase] unless it is a string. *)
Definition checkSuccess (responseText : value) (expectedOutput : string) : Outcome bool :=
  if negb (JsString.nonempty (JsString.trim expectedOutput)) then
    Returned true
  else
    match responseText with
    | VStr text =>
        Returned (JsString.includes (JsString.toLowerCase text)
                    (JsString.toLowerCase expectedOutput))
    | _ => Thrown (ErrorObject "TypeError" "responseText.toLowerCase is not a function")
    end.

Section Program.
Context `{JsEngine}.
Variable GEMINI_API_KEY : option string.

Definition runSingleEvaluation (task expectedOutput modelName : string) : M RunResult :=
  let* startTime := Date_now in
  let* response := fetch (endpoint GEMINI_API_KEY modelName) (payload task) in
  let* endTime := Date_now in
  let latencyMs := endTime - startTime in
  if negb (ok response) then
    throw (provider_error response)
  else
    let* data := json response in
    let* responseText := lift (responseText data) in
    let* safetyRatings := lift (safetyRatings data) in
    let* tokenCount := lift (tokenCount data) in
    let* success := lift (checkSuccess responseText expectedOutput) in
    let* now := timestamp_now in
    ret {| run_number := 0;
           response_text := responseText;
           latency_ms := JsNumber.round2 (inject_Z latencyMs);
           token_count := tokenCount;
           safety_ratings := safetyRatings;
           success := success;
           timestamp := now |}.

Definition calculatePassAtK (task expectedOutput : string) (k : Q) (modelName : string)
  : M EvaluationResponse :=
  let* runs := run_loop (runSingleEvaluation task expectedOutput modelName) k 0 [] in
  let successfulRuns : nat := length (List.filter (fun run => success run) runs) in
  let passAtK : Q :=
    if Qltb 0 k then (inject_Z (Z.of_nat successfulRuns) / k * 100)%Q else 0%Q in
  let averageLatency : Q :=
    if Qltb 0 k
    then (fold_left (fun sum run => sum + latency_ms run) runs 0 / k)%Q
    else 0%Q in
  ret {| pass_at_k := JsNumber.round2 passAtK;
         average_latency := JsNumber.round2 averageLatency;
         success_rate := JsNumber.round2 passAtK;
         total_runs := k;
         runs := runs |}.

Definition default_model : string := "gemini-1.5-flash".

Definition error_detail (error : exn) : string :=
  match error with
  | ErrorObject _ message => message
  | NotAnError => "An error occurred"
  end.

(** The function passed to [Deno.serve]. *)
Definition handler (req : Request EvaluationRequest) : M (Response EvaluationResponse) :=
  if String.eqb (method req) "OPTIONS" then
    ret (Build_Response 200 corsHeaders BodyNull)
  else
    try_catch
      (match GEMINI_API_KEY with
       | Some key => if JsString.nonempty key then ret tt
                     else throw (ErrorObject "Error" "GEMINI_API_KEY environment variable is required")
       | None => throw (ErrorObject "Error" "GEMINI_API_KEY environment variable is required")
       end ;;
       let* body := lift (req_json req) in
       match task body with
       | None => ret (Build_Response 400 jsonHeaders (BodyDetail "task cannot be empty"))
       | Some task =>
           if negb (JsString.nonempty (JsString.trim task)) then
             ret (Build_Response 400 jsonHeaders (BodyDetail "task cannot be empty"))
           else
             let k : Q := num_or (k body) 3%Q in
             if Qltb k 1%Q || Qltb 10%Q k then
               ret (Build_Response 400 jsonHeaders (BodyDetail "k must be between 1 and 10"))
             else
               let* result :=
                 calculatePassAtK task (str_or (expected_output body) EmptyString)
                   k default_model in
               ret (Build_Response 200 jsonHeaders (BodyJson result))
       end)
      (fun error => ret (Build_Response 500 jsonHeaders (BodyDetail (error_detail error)))).

End Program.

End Evaluate.

(** ** The success check on strings of any code units

    [checkSuccess] (source lines 240-245) once more, on response texts and
    expected outputs that need more than 8 bits per code unit: a string is
    the list of its UTF-16 code units.  [Evaluate.checkSuccess] is the
    restriction of this one to code units below U+0100. *)

Module Wide.

(** WhiteSpace and LineTerminator: TAB, LF, VT, FF, CR, SPACE, NO-BREAK
    SPACE, U+1680, U+2000..U+200A, U+2028, U+2029, U+202F, U+205F, U+3000
    and U+FEFF. *)
Definition is_whitespace (u : N) : bool :=
  ((9 <=? u) && (u <=? 13) || (u =? 32) || (u =? 160) || (u =? 5760)
   || (8192 <=? u) && (u <=? 8202) || (u =? 8232) || (u =? 8233)
   || (u =? 8239) || (u =? 8287) || (u =? 12288) || (u =? 65279))%N.

Fixpoint trimStart (s : list N) : list N :=
  match s with
  | [] => []
  | u :: rest => if is_whitespace u then trimStart rest else s
  end.

Fixpoint trimEnd (s : list N) : list N :=
  match s with
  | [] => []
  | u :: rest =>
      match trimEnd rest with
      | [] => if is_whitespace u then [] else [u]
      | kept => u :: kept
      end
  end.

Definition trim (s : list N) : list N := trimEnd (trimStart s).

(** Below U+0100 lower-casing maps A-Z and U+00C0..U+00DE, except U+00D7,
    to the unit 32 above, character by character. *)
Definition narrow (u : N) : bool := (u <? 256)%N.

Definition lower_narrow (u : N) : N :=
  if ((65 <=? u) && (u <=? 90)
      || (192 <=? u) && (u <=? 222) && negb (u =? 215))%N
  then (u + 32)%N else u.

(** The Greek capital letters U+0391..U+03A9 (U+03A2 is unassigned) and the
    small letters U+03B1..U+03C9.  All of them are cased letters and none is
    case-ignorable. *)
Definition greek_letter (u : N) : bool :=
  ((913 <=? u) && (u <=? 937) && negb (u =? 930) || (945 <=? u) && (u <=? 969))%N.

(** Lower-casing a string of Greek letters: a capital goes to the unit 32
    above, except that the capital sigma U+03A3 becomes the final sigma
    U+03C2 when a letter precedes it and none follows (the condition
    Final_Sigma of Unicode), and the sigma U+03C3 otherwise. *)
Fixpoint lower_greek (preceded : bool) (s : list N) : list N :=
  match s with
  | [] => []
  | u :: rest =>
      (if (u =? 931)%N then
         if preceded && match rest with [] => true | _ => false end then 962%N else 963%N
       else if ((913 <=? u) && (u <=? 937))%N then (u + 32)%N
       else u)
      :: lower_greek true rest
  end.

(** [String.prototype.toLowerCase]. *)
Definition toLowerCase `{JsEngine} (s : list N) : list N :=
  if forallb narrow s then List.map lower_narrow s
  else if forallb greek_letter s then lower_greek false s
  else toLowerCase_other s.

Fixpoint starts_with (s needle : list N) : bool :=
  match needle, s with
  | [], _ => true
  | _ :: _, [] => false
  | n :: needle', u :: s' => (n =? u)%N && starts_with s' needle'
  end.

(** [String.prototype.includes]. *)
Fixpoint includes (s needle : list N) : bool :=
  starts_with s needle
  || match s with
     | [] => false
     | _ :: rest => includes rest needle
     end.

Definition checkSuccess `{JsEngine} (responseText expectedOutput : list N) : bool :=
  match trim expectedOutput with
  | [] => true
  | _ => includes (toLowerCase responseText) (toLowerCase expectedOutput)
  end.

(** The code units of a string of the narrow kind. *)
Definition widen (s : string) : list N := List.map N_of_ascii (list_ascii_of_string s).

(** The response "ΑΣΑ" and the expected output "ΑΣ". *)
Definition alpha_sigma_alpha : list N := [913; 931; 913]%N.
Definition alpha_sigma : list N := [913; 931]%N.

End Wide.

(** ** A concrete engine and provider, for running the model *)

Module Sample.

(** The abstract built-ins, fixed to stand-ins; of these the samples below
    reach only [Date_toISOString]. *)
#[export] Instance engine : JsEngine := {|
  Number_toString_other := fun _ => EmptyString;
  StringToNumber := fun _ => NaN;
  Date_toISOString := fun _ => "2024-05-01T12:00:00.000Z"%string;
  toLowerCase_other := fun s => s
|}.

(** A 200 reply carrying [doc], after [ms] milliseconds (the raw text of a
    successful reply is never read). *)
Definition reply_ok (ms : Z) (doc : value) : Reply :=
  {| elapsed := ms;
     result := Responded {| status := 200; body_text := EmptyString; body_json := Returned doc |} |}.

Definition text_doc (text : string) (prompt completion : Z) : value :=
  VObj [ ("candidates"%string,
          VArr [ VObj [ ("content"%string,
                         VObj [ ("parts"%string, VArr [ VObj [ ("text"%string, VStr text) ] ]) ]);
                        ("safetyRatings"%string,
                         VArr [ VObj [ ("category"%string, VStr "HARM_CATEGORY_HARASSMENT");
                                       ("probability"%string, VStr "NEGLIGIBLE") ] ]) ] ]);
         ("usageMetadata"%string,
          VObj [ ("promptTokenCount"%string, VNum (Fin (inject_Z prompt)));
                 ("candidatesTokenCount"%string, VNum (Fin (inject_Z completion))) ]) ].

Definition world (p : nat -> string -> value -> Reply) : World :=
  {| clock := 1700000000000; provider := p; calls := []; pauses := [] |}.

Definition key : option string := Some "secret"%string.

Definition post {B} (body : B) : Request B :=
  {| method := "POST"; req_json := Returned body |}.

(** The n-th call (from 0) is answered after [100 * (n + 1)] ms. *)
Definition steady (text : string) : nat -> string -> value -> Reply :=
  fun n _ _ => reply_ok (100 * (Z.of_nat n + 1)) (text_doc text 3 4).

(** A provider whose body is the JSON document [null]. *)
Definition null_body : nat -> string -> value -> Reply :=
  fun _ _ _ => reply_ok 5 VNull.

(** A reply whose first candidate lists a [null] safety entry. *)
Definition null_rating : value :=
  VObj [ ("candidates"%string, VArr [ VObj [ ("safetyRatings"%string, VArr [ VNull ]) ] ]) ].

(** The second call is refused with status 429. *)
Definition quota_reply : HttpReply :=
  {| status := 429;
     body_text := "quota exceeded";
     body_json := Thrown (ErrorObject "SyntaxError" "Unexpected token q in JSON") |}.

Definition out_of_quota : nat -> string -> value -> Reply :=
  fun n _ _ =>
    if (n =? 1)%nat then {| elapsed := 7; result := Responded quota_reply |}
    else reply_ok 100 (text_doc "Patient summary: flu" 3 4).

(** Only the first call answers with the word "Diagnosis". *)
Definition one_in_three : nat -> string -> value -> Reply :=
  fun n _ _ =>
    reply_ok 120 (text_doc (if (n =? 0)%nat then "Patient Diagnosis: flu"
                            else "Patient summary: flu") 3 4).

Definition evaluate_body (k : option Q) (expected : option string) : Evaluate.EvaluationRequest :=
  {| Evaluate.task := Some "Summarize the report"%string;
     Evaluate.expected_output := expected;
     Evaluate.k := k |}.

Definition abtest_body (runs : option Q) : ABTest.ABTestRequest :=
  {| ABTest.task := Some "Summarize the report"%string;
     ABTest.runs_per_model := runs |}.

(** The two handlers on this engine and credential. *)
Definition evaluate : Request Evaluate.EvaluationRequest -> M (Response Evaluate.EvaluationResponse) :=
  Evaluate.handler (H := engine) key.

Definition compare : Request ABTest.ABTestRequest -> M (Response ABTest.ABTestResponse) :=
  ABTest.handler (H := engine) key.

End Sample.


(** ** The vocabulary of the specification

    The notions the specification uses in its own words, defined without
    reference to the code, to compare the code with. *)

Module Spec.
Import JsString.

(** "Empty or whitespace-only". *)
Fixpoint whitespace_only (s : string) : bool :=
  match s with
  | EmptyString => true
  | String c rest => is_whitespace c && whitespace_only rest
  end.

Definition blank (s : option string) : bool :=
  match s with
  | None => true
  | Some text => whitespace_only text
  end.

(** Two strings of the same length whose characters agree up to case. *)
Inductive same_ignoring_case : string -> string -> Prop :=
| sic_nil : same_ignoring_case EmptyString EmptyString
| sic_cons c d s t :
    lower_char c = lower_char d ->
    same_ignoring_case s t ->
    same_ignoring_case (String c s) (String d t).

(** "[hay] contains [needle] as a case-insensitive substring". *)
Definition occurs_ignoring_case (needle hay : string) : Prop :=
  exists before middle after,
    hay = before +:+ middle +:+ after /\ same_ignoring_case middle needle.

(** "[y] is [x] rounded to 2 decimal places": [y] is a whole number of
    hundredths and [x] lies within half a hundredth of it (a tie goes
    up). *)
Definition rounded_to_2_decimals (x y : Q) : Prop :=
  exists m : Z,
    (y == inject_Z m / 100)%Q /\
    (inject_Z m - (1 # 2) <= x * 100)%Q /\ (x * 100 < inject_Z m + (1 # 2))%Q.

Definition sum (xs : list Q) : Q := fold_right Qplus 0%Q xs.


(** The sequence 1, 2, ..., n. *)
Definition one_to (n : nat) : list Z := List.map Z.of_nat (seq 1 n).

(** The provider credential is set (to a non-empty string). *)
Definition configured (GEMINI_API_KEY : option string) : bool :=
  match GEMINI_API_KEY with
  | Some key => nonempty key
  | None => false
  end.

(** A call the provider answered with a status outside 200..299. *)
Definition refused (c : Call) : option HttpReply :=
  match result (call_reply c) with
  | Responded r => if Effects.ok r then None else Some r
  | Rejected _ => None
  end.

(** The levels the text of a reply is read through:
    [data.candidates], its element 0, [.content], [.parts], its element 0,
    [.text]. *)
Definition text_levels (data : value) : list value :=
  let candidates := Js.read data "candidates" in
  let first := Js.opt_read0 candidates in
  let content := Js.opt_read first "content" in
  let parts := Js.opt_read content "parts" in
  let part := Js.opt_read0 parts in
  [candidates; first; content; parts; part; Js.opt_read part "text"].

(** The safety entries of the first candidate. *)
Definition safety_entries (data : value) : value :=
  Js.opt_read (Js.opt_read0 (Js.read data "candidates")) "safetyRatings".

(** The two usage fields. *)
Definition prompt_tokens (data : value) : value :=
  Js.opt_read (Js.read data "usageMetadata") "promptTokenCount".

Definition completion_tokens (data : value) : value :=
  Js.opt_read (Js.read data "usageMetadata") "candidatesTokenCount".

Definition zero : value := VNum (Fin 0).

(** "Can be converted to a primitive value": every value but an object
    with an entry [toString] of its own and an array that holds such an
    object, at any depth. *)
Fixpoint convertible (v : value) : bool :=
  match v with
  | VArr items => forallb convertible items
  | VObj props => negb (Js.owns "toString" props)
  | _ => true
  end.

(** A primitive value other than [null] and [undefined]. *)
Definition plain (v : value) : bool :=
  match v with
  | VBool _ | VNum _ | VStr _ => true
  | _ => false
  end.


(** What the provider answers to the next call, and the world after that
    call. *)
Definition next_reply (w : World) (url : string) (body : value) : Reply :=
  provider w (length (calls w)) url body.

Definition after_call (w : World) (url : string) (body : value) : World :=
  {| clock := clock w + elapsed (next_reply w url body);
     provider := provider w;
     calls := calls w ++ [ {| call_url := url;
                              call_payload := body;
                              call_reply := next_reply w url body |} ];
     pauses := pauses w |}.

(** The calls a computation may have made, given how it ended: every call
    was answered with a success status, except that a computation that threw
    may have been stopped by its last call, and then, if that call was
    refused, what it threw is the provider error of that reply. *)
Definition answered (c : Call) : Prop := refused c = None.

Definition trace_fits `{JsEngine} {A} (o : Outcome A) (new : list Call) : Prop :=
  match o with
  | Returned _ => Forall answered new
  | Thrown e =>
      new = [] \/
      exists earlier c,
        new = earlier ++ [c] /\ Forall answered earlier /\
        forall r, refused c = Some r -> e = Runner.provider_error r
  end.

(** The number of runs marked successful. *)
Fixpoint successes (runs : list RunResult) : nat :=
  match runs with
  | [] => 0%nat
  | r :: rest => if success r then S (successes rest) else successes rest
  end.

End Spec.

(** ** What a computation did to the world

    The calls it added to the log, the pauses it made and the time that
    passed, for statements about the traffic and the duration of a request. *)

Module Footprint.

(** What a call sent: the URL and the JSON payload. *)
Definition sent (c : Call) : string * value := (call_url c, call_payload c).

(** The time the calls took, as the provider reported it. *)
Definition duration (new : list Call) : Z :=
  fold_right (fun c t => elapsed (call_reply c) + t) 0 new.

Definition total (ps : list Z) : Z := fold_right Z.add 0 ps.

(** [w'] is [w] after the calls [new] and the pauses [ps], and nothing
    else. *)
Definition extends (w w' : World) (new : list Call) (ps : list Z) : Prop :=
  provider w' = provider w
  /\ calls w' = calls w ++ new
  /\ pauses w' = pauses w ++ ps
  /\ clock w' = clock w + duration new + total ps.

(** [w1] is [w] after [count] calls, all sending [body] to [url], and
    [gaps] pauses of 500 ms. *)
Definition footprint_of (url : string) (body : value) (w w1 : World)
  (count gaps : nat) : Prop :=
  exists new, extends w w1 new (replicate gaps 500)
              /\ List.map sent new = replicate count (url, body).

(** The calls and pauses of one model of the comparison: [n] calls to the
    model, [n - 1] pauses of 500 ms between them, one pause of 1000 ms
    after. *)
Definition model_calls (url : string) (body : value) (n : nat) : list (string * value) :=
  replicate n (url, body).

Definition model_pauses (n : nat) : list Z := replicate (n - 1) 500 ++ [1000].

End Footprint.

(** ** Whether a reply can be processed

    What the runner makes of a reply, leaving out the fields of the run that
    cannot fail: the error it throws, or nothing.  [expected] is the expected
    output of the evaluation, and [None] in the comparison, which makes no
    success check. *)

Module Processing.
Import Js Runner Effects.

Definition reading `{JsEngine} (expected : option string) (r : Reply) : Outcome unit :=
  match result r with
  | Rejected e => Thrown e
  | Responded response =>
      if ok response then
        obind (body_json response) (fun data =>
        obind (responseText data) (fun text =>
        obind (safetyRatings data) (fun _ =>
        obind (tokenCount data) (fun _ =>
        match expected with
        | Some wanted => obind (Evaluate.checkSuccess text wanted) (fun _ => Returned tt)
        | None => Returned tt
        end))))
      else Thrown (provider_error response)
  end.

Definition processable `{JsEngine} (expected : option string) (c : Call) : Prop :=
  reading expected (call_reply c) = Returned tt.

(** The calls fit the way a computation ended: all were processable, except
    that the last call of a computation that threw gave the error thrown. *)
Definition ends_with `{JsEngine} {A} (expected : option string)
  (o : Outcome A) (new : list Call) : Prop :=
  match o with
  | Returned _ => Forall (processable expected) new
  | Thrown e =>
      exists earlier c,
        new = earlier ++ [c] /\ Forall (processable expected) earlier
        /\ reading expected (call_reply c) = Thrown e
  end.

(** The text a reply yields. *)
Definition text_of (data : value) : value :=
  or_else (List.last (Spec.text_levels data) VUndefined) (VStr EmptyString).

(** A reply of the documented kind: an object (or any value but [null])
    whose two usage counts can be converted to primitive values and whose
    safety entries, when present, are an array of entries other than [null]
    with categories that can be converted. *)
Definition well_shaped (data : value) : Prop :=
  nullish data = false
  /\ Spec.convertible (Spec.prompt_tokens data) = true
  /\ Spec.convertible (Spec.completion_tokens data) = true
  /\ (truthy (Spec.safety_entries data) = true ->
      exists items,
        Spec.safety_entries data = VArr items
        /\ Forall (fun entry => nullish entry = false
                                /\ Spec.convertible (read entry "category") = true) items).

End Processing.

(** ** The safety map, key by key *)

Module Ratings.
Import Js.



End Ratings.

(** ** More sample providers *)

Module Sample2.

(** The network fails on every call. *)
Definition broken_line : nat -> string -> value -> Reply :=
  fun _ _ _ =>
    {| elapsed := 30; result := Rejected (ErrorObject "TypeError" "error sending request") |}.

(** A reply whose text is the number 42. *)
Definition number_doc : value :=
  VObj [ ("candidates"%string,
          VArr [ VObj [ ("content"%string,
                         VObj [ ("parts"%string,
                                 VArr [ VObj [ ("text"%string, VNum (Fin 42)) ] ]) ]) ] ]) ].

Definition numeric_text : nat -> string -> value -> Reply :=
  fun _ _ _ => Sample.reply_ok 80 number_doc.


(** A reply that sets [__proto__] to [null] and then rates it. *)
Definition unhooked : value :=
  VObj [ ("candidates"%string,
          VArr [ VObj [ ("safetyRatings"%string,
                         VArr [ VObj [ ("category"%string, VStr "__proto__");
                                       ("probability"%string, VNull) ];
                                VObj [ ("category"%string, VStr "__proto__");
                                       ("probability"%string, VStr "MEDIUM") ] ]) ] ]) ].

(** A reply whose prompt token count is the object [{"toString": null}]. *)
Definition odd_count : value :=
  VObj [ ("usageMetadata"%string,
          VObj [ ("promptTokenCount"%string, VObj [ ("toString"%string, VNull) ]) ]) ].

(** A reply whose only safety entry has the category [{"toString": null}]. *)
Definition odd_category : value :=
  VObj [ ("candidates"%string,
          VArr [ VObj [ ("safetyRatings"%string,
                         VArr [ VObj [ ("category"%string, VObj [ ("toString"%string, VNull) ]);
                                       ("probability"%string, VStr "LOW") ] ]) ] ]) ].


End Sample2.

(** ** The two page components that call the functions *)

(** The component [SingleEvaluation]: its state (one field per [useState]),
    the click handler [handleEvaluate] and [toggleRun].  A handler is a
    function on the state; [handleEvaluate] is cut at its [await fetch]:
    [handleEvaluate_begin] gives the state while the request is under way
    and the request, as the URL and the object that is serialised into the
    body; [handleEvaluate_end] takes the outcome of the [fetch]. *)
Module SingleEvaluation.
Import Js Runner.

Record State : Type := {
  task : string;
  expectedOutput : string;
  k : number;
  loading : bool;
  result : value;                  (* [null] or the parsed body of an answer *)
  error : string;
  copied : bool;
  expandedRuns : gset Z
}.

Definition setLoading (b : bool) (s : State) : State :=
  {| task := task s; expectedOutput := expectedOutput s; k := k s;
     loading := b; result := result s; error := error s;
     copied := copied s; expandedRuns := expandedRuns s |}.

Definition setResult (v : value) (s : State) : State :=
  {| task := task s; expectedOutput := expectedOutput s; k := k s;
     loading := loading s; result := v; error := error s;
     copied := copied s; expandedRuns := expandedRuns s |}.

Definition setError (e : string) (s : State) : State :=
  {| task := task s; expectedOutput := expectedOutput s; k := k s;
     loading := loading s; result := result s; error := e;
     copied := copied s; expandedRuns := expandedRuns s |}.

Definition setExpandedRuns (runs : gset Z) (s : State) : State :=
  {| task := task s; expectedOutput := expectedOutput s; k := k s;
     loading := loading s; result := result s; error := error s;
     copied := copied s; expandedRuns := runs |}.

Section Component.
Context `{JsEngine}.
(** [import.meta.env.VITE_SUPABASE_URL], which the build replaces by a
    string or leaves [undefined]. *)
Variable VITE_SUPABASE_URL : primitive.
(** The message this browser gives to the [TypeError] it throws on a value:
    on [null] and [undefined] when a property is read, on an object when it
    cannot be converted to a string. *)
Variable unreadable : value -> string.

Definition API_URL : string :=
  String.append (primitive_to_string VITE_SUPABASE_URL) "/functions/v1".

(** The object given to [JSON.stringify]. *)
Definition request_body (s : State) : value :=
  VObj [ ("task"%string, VStr (task s));
         ("expected_output"%string, VStr (expectedOutput s));
         ("k"%string, VNum (k s)) ].

Definition handleEvaluate_begin (s : State) : State * option (string * value) :=
  if negb (JsString.nonempty (JsString.trim (task s))) then
    (setError "Task cannot be empty" s, None)
  else
    (setResult VNull (setError EmptyString (setLoading true s)),
     Some (String.append API_URL "/evaluate", request_body s)).

(** The rest of the [try] block: what is given to [setResult], or what is
    thrown. *)
Definition answer_data (answer : FetchResult) : Outcome value :=
  match answer with
  | Rejected e => Thrown e
  | Responded response =>
      if negb (Effects.ok response) then
        obind (body_json response) (fun errorData =>
        if nullish errorData then
          Thrown (ErrorObject "TypeError" (unreadable errorData))
        else
          let detail := or_else (read errorData "detail") (VStr "Evaluation failed") in
          match to_string detail with
          | Returned message => Thrown (ErrorObject "Error" message)
          | Thrown _ => Thrown (ErrorObject "TypeError" (unreadable detail))
          end)
      else
        body_json response
  end.

(** [err instanceof Error ? err.message : 'An error occurred'] *)
Definition shown (err : exn) : string :=
  match err with
  | ErrorObject _ message => message
  | NotAnError => "An error occurred"
  end.

Definition handleEvaluate_end (answer : FetchResult) (s : State) : State :=
  setLoading false
    match answer_data answer with
    | Returned data => setResult data s
    | Thrown err => setError (shown err) s
    end.

Definition handleEvaluate (network : string -> value -> FetchResult) (s : State) : State :=
  match handleEvaluate_begin s with
  | (waiting, None) => waiting
  | (waiting, Some (url, body)) => handleEvaluate_end (network url body) waiting
  end.

Definition toggleRun (runNumber : Z) (s : State) : State :=
  let newExpanded := expandedRuns s in
  let newExpanded :=
    if decide (runNumber ∈ newExpanded) then newExpanded ∖ {[ runNumber ]}
    else newExpanded ∪ {[ runNumber ]} in
  setExpandedRuns newExpanded s.

End Component.
End SingleEvaluation.

(** The component [ABTesting], in the same way. *)
Module ABTesting.
Import Js Runner.

Record State : Type := {
  task : string;
  runsPerModel : number;
  loading : bool;
  result : value;
  error : string;
  expandedModels : gset string
}.

Definition setLoading (b : bool) (s : State) : State :=
  {| task := task s; runsPerModel := runsPerModel s;
     loading := b; result := result s; error := error s;
     expandedModels := expandedModels s |}.

Definition setResult (v : value) (s : State) : State :=
  {| task := task s; runsPerModel := runsPerModel s;
     loading := loading s; result := v; error := error s;
     expandedModels := expandedModels s |}.

Definition setError (e : string) (s : State) : State :=
  {| task := task s; runsPerModel := runsPerModel s;
     loading := loading s; result := result s; error := e;
     expandedModels := expandedModels s |}.

Definition setExpandedModels (names : gset string) (s : State) : State :=
  {| task := task s; runsPerModel := runsPerModel s;
     loading := loading s; result := result s; error := error s;
     expandedModels := names |}.

Section Component.
Context `{JsEngine}.
Variable VITE_SUPABASE_URL : primitive.
Variable unreadable : value -> string.

Definition API_URL : string :=
  String.append (primitive_to_string VITE_SUPABASE_URL) "/functions/v1".

Definition request_body (s : State) : value :=
  VObj [ ("task"%string, VStr (task s));
         ("runs_per_model"%string, VNum (runsPerModel s)) ].

Definition handleABTest_begin (s : State) : State * option (string * value) :=
  if negb (JsString.nonempty (JsString.trim (task s))) then
    (setError "Task cannot be empty" s, None)
  else
    (setResult VNull (setError EmptyString (setLoading true s)),
     Some (String.append API_URL "/ab-test", request_body s)).

Definition answer_data (answer : FetchResult) : Outcome value :=
  match answer with
  | Rejected e => Thrown e
  | Responded response =>
      if negb (Effects.ok response) then
        obind (body_json response) (fun errorData =>
        if nullish errorData then
          Thrown (ErrorObject "TypeError" (unreadable errorData))
        else
          let detail := or_else (read errorData "detail") (VStr "A/B test failed") in
          match to_string detail with
          | Returned message => Thrown (ErrorObject "Error" message)
          | Thrown _ => Thrown (ErrorObject "TypeError" (unreadable detail))
          end)
      else
        body_json response
  end.

Definition shown (err : exn) : string :=
  match err with
  | ErrorObject _ message => message
  | NotAnError => "An error occurred"
  end.

Definition handleABTest_end (answer : FetchResult) (s : State) : State :=
  setLoading false
    match answer_data answer with
    | Returned data => setResult data s
    | Thrown err => setError (shown err) s
    end.

Definition handleABTest (network : string -> value -> FetchResult) (s : State) : State :=
  match handleABTest_begin s with
  | (waiting, None) => waiting
  | (waiting, Some (url, body)) => handleABTest_end (network url body) waiting
  end.

Definition toggleModel (modelName : string) (s : State) : State :=
  let newExpanded := expandedModels s in
  let newExpanded :=
    if decide (modelName ∈ newExpanded) then newExpanded ∖ {[ modelName ]}
    else newExpanded ∪ {[ modelName ]} in
  setExpandedModels newExpanded s.

End Component.
End ABTesting.

(** ** The pages in front of the functions *)

Module Deployment.
Import Js.

(** The request a function receives when the page's [fetch] reaches it: the
    method is POST and the body parses to what the page serialised ([NaN]
    is serialised as [null]). *)
Definition evaluate_request (s : SingleEvaluation.State) : Request Evaluate.EvaluationRequest :=
  {| method := "POST";
     req_json := Returned {| Evaluate.task := Some (SingleEvaluation.task s);
                             Evaluate.expected_output := Some (SingleEvaluation.expectedOutput s);
                             Evaluate.k := match SingleEvaluation.k s with
                                           | NaN => None
                                           | Fin q => Some q
                                           end |} |}.

Definition compare_request (s : ABTesting.State) : Request ABTest.ABTestRequest :=
  {| method := "POST";
     req_json := Returned {| ABTest.task := Some (ABTesting.task s);
                             ABTest.runs_per_model := match ABTesting.runsPerModel s with
                                                      | NaN => None
                                                      | Fin q => Some q
                                                      end |} |}.

(** The answer the page sees is the response the function made: the same
    status, and a body that parses to what the function serialised, [encode]
    being what serialising and parsing make of a result. *)
Definition carries {A} (encode : A -> value) (resp : Response A) (answer : HttpReply) : Prop :=
  status answer = resp_status resp
  /\ match resp_body resp with
     | BodyNull => exists e, body_json answer = Thrown e
     | BodyDetail detail => body_json answer = Returned (VObj [ ("detail"%string, VStr detail) ])
     | BodyJson a => body_json answer = Returned (encode a)
     end.

(** A page with the given inputs and nothing shown. *)
Definition fresh (task expectedOutput : string) (k : number) : SingleEvaluation.State :=
  {| SingleEvaluation.task := task;
     SingleEvaluation.expectedOutput := expectedOutput;
     SingleEvaluation.k := k;
     SingleEvaluation.loading := false;
     SingleEvaluation.result := VNull;
     SingleEvaluation.error := EmptyString;
     SingleEvaluation.copied := false;
     SingleEvaluation.expandedRuns := ∅ |}.

(** The answer to a request for 11 runs (the page never reads the raw
    text). *)
Definition too_many : HttpReply :=
  {| status := 400;
     body_text := EmptyString;
     body_json := Returned (VObj [ ("detail"%string, VStr "k must be between 1 and 10") ]) |}.

End Deployment.

(** * Properties *)

(** ** Strings: what [trim], [includes] and [toLowerCase] decide *)

Module StringFacts.
Import JsString Spec.

Lemma trimStart_empty s : trimStart s = EmptyString <-> whitespace_only s = true.
Proof.
  induction s as [|c s IH]; simpl; [tauto|].
  destruct (is_whitespace c); simpl; [exact IH|]. split; discriminate.
Qed.

Lemma trimEnd_empty s : trimEnd s = EmptyString <-> whitespace_only s = true.
Proof.
  induction s as [|c s IH]; simpl; [tauto|].
  destruct (trimEnd s) eqn:E.
  - destruct (is_whitespace c); simpl.
    + split; [intros _; apply IH; reflexivity | reflexivity].
    + split; discriminate.
  - split; [discriminate|]. intros Hw. apply andb_prop in Hw as [_ Hw].
    apply IH in Hw. discriminate.
Qed.

Lemma trimStart_head s c rest : trimStart s = String c rest -> is_whitespace c = false.
Proof.
  induction s as [|d s IH]; simpl; [discriminate|].
  destruct (is_whitespace d) eqn:E; [exact IH|].
  intros [= <- <-]. exact E.
Qed.

Lemma trim_empty s : trim s = EmptyString <-> whitespace_only s = true.
Proof.
  unfold trim. rewrite trimEnd_empty. split.
  - intros Hw. apply trimStart_empty.
    destruct (trimStart s) as [|c rest] eqn:E; [reflexivity|].
    apply trimStart_head in E. simpl in Hw. rewrite E in Hw. discriminate.
  - intros Hw. apply trimStart_empty in Hw. rewrite Hw. reflexivity.
Qed.

(** The test [!s.trim()] of the sources. *)
Lemma blank_test s : negb (nonempty (trim s)) = whitespace_only s.
Proof.
  destruct (whitespace_only s) eqn:E.
  - apply trim_empty in E. rewrite E. reflexivity.
  - destruct (trim s) eqn:T; [|reflexivity].
    apply trim_empty in T. congruence.
Qed.

Lemma prefix_iff t s : String.prefix t s = true <-> exists after, s = t +:+ after.
Proof.
  revert s. induction t as [|c t IH]; intros s.
  - split; [intros _; exists s; reflexivity | intros _; destruct s; reflexivity].
  - destruct s as [|d s]; simpl.
    + split; [discriminate | intros [a Ha]; discriminate].
    + destruct (ascii_dec c d) as [->|Hne].
      * rewrite IH. split; intros [a Ha]; exists a; [rewrite Ha; reflexivity|].
        injection Ha as ->. reflexivity.
      * split; [discriminate|]. intros [a Ha]. injection Ha as -> _. congruence.
Qed.

Lemma includes_iff s t :
  includes s t = true <-> exists before after, s = before +:+ t +:+ after.
Proof.
  induction s as [|c s IH];
    [ change (includes EmptyString t) with (String.prefix t EmptyString || false)
    | change (includes (String c s) t)
        with (String.prefix t (String c s) || includes s t) ].
  - rewrite orb_false_r, prefix_iff. split.
    + intros [a Ha]. exists EmptyString, a. exact Ha.
    + intros [[|b bs] [a Ha]]; [exists a; exact Ha | discriminate].
  - rewrite orb_true_iff, prefix_iff, IH. split.
    + intros [[a Ha] | [b [a Ha]]].
      * exists EmptyString, a. exact Ha.
      * exists (String c b), a. simpl. rewrite Ha. reflexivity.
    + intros [[|d b] [a Ha]].
      * left. exists a. exact Ha.
      * right. injection Ha as -> ->. exists b, a. reflexivity.
Qed.

Lemma toLowerCase_app a b : toLowerCase (a +:+ b) = toLowerCase a +:+ toLowerCase b.
Proof. induction a as [|c a IH]; simpl; [reflexivity | rewrite IH; reflexivity]. Qed.

(** A split of the lower-cased string comes from a split of the string. *)
Lemma toLowerCase_split s x y :
  toLowerCase s = x +:+ y ->
  exists a b, s = a +:+ b /\ toLowerCase a = x /\ toLowerCase b = y.
Proof.
  revert s. induction x as [|c x IH]; intros s; simpl.
  - intros E. exists EmptyString, s. auto.
  - destruct s as [|d s]; simpl; [discriminate|].
    intros [= Hc Hs]. destruct (IH _ Hs) as (a & b & -> & Ha & Hb).
    exists (String d a), b. simpl. rewrite Hc, Ha. auto.
Qed.

Lemma same_ignoring_case_iff a b :
  same_ignoring_case a b <-> toLowerCase a = toLowerCase b.
Proof.
  split.
  - induction 1; simpl; congruence.
  - revert b. induction a as [|c a IH]; intros [|d b]; simpl; try discriminate.
    + constructor.
    + intros [= Hc Hs]. constructor; auto.
Qed.

(** What [text.toLowerCase().includes(expected.toLowerCase())] decides. *)
Lemma includes_lower_iff text expected :
  includes (toLowerCase text) (toLowerCase expected) = true
  <-> occurs_ignoring_case expected text.
Proof.
  rewrite includes_iff. unfold occurs_ignoring_case. split.
  - intros (x & z & E).
    apply toLowerCase_split in E as (a & r & -> & _ & E).
    apply toLowerCase_split in E as (m & c & -> & Hm & _).
    exists a, m, c. split; [reflexivity|]. apply same_ignoring_case_iff. exact Hm.
  - intros (a & m & c & -> & Hm). apply same_ignoring_case_iff in Hm.
    exists (toLowerCase a), (toLowerCase c).
    rewrite !toLowerCase_app, Hm. reflexivity.
Qed.

End StringFacts.

(** ** Strings of any code units: the narrow ones among them *)

Module WideFacts.
Import Wide.

Lemma unit_bound (c : ascii) : (N_of_ascii c < 256)%N.
Proof. apply N_ascii_bounded. Qed.

Lemma is_whitespace_widen (c : ascii) :
  is_whitespace (N_of_ascii c) = JsString.is_whitespace c.
Proof.
  unfold is_whitespace, JsString.is_whitespace. cbv zeta.
  pose proof (unit_bound c) as Hb. set (n := N_of_ascii c) in *.
  replace (n =? 5760)%N with false by (symmetry; apply N.eqb_neq; lia).
  replace (8192 <=? n)%N with false by (symmetry; apply N.leb_gt; lia).
  replace (n =? 8232)%N with false by (symmetry; apply N.eqb_neq; lia).
  replace (n =? 8233)%N with false by (symmetry; apply N.eqb_neq; lia).
  replace (n =? 8239)%N with false by (symmetry; apply N.eqb_neq; lia).
  replace (n =? 8287)%N with false by (symmetry; apply N.eqb_neq; lia).
  replace (n =? 12288)%N with false by (symmetry; apply N.eqb_neq; lia).
  replace (n =? 65279)%N with false by (symmetry; apply N.eqb_neq; lia).
  cbn [andb]. rewrite !orb_false_r. reflexivity.
Qed.

Lemma widen_cons (c : ascii) (s : string) : widen (String c s) = N_of_ascii c :: widen s.
Proof. reflexivity. Qed.

Lemma trimStart_widen (s : string) : trimStart (widen s) = widen (JsString.trimStart s).
Proof.
  induction s as [|c s IH]; [reflexivity|].
  rewrite widen_cons. cbn [trimStart JsString.trimStart]. rewrite is_whitespace_widen.
  destruct (JsString.is_whitespace c); [exact IH | reflexivity].
Qed.

Lemma trimEnd_widen (s : string) : trimEnd (widen s) = widen (JsString.trimEnd s).
Proof.
  induction s as [|c s IH]; [reflexivity|].
  rewrite widen_cons. cbn [trimEnd JsString.trimEnd]. rewrite IH, is_whitespace_widen.
  destruct (JsString.trimEnd s) as [|d kept]; [|reflexivity].
  cbn [widen list_ascii_of_string List.map]. destruct (JsString.is_whitespace c); reflexivity.
Qed.

Lemma trim_widen (s : string) : trim (widen s) = widen (JsString.trim s).
Proof. unfold trim, JsString.trim. rewrite trimStart_widen, trimEnd_widen. reflexivity. Qed.

Lemma widen_nil (s : string) : widen s = [] <-> s = EmptyString.
Proof. destruct s; [tauto|]. split; discriminate. Qed.

Lemma narrow_widen (s : string) : forallb narrow (widen s) = true.
Proof.
  induction s as [|c s IH]; [reflexivity|].
  rewrite widen_cons. cbn [forallb]. rewrite IH, andb_true_r.
  apply N.ltb_lt, unit_bound.
Qed.

Lemma lower_narrow_widen (c : ascii) :
  lower_narrow (N_of_ascii c) = N_of_ascii (JsString.lower_char c).
Proof.
  unfold lower_narrow, JsString.lower_char. cbv zeta.
  destruct ((65 <=? N_of_ascii c) && (N_of_ascii c <=? 90)
            || (192 <=? N_of_ascii c) && (N_of_ascii c <=? 222)
               && negb (N_of_ascii c =? 215))%N eqn:E; [|reflexivity].
  symmetry. apply N_ascii_embedding.
  apply orb_true_iff in E as [E | E].
  - apply andb_true_iff in E as [_ E]. apply N.leb_le in E. lia.
  - apply andb_true_iff in E as [E _]. apply andb_true_iff in E as [_ E].
    apply N.leb_le in E. lia.
Qed.

Lemma toLowerCase_widen `{JsEngine} (s : string) :
  toLowerCase (widen s) = widen (JsString.toLowerCase s).
Proof.
  unfold toLowerCase. rewrite narrow_widen.
  induction s as [|c s IH]; [reflexivity|].
  cbn [JsString.toLowerCase]. rewrite !widen_cons. cbn [List.map].
  rewrite IH, lower_narrow_widen. reflexivity.
Qed.

Lemma unit_eqb (c d : ascii) :
  (N_of_ascii c =? N_of_ascii d)%N = if ascii_dec c d then true else false.
Proof.
  destruct (ascii_dec c d) as [-> | Hne]; [apply N.eqb_refl|].
  apply N.eqb_neq. intros E. apply Hne.
  rewrite <- (ascii_N_embedding c), <- (ascii_N_embedding d), E. reflexivity.
Qed.

Lemma starts_with_widen (s needle : string) :
  starts_with (widen s) (widen needle) = String.prefix needle s.
Proof.
  revert s. induction needle as [|n needle IH]; intros s.
  - destruct s; reflexivity.
  - destruct s as [|c s]; [reflexivity|].
    rewrite !widen_cons. cbn [starts_with String.prefix]. rewrite unit_eqb, IH.
    destruct (ascii_dec n c); reflexivity.
Qed.

Lemma includes_widen (s needle : string) :
  includes (widen s) (widen needle) = JsString.includes s needle.
Proof.
  induction s as [|c s IH].
  - change (includes (widen EmptyString) (widen needle))
      with (starts_with (widen EmptyString) (widen needle) || false).
    change (JsString.includes EmptyString needle)
      with (String.prefix needle EmptyString || false).
    rewrite starts_with_widen. reflexivity.
  - change (includes (widen (String c s)) (widen needle))
      with (starts_with (widen (String c s)) (widen needle) || includes (widen s) (widen needle)).
    change (JsString.includes (String c s) needle)
      with (String.prefix needle (String c s) || JsString.includes s needle).
    rewrite starts_with_widen, IH. reflexivity.
Qed.

(** On strings of code units below U+0100 the two success checks agree. *)
Lemma checkSuccess_widen `{JsEngine} (text expected : string) :
  Evaluate.checkSuccess (VStr text) expected
  = Returned (checkSuccess (widen text) (widen expected)).
Proof.
  unfold Evaluate.checkSuccess, checkSuccess. rewrite trim_widen.
  destruct (JsString.trim expected) as [|c rest]; [reflexivity|].
  rewrite widen_cons. cbn [JsString.nonempty negb].
  rewrite !toLowerCase_widen, includes_widen. reflexivity.
Qed.

End WideFacts.

(** ** Numbers: the rounding idiom *)

Module NumberFacts.
Import JsNumber Spec.

Lemma Math_round_bounds x :
  (Math_round x - (1 # 2) <= x)%Q /\ (x < Math_round x + (1 # 2))%Q.
Proof.
  unfold Math_round. split.
  - pose proof (Qfloor_le (x + (1 # 2))) as Hle.
    apply (Qplus_le_l _ _ (1 # 2)). ring_simplify. ring_simplify in Hle.
    exact Hle.
  - pose proof (Qlt_floor (x + (1 # 2))) as Hlt.
    rewrite inject_Z_plus in Hlt.
    apply (Qplus_lt_l _ _ (1 # 2)). ring_simplify. ring_simplify in Hlt.
    exact Hlt.
Qed.

Lemma round2_rounds x : rounded_to_2_decimals x (round2 x).
Proof.
  exists (Qfloor (x * 100 + (1 # 2))). split; [reflexivity|].
  exact (Math_round_bounds (x * 100)).
Qed.

Lemma Math_round_integer z : Math_round (inject_Z z) = inject_Z z.
Proof.
  unfold Math_round. f_equal.
  unfold Qfloor, Qplus, inject_Z. simpl.
  rewrite Z.mul_1_r. symmetry.
  apply (Z.div_unique_pos _ _ _ 1); lia.
Qed.

(** On a whole number the rounding to 2 decimals changes nothing. *)
Lemma round2_integer z : (round2 (inject_Z z) == inject_Z z)%Q.
Proof.
  unfold round2.
  assert (E : (inject_Z z * 100 == inject_Z (z * 100))%Q)
    by (rewrite inject_Z_mult; reflexivity).
  assert (R : (Math_round (inject_Z z * 100) == Math_round (inject_Z (z * 100)))%Q).
  { unfold Math_round. rewrite E. reflexivity. }
  rewrite R, Math_round_integer, inject_Z_mult. field.
Qed.

(** The sum a [reduce] from [0] computes is the sum of the list. *)
Lemma fold_left_Qplus (xs : list Q) (a : Q) :
  (fold_left Qplus xs a == a + fold_right Qplus 0 xs)%Q.
Proof.
  revert a. induction xs as [|x xs IH]; intros a; simpl.
  - ring.
  - rewrite IH. ring.
Qed.

End NumberFacts.

(** ** The loop: an invariant rule *)

Module LoopFacts.
Import Effects Loop Spec.

Section Rule.
Variable runner : M RunResult.
Variable n : Q.

Lemma pause_between_returns i w :
  exists w', pause_between n i w = (Returned tt, w')
             /\ calls w' = calls w /\ provider w' = provider w.
Proof.
  unfold pause_between. destruct (Qltb _ _); eexists; split; [reflexivity|..];
    split; reflexivity.
Qed.

Variable Inv : Z -> list RunResult -> World -> Prop.
Variable Exc : exn -> World -> Prop.

Hypothesis step :
  forall i runs w, Inv i runs w -> (inject_Z i < n)%Q ->
    match runner w with
    | (Returned r, w1) =>
        Inv (i + 1) (runs ++ [set_run_number (i + 1) r]) (snd (pause_between n i w1))
    | (Thrown e, w1) => Exc e w1
    end.

Lemma run_loop_rule i runs w :
  Inv i runs w ->
  match run_loop runner n i runs w with
  | (Returned rs, w') => exists j, Inv j rs w' /\ (n <= inject_Z j)%Q
  | (Thrown e, w') => Exc e w'
  end.
Proof.
  funelim (run_loop runner n i runs w); intros HI.
  - exists i. auto.
  - pose proof (step i runs w HI q) as S. rewrite Heq in S. exact S.
  - pose proof (step i runs w HI q) as S. rewrite Heq0 in S.
    rewrite Heq in S. simpl in S. apply H. exact S.
  - destruct (pause_between_returns i w1) as (w' & E & _). congruence.
Qed.

End Rule.

Section Corollaries.
Context `{JsEngine}.
Variable runner : M RunResult.
Variable n : Q.

Lemma Qceiling_least (j : Z) : (n <= inject_Z j)%Q -> Qceiling n <= j.
Proof.
  intros Hle. unfold Qceiling.
  assert (Hop : (- inject_Z j <= - n)%Q) by (apply Qopp_le_compat; exact Hle).
  apply Qfloor_resp_le in Hop.
  replace (- inject_Z j)%Q with (inject_Z (- j)) in Hop by reflexivity.
  rewrite Qfloor_Z in Hop. lia.
Qed.

Lemma Qceiling_above (i : Z) : (inject_Z i < n)%Q -> i + 1 <= Qceiling n.
Proof.
  intros Hlt.
  assert (Hc : (inject_Z i < inject_Z (Qceiling n))%Q)
    by (eapply Qlt_le_trans; [exact Hlt | apply Qle_ceiling]).
  rewrite <- Zlt_Qlt in Hc. lia.
Qed.

(** The loop numbers its runs 1, 2, ... and makes as many as the least
    integer that is not below [n]. *)
Lemma run_loop_numbering w rs w' :
  run_loop runner n 0 [] w = (Returned rs, w') ->
  List.map run_number rs = one_to (Z.to_nat (Qceiling n)).
Proof.
  intros E.
  pose proof (run_loop_rule runner n
    (fun i runs _ => 0 <= i <= Z.max 0 (Qceiling n)
                     /\ List.map run_number runs = one_to (Z.to_nat i))
    (fun _ _ => True)) as R.
  specialize (R ltac:(
    intros i runs w0 (Hi & Hm) Hlt; destruct (runner w0) as [[r|e] w1]; [|exact I];
    apply Qceiling_above in Hlt; split; [lia|];
    rewrite List.map_app, Hm; unfold one_to;
    replace (Z.to_nat (i + 1)) with (Z.to_nat i + 1)%nat by lia;
    rewrite seq_app, List.map_app; simpl; do 3 f_equal; lia) 0 [] w).
  rewrite E in R. destruct R as (j & (Hj & Hm) & Hn); [split; [lia|reflexivity]|].
  apply Qceiling_least in Hn. rewrite Hm. f_equal. lia.
Qed.

(** Whatever every run satisfies on return, and keeps when numbered, all
    runs of the loop satisfy. *)
Lemma run_loop_Forall (P : RunResult -> Prop) i runs w rs w' :
  (forall w0 r w1, runner w0 = (Returned r, w1) -> P r) ->
  (forall m r, P r -> P (set_run_number m r)) ->
  Forall P runs ->
  run_loop runner n i runs w = (Returned rs, w') ->
  Forall P rs.
Proof.
  intros Hrun Hset Hruns E.
  pose proof (run_loop_rule runner n (fun _ runs _ => Forall P runs) (fun _ _ => True)) as R.
  specialize (R ltac:(
    intros i0 runs0 w0 H0 _; destruct (runner w0) as [[r|e] w1] eqn:Er; [|exact I];
    apply Forall_app; split; [exact H0|]; constructor; [|constructor];
    apply Hset; eapply Hrun; exact Er) i runs w Hruns).
  rewrite E in R. destruct R as (j & Hj & _). exact Hj.
Qed.

(** The provider is the same after the loop, and the calls made fit the
    way it ended. *)
Lemma run_loop_trace i runs w :
  (forall w0, exists c, calls (runner w0).2 = calls w0 ++ [c]
                        /\ trace_fits (runner w0).1 [c]) ->
  exists new,
    calls (run_loop runner n i runs w).2 = calls w ++ new /\
    trace_fits (run_loop runner n i runs w).1 new.
Proof.
  intros Hcall.
  pose proof (run_loop_rule runner n
    (fun _ _ w1 => exists new, calls w1 = calls w ++ new /\ Forall answered new)
    (fun e w1 => exists new, calls w1 = calls w ++ new /\ trace_fits (@Thrown unit e) new))
    as R.
  specialize (R ltac:(
    intros i0 runs0 w0 (new & Hc & Hall) _;
    destruct (Hcall w0) as (c & Hc1 & Hfit);
    destruct (runner w0) as [[r|e] w1]; simpl in *;
    [ destruct (pause_between_returns n i0 w1) as (w2 & -> & Hc2 & _); simpl;
      exists (new ++ [c]); rewrite Hc2, Hc1, Hc, <- app_assoc; split; [reflexivity|];
      apply Forall_app; split; assumption
    | exists (new ++ [c]); rewrite Hc1, Hc, <- app_assoc; split; [reflexivity|];
      right; exists new, c; split; [reflexivity|]; split; [exact Hall|];
      destruct Hfit as [Hnil | (earlier & c' & Heq & _ & Hr)];
      [ discriminate
      | destruct earlier as [|? [|? ?]]; try discriminate;
        injection Heq as ->; exact Hr ] ]) i runs w).
  assert (H0 : exists new, calls w = calls w ++ new /\ Forall answered new)
    by (exists []; rewrite app_nil_r; split; [reflexivity | constructor]).
  specialize (R H0).
  destruct (run_loop runner n i runs w) as [[rs|e] w']; simpl.
  - destruct R as (j & (new & Hc & Hall) & _). exists new. auto.
  - destruct R as (new & Hc & Hfit). exists new. auto.
Qed.

(** Calls that were all answered may precede any fitting trace. *)
Lemma trace_fits_app {A} (o : Outcome A) (before new : list Call) :
  Forall answered before -> trace_fits o new -> trace_fits o (before ++ new).
Proof.
  intros Hb Hfit. destruct o as [a|e]; simpl in *.
  - apply Forall_app; split; assumption.
  - destruct Hfit as [-> | (earlier & c & -> & He & Hc)].
    + rewrite app_nil_r.
      induction before as [|c front _] using rev_ind; [left; reflexivity|].
      right. exists front, c. apply Forall_app in Hb as [Hf Hc].
      split; [reflexivity|]. split; [exact Hf|].
      intros r Hr. apply Forall_inv in Hc. unfold answered in Hc. congruence.
    + right. exists (before ++ earlier), c. rewrite app_assoc.
      split; [reflexivity|]. split; [apply Forall_app; split; assumption | exact Hc].
Qed.

(** A refused call is the last call of a fitting trace, and decides what
    was thrown. *)
Lemma trace_fits_refused {A} (o : Outcome A) (new : list Call) c r :
  trace_fits o new -> In c new -> refused c = Some r ->
  (exists earlier, new = earlier ++ [c]) /\ o = Thrown (Runner.provider_error r).
Proof.
  intros Hfit Hin Hr. destruct o as [a|e]; simpl in Hfit.
  - rewrite Forall_forall in Hfit. apply list_elem_of_In in Hin.
    specialize (Hfit c Hin). unfold answered in Hfit. congruence.
  - destruct Hfit as [-> | (earlier & c' & -> & He & Hc)]; [contradiction|].
    apply in_app_or in Hin as [Hin | [<- | []]].
    + rewrite Forall_forall in He. apply list_elem_of_In in Hin.
      specialize (He c Hin). unfold answered in He. congruence.
    + split; [exists earlier; reflexivity|]. f_equal. apply Hc. exact Hr.
Qed.

End Corollaries.

End LoopFacts.

(** ** Reading the reply *)

Module RunnerFacts.
Import Js Runner Spec.

Lemma opt_read_nullish v name : nullish v = true -> opt_read v name = VUndefined.
Proof. unfold opt_read. intros ->. reflexivity. Qed.

Lemma opt_read0_nullish v : nullish v = true -> opt_read0 v = VUndefined.
Proof. unfold opt_read0. intros ->. reflexivity. Qed.

Lemma nullish_falsy v : nullish v = true -> truthy v = false.
Proof. destruct v; simpl; congruence. Qed.

Lemma or_else_nullish v d : nullish v = true -> or_else v d = d.
Proof. unfold or_else. intros Hn. rewrite (nullish_falsy v Hn). reflexivity. Qed.

Lemma member_defined v name : nullish v = false -> member v name = Returned (read v name).
Proof. unfold member. intros ->. reflexivity. Qed.

Lemma member0_defined v : nullish v = false -> member0 v = Returned (read0 v).
Proof. unfold member0. intros ->. reflexivity. Qed.

Lemma truthy_defined v : truthy v = true -> nullish v = false.
Proof. destruct v; simpl; congruence. Qed.

(** A missing level makes everything read through it [undefined]. *)
Lemma text_levels_missing data :
  Exists (fun level => nullish level = true) (text_levels data) ->
  nullish (List.last (text_levels data) VUndefined) = true.
Proof.
  unfold text_levels. cbv zeta. intros Hex.
  repeat match goal with
         | Hx : Exists _ (_ :: _) |- _ => apply Exists_cons in Hx as [Hx | Hx]
         | Hx : Exists _ [] |- _ => apply Exists_nil in Hx; contradiction
         end; cbn [List.last];
    repeat first [ rewrite (opt_read0_nullish _ Hex) in *
                 | rewrite (opt_read_nullish _ _ Hex) in *
                 | exact Hex
                 | rewrite opt_read_nullish by reflexivity
                 | rewrite opt_read0_nullish by reflexivity
                 | reflexivity ].
Qed.

(** Induction on values, with the elements of an array as smaller values. *)
Lemma value_elements_ind (P : value -> Prop) :
  P VUndefined -> P VNull -> (forall b, P (VBool b)) -> (forall n, P (VNum n)) ->
  (forall s, P (VStr s)) ->
  (forall items, Forall P items -> P (VArr items)) ->
  (forall props, P (VObj props)) ->
  forall v, P v.
Proof.
  intros Hu Hn Hb Hnum Hs Ha Ho.
  fix IH 1. intros v.
  destruct v as [| |b|n|s|items|props];
    [exact Hu | exact Hn | apply Hb | apply Hnum | apply Hs | | apply Ho].
  apply Ha. induction items as [|x rest IHrest]; constructor; [apply IH | exact IHrest].
Qed.

Section WithEngine.
Context `{JsEngine}.

(** ToString throws on the values that cannot be converted, and on no
    others; what it throws is always the same error. *)
Lemma to_string_cases v :
  match to_string v with
  | Returned _ => convertible v = true
  | Thrown e => convertible v = false /\ e = cannot_convert
  end.
Proof.
  induction v as [| |b|n|s|items IH|props] using value_elements_ind;
    try reflexivity.
  - cbn [to_string convertible].
    induction IH as [|x rest Hx _ IHrest]; [reflexivity|].
    cbn [elements forallb].
    destruct (nullish x) eqn:En.
    + assert (Hc : convertible x = true) by (destruct x; try discriminate; reflexivity).
      rewrite Hc. cbn [obind andb].
      destruct (elements to_string rest) as [parts|e]; cbn [obind] in *; exact IHrest.
    + destruct (to_string x) as [part|e]; cbn [obind].
      * rewrite Hx. cbn [andb].
        destruct (elements to_string rest) as [parts|e]; cbn [obind] in *; exact IHrest.
      * destruct Hx as [-> ->]. split; reflexivity.
  - cbn [to_string convertible]. destruct (owns "toString" props); [split|]; reflexivity.
Qed.

Lemma to_string_convertible v :
  convertible v = true -> exists s, to_string v = Returned s.
Proof.
  intros Hc. pose proof (to_string_cases v) as Hs.
  destruct (to_string v) as [s|e]; [eauto|]. destruct Hs as [Hs _]. congruence.
Qed.

Lemma to_string_throws v e : to_string v = Thrown e -> convertible v = false /\ e = cannot_convert.
Proof. intros E. pose proof (to_string_cases v) as Hs. rewrite E in Hs. exact Hs. Qed.

Lemma to_primitive_convertible v :
  convertible v = true -> exists p, to_primitive v = Returned p.
Proof.
  intros Hc. destruct v; try (eexists; reflexivity);
    unfold to_primitive; destruct (to_string_convertible _ Hc) as (s & ->);
    eexists; reflexivity.
Qed.

Lemma to_primitive_throws v e :
  to_primitive v = Thrown e -> convertible v = false /\ e = cannot_convert.
Proof.
  destruct v; try discriminate; unfold to_primitive;
    destruct (to_string _) as [s|e'] eqn:E; try discriminate;
    intros [= <-]; exact (to_string_throws _ _ E).
Qed.

(** A primitive is its own primitive value. *)
Lemma to_primitive_plain v :
  plain v = true -> exists p, to_primitive v = Returned p /\ to_string v = Returned (primitive_to_string p).
Proof. destruct v; try discriminate; intros _; eexists; split; reflexivity. Qed.

(** What [+] gives is a number or a string. *)
Lemma plus_plain a b v : plus a b = Returned v -> plain v = true.
Proof.
  unfold plus. destruct (to_primitive a) as [pa|]; [|discriminate].
  destruct (to_primitive b) as [pb|]; [|discriminate]. cbn [obind].
  intros [= <-]. destruct pa, pb; reflexivity.
Qed.

Lemma plus_convertible a b :
  convertible a = true -> convertible b = true -> exists v, plus a b = Returned v.
Proof.
  intros Ha Hb. unfold plus.
  destruct (to_primitive_convertible a Ha) as (pa & ->).
  destruct (to_primitive_convertible b Hb) as (pb & ->).
  eexists. reflexivity.
Qed.

Lemma plus_throws a b e :
  plus a b = Thrown e ->
  (convertible a = false \/ convertible b = false) /\ e = cannot_convert.
Proof.
  unfold plus. destruct (to_primitive a) as [pa|ea] eqn:Ea; cbn [obind].
  - destruct (to_primitive b) as [pb|eb] eqn:Eb; cbn [obind]; [discriminate|].
    intros [= <-]. apply to_primitive_throws in Eb as [Hb ->]. auto.
  - intros [= <-]. apply to_primitive_throws in Ea as [Ha ->]. auto.
Qed.


Lemma or_else_convertible v d :
  convertible v = true -> convertible d = true -> convertible (or_else v d) = true.
Proof. unfold or_else. destruct (truthy v); auto. Qed.

Lemma responseText_defined data :
  nullish data = false ->
  responseText data =
    Returned (or_else (List.last (text_levels data) VUndefined) (VStr EmptyString)).
Proof. intros Hd. unfold responseText. rewrite member_defined by exact Hd. reflexivity. Qed.

Lemma tokenCount_defined data :
  nullish data = false ->
  tokenCount data =
    plus (or_else (prompt_tokens data) zero) (or_else (completion_tokens data) zero).
Proof. intros Hd. unfold tokenCount. rewrite member_defined by exact Hd. reflexivity. Qed.

(** The token count of a reply is a number or a string. *)
Lemma tokenCount_plain data tokens : tokenCount data = Returned tokens -> plain tokens = true.
Proof.
  unfold tokenCount. destruct (member data "usageMetadata"); [|discriminate].
  cbn [obind]. apply plus_plain.
Qed.

Lemma tokenCount_returns data :
  nullish data = false ->
  convertible (prompt_tokens data) = true -> convertible (completion_tokens data) = true ->
  exists tokens, tokenCount data = Returned tokens.
Proof.
  intros Hd Hp Hc. rewrite (tokenCount_defined data Hd).
  apply plus_convertible; apply or_else_convertible; auto.
Qed.

Lemma assign_returns obj key v :
  convertible key = true -> exists obj', assign obj key v = Returned obj'.
Proof.
  intros Hk. unfold assign. destruct (to_string_convertible key Hk) as (k & ->).
  eexists. reflexivity.
Qed.

Lemma safetyRatings_loop_defined items acc :
  Forall (fun entry => nullish entry = false
                       /\ convertible (read entry "category") = true) items ->
  exists ratings, safetyRatings_loop items acc = Returned ratings.
Proof.
  intros Hall. revert acc. induction Hall as [|x xs [Hx Hc] _ IH]; intros acc; simpl.
  - eauto.
  - rewrite !member_defined by exact Hx. cbn [obind].
    destruct (assign_returns acc _ (read x "probability") Hc) as (acc' & ->).
    cbn [obind]. apply IH.
Qed.

Lemma safetyRatings_absent data :
  nullish data = false -> truthy (safety_entries data) = false ->
  safetyRatings data = Returned ∅.
Proof.
  intros Hd Hf. unfold safetyRatings, safetyRatings_object.
  rewrite member_defined by exact Hd. simpl.
  unfold safety_entries in Hf. rewrite Hf. reflexivity.
Qed.

Lemma safetyRatings_array data items :
  nullish data = false ->
  safety_entries data = VArr items ->
  safetyRatings data
  = obind (safetyRatings_loop items empty_object) (fun obj => Returned (own obj)).
Proof.
  intros Hd Hs. unfold safetyRatings, safetyRatings_object.
  rewrite !member_defined by exact Hd. simpl.
  unfold safety_entries in Hs. rewrite Hs. simpl.
  assert (Hc : nullish (read data "candidates") = false).
  { destruct (nullish (read data "candidates")) eqn:E; [|reflexivity].
    rewrite (opt_read0_nullish _ E) in Hs. discriminate. }
  rewrite member0_defined by exact Hc. simpl.
  assert (Ho : opt_read0 (read data "candidates") = read0 (read data "candidates"))
    by (unfold opt_read0; rewrite Hc; reflexivity).
  rewrite Ho in Hs.
  assert (Hf : nullish (read0 (read data "candidates")) = false).
  { destruct (nullish (read0 (read data "candidates"))) eqn:E; [|reflexivity].
    rewrite (opt_read_nullish _ _ E) in Hs. discriminate. }
  rewrite member_defined by exact Hf. simpl.
  unfold opt_read in Hs. rewrite Hf in Hs. rewrite Hs. reflexivity.
Qed.

Lemma safetyRatings_defined data items :
  nullish data = false ->
  safety_entries data = VArr items ->
  Forall (fun entry => nullish entry = false
                       /\ convertible (read entry "category") = true) items ->
  exists ratings, safetyRatings data = Returned ratings.
Proof.
  intros Hd Hs Hall. rewrite (safetyRatings_array data items Hd Hs).
  destruct (safetyRatings_loop_defined items empty_object Hall) as (obj & ->).
  eexists. reflexivity.
Qed.

End WithEngine.

End RunnerFacts.

(** ** Comparisons on rationals *)

Module OrderFacts.

Lemma Qltb_lt x y : Qltb x y = true <-> (x < y)%Q.
Proof.
  unfold Qltb. rewrite negb_true_iff, <- not_true_iff_false, Qle_bool_iff.
  split; [apply Qnot_le_lt | apply Qlt_not_le].
Qed.

Lemma Qltb_ge x y : Qltb x y = false <-> (y <= x)%Q.
Proof.
  unfold Qltb. rewrite negb_false_iff, Qle_bool_iff. reflexivity.
Qed.

Lemma is_zero_iff q : JsNumber.is_zero q = true <-> (q == 0)%Q.
Proof. unfold JsNumber.is_zero. apply Qeq_bool_iff. Qed.

(** [n || 3] keeps every number but zero. *)
Lemma num_or_nonzero q d : ~ (q == 0)%Q -> num_or (Some q) d = q.
Proof.
  intros Hq. unfold num_or. destruct (JsNumber.is_zero q) eqn:E; [|reflexivity].
  apply is_zero_iff in E. contradiction.
Qed.

Lemma out_of_range_test q :
  Qltb q 1 || Qltb 10 q = true <-> ((q < 1)%Q \/ (10 < q)%Q).
Proof. rewrite orb_true_iff, !Qltb_lt. reflexivity. Qed.

End OrderFacts.

(** ** The evaluate function *)

Module EvaluateFacts.
Import Js Runner Effects Loop Spec Evaluate.

Section WithEngine.
Context `{JsEngine}.
Variable GEMINI_API_KEY : option string.

Local Abbreviation run := (runSingleEvaluation GEMINI_API_KEY).

(** One run is one call; what it returns is read off the reply. *)
Lemma evaluate_run_cases task expected model w :
  let url := endpoint GEMINI_API_KEY model in
  let w' := after_call w url (payload task) in
  run task expected model w =
    (match result (next_reply w url (payload task)) with
     | Rejected e => Thrown e
     | Responded response =>
         if ok response then
           match body_json response with
           | Thrown e => Thrown e
           | Returned data =>
               obind (responseText data) (fun text =>
               obind (safetyRatings data) (fun ratings =>
               obind (tokenCount data) (fun tokens =>
               obind (checkSuccess text expected) (fun passed =>
               Returned
                 {| run_number := 0;
                    response_text := text;
                    latency_ms := JsNumber.round2 (inject_Z (clock w' - clock w));
                    token_count := tokens;
                    safety_ratings := ratings;
                    success := passed;
                    timestamp :=
                      JsString.substring0 19
                        (JsString.replace_first "T" " " (Date_toISOString (clock w'))) |}))))
           end
         else Thrown (provider_error response)
     end, w').
Proof.
  intros url w'. subst url w'.
  unfold runSingleEvaluation, after_call, next_reply, bind, Date_now, fetch.
  destruct (result (provider w _ _ _)) as [response|e]; [|reflexivity].
  destruct (ok response); cbn [negb]; [|reflexivity].
  unfold json, bind, lift. destruct (body_json response) as [data|]; [|reflexivity].
  unfold ret, lift, timestamp_now.
  destruct (responseText data); [|reflexivity].
  destruct (safetyRatings data); [|reflexivity].
  destruct (tokenCount data); [|reflexivity].
  simpl. destruct (checkSuccess _ _); reflexivity.
Qed.

Lemma evaluate_run_trace task expected model w :
  exists c, calls (run task expected model w).2 = calls w ++ [c]
            /\ trace_fits (run task expected model w).1 [c].
Proof.
  rewrite evaluate_run_cases. cbn [fst snd after_call calls].
  eexists. split; [reflexivity|].
  assert (Hone : forall c : Call, answered c -> Forall answered [c])
    by (intros c Hc; constructor; [exact Hc | constructor]).
  destruct (result (next_reply w _ _)) as [response|e] eqn:Er.
  - destruct (ok response) eqn:Eok.
    + assert (Ha : forall c : Call, call_reply c = next_reply w
                (endpoint GEMINI_API_KEY model) (payload task) -> answered c)
        by (intros c Hc; unfold answered, refused; rewrite Hc, Er, Eok; reflexivity).
      match goal with
      | |- trace_fits ?o _ => destruct o
      end.
      * apply Hone, Ha. reflexivity.
      * right. eexists [], _. split; [reflexivity|]. split; [constructor|].
        intros r Hr. unfold refused in Hr. cbn [call_reply] in Hr.
        rewrite Er, Eok in Hr. discriminate.
    + right. eexists [], _. split; [reflexivity|]. split; [constructor|].
      intros r. unfold refused. cbn [call_reply]. rewrite Er, Eok.
      intros [= <-]. reflexivity.
  - right. eexists [], _. split; [reflexivity|]. split; [constructor|].
    intros r. unfold refused. cbn [call_reply]. rewrite Er. discriminate.
Qed.

(** The aggregate is a function of the runs of the loop. *)
Lemma calculatePassAtK_cases task expected k model w :
  calculatePassAtK GEMINI_API_KEY task expected k model w =
    match run_loop (run task expected model) k 0 [] w with
    | (Returned runs, w') =>
        (Returned
           {| pass_at_k :=
                JsNumber.round2
                  (if Qltb 0 k
                   then inject_Z (Z.of_nat (length (List.filter (fun r => success r) runs)))
                        / k * 100
                   else 0)%Q;
              average_latency :=
                JsNumber.round2
                  (if Qltb 0 k
                   then fold_left (fun sum r => sum + latency_ms r) runs 0 / k
                   else 0)%Q;
              success_rate :=
                JsNumber.round2
                  (if Qltb 0 k
                   then inject_Z (Z.of_nat (length (List.filter (fun r => success r) runs)))
                        / k * 100
                   else 0)%Q;
              total_runs := k;
              runs := runs |}, w')
    | (Thrown e, w') => (Thrown e, w')
    end.
Proof.
  unfold calculatePassAtK, bind.
  destruct (run_loop _ _ _ _ _) as [[rs|e] w']; reflexivity.
Qed.

(** The handler, branch by branch. *)
Lemma evaluate_handler_cases req w :
  handler GEMINI_API_KEY req w =
    if String.eqb (method req) "OPTIONS" then
      (Returned (Build_Response 200 corsHeaders BodyNull), w)
    else if negb (configured GEMINI_API_KEY) then
      (Returned (Build_Response 500 jsonHeaders
                   (BodyDetail "GEMINI_API_KEY environment variable is required")), w)
    else
      match req_json req with
      | Thrown e =>
          (Returned (Build_Response 500 jsonHeaders (BodyDetail (error_detail e))), w)
      | Returned body =>
          match task body with
          | None =>
              (Returned (Build_Response 400 jsonHeaders
                           (BodyDetail "task cannot be empty")), w)
          | Some text =>
              if whitespace_only text then
                (Returned (Build_Response 400 jsonHeaders
                             (BodyDetail "task cannot be empty")), w)
              else if Qltb (num_or (k body) 3) 1 || Qltb 10 (num_or (k body) 3) then
                (Returned (Build_Response 400 jsonHeaders
                             (BodyDetail "k must be between 1 and 10")), w)
              else
                match calculatePassAtK GEMINI_API_KEY text
                        (str_or (expected_output body) EmptyString)
                        (num_or (k body) 3) default_model w with
                | (Returned res, w') =>
                    (Returned (Build_Response 200 jsonHeaders (BodyJson res)), w')
                | (Thrown e, w') =>
                    (Returned (Build_Response 500 jsonHeaders
                                 (BodyDetail (error_detail e))), w')
                end
          end
      end.
Proof.
  unfold handler. destruct (String.eqb (method req) "OPTIONS"); [reflexivity|].
  unfold try_catch, bind, configured.
  destruct GEMINI_API_KEY as [key|]; [|reflexivity].
  destruct (JsString.nonempty key); [|reflexivity].
  cbn [negb ret]. unfold lift. destruct (req_json req) as [body|]; [|reflexivity].
  cbn [ret]. destruct (task body) as [text|]; [|reflexivity].
  rewrite StringFacts.blank_test.
  destruct (whitespace_only text); [reflexivity|].
  destruct (Qltb (num_or (k body) 3) 1 || Qltb 10 (num_or (k body) 3)); [reflexivity|].
  destruct (calculatePassAtK _ _ _ _ _ _) as [[res|e] w']; reflexivity.
Qed.

(** What a run that returned was made from. *)
Lemma evaluate_run_returned task expected model w r w' :
  run task expected model w = (Returned r, w') ->
  exists response data,
    result (next_reply w (endpoint GEMINI_API_KEY model) (payload task)) = Responded response
    /\ ok response = true /\ body_json response = Returned data
    /\ responseText data = Returned (response_text r)
    /\ safetyRatings data = Returned (safety_ratings r)
    /\ tokenCount data = Returned (token_count r)
    /\ checkSuccess (response_text r) expected = Returned (success r)
    /\ run_number r = 0
    /\ latency_ms r = JsNumber.round2 (inject_Z (clock w' - clock w))
    /\ w' = after_call w (endpoint GEMINI_API_KEY model) (payload task).
Proof.
  rewrite evaluate_run_cases. cbv zeta.
  destruct (result (next_reply w _ _)) as [response|e] eqn:Er; [|discriminate].
  destruct (ok response) eqn:Eok; [|discriminate].
  destruct (body_json response) as [data|] eqn:Ej; [|discriminate].
  destruct (responseText data) as [text|] eqn:Et; [|discriminate].
  destruct (safetyRatings data) as [ratings|] eqn:Es; [|discriminate].
  destruct (tokenCount data) as [tokens|] eqn:En; [|discriminate].
  cbn [obind]. destruct (checkSuccess text expected) as [passed|] eqn:Ec; [|discriminate].
  cbn [obind]. intros [= <- <-]. exists response, data. cbn.
  repeat split; assumption.
Qed.

Lemma calculatePassAtK_trace task expected k model w :
  exists new,
    calls (calculatePassAtK GEMINI_API_KEY task expected k model w).2 = calls w ++ new /\
    trace_fits (calculatePassAtK GEMINI_API_KEY task expected k model w).1 new.
Proof.
  rewrite calculatePassAtK_cases.
  destruct (LoopFacts.run_loop_trace (run task expected model) k 0 [] w
              (evaluate_run_trace task expected model)) as (new & Hc & Hfit).
  exists new. destruct (run_loop _ _ _ _ _) as [[rs|e] w']; auto.
Qed.

(** A 200 answer carries the aggregate of the request's task, expected
    output and [k]. *)
Lemma evaluate_handler_result req w resp w' res :
  handler GEMINI_API_KEY req w = (Returned resp, w') ->
  resp_body resp = BodyJson res ->
  exists body text,
    req_json req = Returned body /\ task body = Some text /\
    whitespace_only text = false /\
    (1 <= num_or (k body) 3)%Q /\ (num_or (k body) 3 <= 10)%Q /\
    resp_status resp = 200 /\
    calculatePassAtK GEMINI_API_KEY text (str_or (expected_output body) EmptyString)
      (num_or (k body) 3) default_model w = (Returned res, w').
Proof.
  rewrite evaluate_handler_cases.
  destruct (String.eqb _ _); [intros [= <- <-]; discriminate|].
  destruct (negb _); [intros [= <- <-]; discriminate|].
  destruct (req_json req) as [body|] eqn:Eb; [|intros [= <- <-]; discriminate].
  destruct (task body) as [text|] eqn:Et; [|intros [= <- <-]; discriminate].
  destruct (whitespace_only text) eqn:Ew; [intros [= <- <-]; discriminate|].
  destruct (Qltb _ 1 || Qltb 10 _) eqn:Er; [intros [= <- <-]; discriminate|].
  apply orb_false_elim in Er as [E1 E2].
  apply OrderFacts.Qltb_ge in E1. apply OrderFacts.Qltb_ge in E2.
  destruct (calculatePassAtK _ _ _ _ _ _) as [[res'|e] w1] eqn:Ec;
    intros [= <- <-]; [|discriminate].
  intros [= <-]. exists body, text. repeat split; assumption || reflexivity.
Qed.

End WithEngine.

End EvaluateFacts.

(** ** The ab-test function *)

Module ABTestFacts.
Import Js Runner Effects Loop Spec ABTest.

Section WithEngine.
Context `{JsEngine}.
Variable GEMINI_API_KEY : option string.

Local Abbreviation run := (runSingleEvaluation GEMINI_API_KEY).

Lemma compare_run_cases task model w :
  let url := endpoint GEMINI_API_KEY model in
  let w' := after_call w url (payload task) in
  run task model w =
    (match result (next_reply w url (payload task)) with
     | Rejected e => Thrown e
     | Responded response =>
         if ok response then
           match body_json response with
           | Thrown e => Thrown e
           | Returned data =>
               obind (responseText data) (fun text =>
               obind (safetyRatings data) (fun ratings =>
               obind (tokenCount data) (fun tokens =>
               Returned
                 {| run_number := 0;
                    response_text := text;
                    latency_ms := JsNumber.round2 (inject_Z (clock w' - clock w));
                    token_count := tokens;
                    safety_ratings := ratings;
                    success := true;
                    timestamp :=
                      JsString.substring0 19
                        (JsString.replace_first "T" " " (Date_toISOString (clock w'))) |})))
           end
         else Thrown (provider_error response)
     end, w').
Proof.
  intros url w'. subst url w'.
  unfold runSingleEvaluation, after_call, next_reply, bind, Date_now, fetch.
  destruct (result (provider w _ _ _)) as [response|e]; [|reflexivity].
  destruct (ok response); cbn [negb]; [|reflexivity].
  unfold json, bind, lift. destruct (body_json response) as [data|]; [|reflexivity].
  unfold ret, lift, timestamp_now.
  destruct (responseText data); [|reflexivity].
  destruct (safetyRatings data); [|reflexivity].
  destruct (tokenCount data); reflexivity.
Qed.

Lemma compare_run_trace task model w :
  exists c, calls (run task model w).2 = calls w ++ [c]
            /\ trace_fits (run task model w).1 [c].
Proof.
  rewrite compare_run_cases. cbn [fst snd after_call calls].
  eexists. split; [reflexivity|].
  destruct (result (next_reply w _ _)) as [response|e] eqn:Er.
  - destruct (ok response) eqn:Eok.
    + match goal with
      | |- trace_fits ?o _ => destruct o
      end.
      * constructor; [|constructor]. unfold answered, refused. cbn [call_reply].
        rewrite Er, Eok. reflexivity.
      * right. eexists [], _. split; [reflexivity|]. split; [constructor|].
        intros r. unfold refused. cbn [call_reply]. rewrite Er, Eok. discriminate.
    + right. eexists [], _. split; [reflexivity|]. split; [constructor|].
      intros r. unfold refused. cbn [call_reply]. rewrite Er, Eok.
      intros [= <-]. reflexivity.
  - right. eexists [], _. split; [reflexivity|]. split; [constructor|].
    intros r. unfold refused. cbn [call_reply]. rewrite Er. discriminate.
Qed.

Lemma models_loop_cons task runsPerModel modelId name rest results w :
  models_loop GEMINI_API_KEY task runsPerModel ((modelId, name) :: rest) results w =
    match testModel GEMINI_API_KEY task modelId name runsPerModel w with
    | (Returned modelResult, w1) =>
        models_loop GEMINI_API_KEY task runsPerModel rest (results ++ [modelResult])
          (sleep 1000 w1).2
    | (Thrown e, w1) => (Thrown e, w1)
    end.
Proof.
  cbn [models_loop]. unfold bind at 1.
  destruct (testModel _ _ _ _ _ _) as [[mr|e] w1]; reflexivity.
Qed.

Lemma compare_handler_cases req w :
  handler GEMINI_API_KEY req w =
    if String.eqb (method req) "OPTIONS" then
      (Returned (Build_Response 200 corsHeaders BodyNull), w)
    else if negb (configured GEMINI_API_KEY) then
      (Returned (Build_Response 500 jsonHeaders
                   (BodyDetail "GEMINI_API_KEY environment variable is required")), w)
    else
      match req_json req with
      | Thrown e =>
          (Returned (Build_Response 500 jsonHeaders (BodyDetail (error_detail e))), w)
      | Returned body =>
          match task body with
          | None =>
              (Returned (Build_Response 400 jsonHeaders
                           (BodyDetail "task cannot be empty")), w)
          | Some text =>
              if whitespace_only text then
                (Returned (Build_Response 400 jsonHeaders
                             (BodyDetail "task cannot be empty")), w)
              else if Qltb (num_or (runs_per_model body) 3) 1
                      || Qltb 10 (num_or (runs_per_model body) 3) then
                (Returned (Build_Response 400 jsonHeaders
                             (BodyDetail "runs_per_model must be between 1 and 10")), w)
              else
                match models_loop GEMINI_API_KEY text
                        (num_or (runs_per_model body) 3) models_table [] w with
                | (Returned results, w') =>
                    (Returned (Build_Response 200 jsonHeaders
                                 (BodyJson {| models := results |})), w')
                | (Thrown e, w') =>
                    (Returned (Build_Response 500 jsonHeaders
                                 (BodyDetail (error_detail e))), w')
                end
          end
      end.
Proof.
  unfold handler. destruct (String.eqb (method req) "OPTIONS"); [reflexivity|].
  unfold try_catch, bind, configured.
  destruct GEMINI_API_KEY as [key|]; [|reflexivity].
  destruct (JsString.nonempty key); [|reflexivity].
  cbn [negb ret]. unfold lift. destruct (req_json req) as [body|]; [|reflexivity].
  cbn [ret]. destruct (task body) as [text|]; [|reflexivity].
  rewrite StringFacts.blank_test.
  destruct (whitespace_only text); [reflexivity|].
  destruct (Qltb (num_or (runs_per_model body) 3) 1
            || Qltb 10 (num_or (runs_per_model body) 3)); [reflexivity|].
  destruct (models_loop _ _ _ _ _ _) as [[res|e] w']; reflexivity.
Qed.

Lemma compare_run_returned task model w r w' :
  run task model w = (Returned r, w') ->
  exists response data,
    result (next_reply w (endpoint GEMINI_API_KEY model) (payload task)) = Responded response
    /\ ok response = true /\ body_json response = Returned data
    /\ responseText data = Returned (response_text r)
    /\ safetyRatings data = Returned (safety_ratings r)
    /\ tokenCount data = Returned (token_count r)
    /\ success r = true
    /\ run_number r = 0
    /\ latency_ms r = JsNumber.round2 (inject_Z (clock w' - clock w))
    /\ w' = after_call w (endpoint GEMINI_API_KEY model) (payload task).
Proof.
  rewrite compare_run_cases. cbv zeta.
  destruct (result (next_reply w _ _)) as [response|e] eqn:Er; [|discriminate].
  destruct (ok response) eqn:Eok; [|discriminate].
  destruct (body_json response) as [data|] eqn:Ej; [|discriminate].
  destruct (responseText data) as [text|] eqn:Et; [|discriminate].
  destruct (safetyRatings data) as [ratings|] eqn:Es; [|discriminate].
  destruct (tokenCount data) as [tokens|] eqn:En; [|discriminate].
  cbn [obind]. intros [= <- <-]. exists response, data. cbn.
  repeat split; assumption.
Qed.

(** The token count of every run is a number or a string, so the sum
    [testModel] folds them into, and its division, never throw. *)
Lemma reduce_tokens_plain (runs : list RunResult) (sum : value) :
  Spec.plain sum = true ->
  Forall (fun r => Spec.plain (token_count r) = true) runs ->
  exists total, reduce_tokens runs sum = Returned total /\ Spec.plain total = true.
Proof.
  intros Hs Hall. revert sum Hs.
  induction Hall as [|r rest Hr _ IH]; intros sum Hs; cbn [reduce_tokens]; [eauto|].
  assert (Hc : forall v, Spec.plain v = true -> Spec.convertible v = true)
    by (intros [| | | | | |]; try discriminate; reflexivity).
  destruct (RunnerFacts.plus_convertible sum (token_count r) (Hc _ Hs) (Hc _ Hr)) as (v & E).
  rewrite E. cbn [obind]. apply IH. exact (RunnerFacts.plus_plain _ _ _ E).
Qed.

Lemma averageTokens_plain (runs : list RunResult) :
  Forall (fun r => Spec.plain (token_count r) = true) runs ->
  exists average, averageTokens runs = Returned average.
Proof.
  intros Hall. unfold averageTokens. destruct (0 <? length runs)%nat; [|eauto].
  destruct (reduce_tokens_plain runs (VNum (Fin 0)) eq_refl Hall) as (total & -> & Hp).
  cbn [obind]. destruct total; try discriminate; eexists; reflexivity.
Qed.

Lemma run_loop_tokens task modelId n w runs w' :
  run_loop (run task modelId) n 0 [] w = (Returned runs, w') ->
  Forall (fun r => Spec.plain (token_count r) = true) runs.
Proof.
  apply LoopFacts.run_loop_Forall; [| |constructor].
  - intros w0 r w1 Er.
    apply compare_run_returned in Er as (? & data & _ & _ & _ & _ & _ & Hn & _).
    exact (RunnerFacts.tokenCount_plain data _ Hn).
  - intros m r Hr. exact Hr.
Qed.

Lemma testModel_cases task modelId name runsPerModel w :
  testModel GEMINI_API_KEY task modelId name runsPerModel w =
    match run_loop (run task modelId) runsPerModel 0 [] w with
    | (Returned runs, w') =>
        (Returned
           {| model_name := name;
              average_latency :=
                JsNumber.round2
                  (if (0 <? length runs)%nat
                   then fold_left (fun sum r => sum + latency_ms r) runs 0
                        / inject_Z (Z.of_nat (length runs))
                   else 0)%Q;
              success_rate := 100;
              average_tokens :=
                JsNumber.round2n
                  match averageTokens runs with
                  | Returned average => average
                  | Thrown _ => NaN
                  end;
              runs := runs |}, w')
    | (Thrown e, w') => (Thrown e, w')
    end.
Proof.
  unfold testModel, bind.
  destruct (run_loop _ _ _ _ _) as [[rs|e] w'] eqn:El; [|reflexivity].
  destruct (averageTokens_plain rs (run_loop_tokens _ _ _ _ _ _ El)) as (average & ->).
  reflexivity.
Qed.

Lemma testModel_trace task modelId name runsPerModel w :
  exists new,
    calls (testModel GEMINI_API_KEY task modelId name runsPerModel w).2 = calls w ++ new /\
    trace_fits (testModel GEMINI_API_KEY task modelId name runsPerModel w).1 new.
Proof.
  rewrite testModel_cases.
  destruct (LoopFacts.run_loop_trace (run task modelId) runsPerModel 0 [] w
              (compare_run_trace task modelId)) as (new & Hc & Hfit).
  exists new. destruct (run_loop _ _ _ _ _) as [[rs|e] w']; auto.
Qed.

Lemma models_loop_trace task runsPerModel models results w :
  exists new,
    calls (models_loop GEMINI_API_KEY task runsPerModel models results w).2 = calls w ++ new /\
    trace_fits (models_loop GEMINI_API_KEY task runsPerModel models results w).1 new.
Proof.
  revert results w. induction models as [|[modelId name] rest IH]; intros results w.
  - exists []. rewrite app_nil_r. split; [reflexivity | constructor].
  - rewrite models_loop_cons.
    destruct (testModel_trace task modelId name runsPerModel w) as (new1 & Hc1 & Hfit1).
    destruct (testModel _ _ _ _ _ _) as [[mr|e] w1]; cbn [fst snd] in *.
    + destruct (IH (results ++ [mr]) (sleep 1000 w1).2) as (new2 & Hc2 & Hfit2).
      exists (new1 ++ new2). split.
      * rewrite Hc2. cbn [sleep snd calls]. rewrite Hc1, app_assoc. reflexivity.
      * apply LoopFacts.trace_fits_app; assumption.
    + exists new1. auto.
Qed.

(** The results returned are those of [testModel], one per model, in the
    order of the table. *)
Lemma models_loop_returned task runsPerModel models results w out w' :
  models_loop GEMINI_API_KEY task runsPerModel models results w = (Returned out, w') ->
  exists added,
    out = results ++ added /\
    Forall2 (fun m mr => exists w1 w2,
               testModel GEMINI_API_KEY task m.1 m.2 runsPerModel w1 = (Returned mr, w2))
      models added.
Proof.
  revert results w. induction models as [|[modelId name] rest IH]; intros results w.
  - intros [= <- <-]. exists []. rewrite app_nil_r. split; [reflexivity | constructor].
  - rewrite models_loop_cons.
    destruct (testModel _ _ _ _ _ _) as [[mr|e] w1] eqn:Et; [|discriminate].
    intros E. apply IH in E as (added & -> & Hall).
    exists (mr :: added). rewrite <- app_assoc. split; [reflexivity|].
    constructor; [|exact Hall]. exists w, w1. exact Et.
Qed.

Lemma compare_handler_result req w resp w' res :
  handler GEMINI_API_KEY req w = (Returned resp, w') ->
  resp_body resp = BodyJson res ->
  exists body text,
    req_json req = Returned body /\ task body = Some text /\
    whitespace_only text = false /\
    (1 <= num_or (runs_per_model body) 3)%Q /\ (num_or (runs_per_model body) 3 <= 10)%Q /\
    resp_status resp = 200 /\
    models_loop GEMINI_API_KEY text (num_or (runs_per_model body) 3) models_table [] w
    = (Returned (models res), w').
Proof.
  rewrite compare_handler_cases.
  destruct (String.eqb _ _); [intros [= <- <-]; discriminate|].
  destruct (negb _); [intros [= <- <-]; discriminate|].
  destruct (req_json req) as [body|] eqn:Eb; [|intros [= <- <-]; discriminate].
  destruct (task body) as [text|] eqn:Et; [|intros [= <- <-]; discriminate].
  destruct (whitespace_only text) eqn:Ew; [intros [= <- <-]; discriminate|].
  destruct (Qltb _ 1 || Qltb 10 _) eqn:Er; [intros [= <- <-]; discriminate|].
  apply orb_false_elim in Er as [E1 E2].
  apply OrderFacts.Qltb_ge in E1. apply OrderFacts.Qltb_ge in E2.
  destruct (models_loop _ _ _ _ _ _) as [[res'|e] w1] eqn:Ec;
    intros [= <- <-]; [|discriminate].
  intros [= <-]. exists body, text. repeat split; assumption || reflexivity.
Qed.

End WithEngine.

End ABTestFacts.

(** ** The model on small inputs *)

Module Examples.
Import Js Runner.

Example trim_inner_space : JsString.trim "  two words  " = "two words"%string.
Proof. reflexivity. Qed.

Example lower_case : JsString.toLowerCase "Patient Diagnosis: flu" = "patient diagnosis: flu"%string.
Proof. reflexivity. Qed.

Example includes_middle : JsString.includes "patient diagnosis: flu" "diagnosis" = true.
Proof. reflexivity. Qed.

Example array_to_string :
  to_string (H := Sample.engine)
    (VArr [VNum (Fin 1); VNull; VStr "a"; VArr [VBool true; VNum (Fin (-20))]])
  = Returned "1,,a,true,-20"%string.
Proof. reflexivity. Qed.

Example plus_concatenates :
  plus (H := Sample.engine) (VStr "3") (VNum (Fin 4)) = Returned (VStr "34").
Proof. reflexivity. Qed.

Example digits_to_number :
  to_number (H := Sample.engine) (VStr "017171717") = Returned (Fin 17171717).
Proof. reflexivity. Qed.

(** An object with a [toString] entry of its own cannot be added to. *)
Example plus_own_toString :
  plus (H := Sample.engine) (VObj [ ("toString"%string, VNull) ]) (VNum (Fin 0))
  = Thrown cannot_convert
  /\ plus (H := Sample.engine) (VObj [ ("valueOf"%string, VNull) ]) (VNum (Fin 0))
     = Returned (VStr "[object Object]0").
Proof. split; reflexivity. Qed.

(** After [__proto__] was set to [null] the name is an ordinary key. *)
Example proto_unhooked :
  safetyRatings (H := Sample.engine) Sample2.unhooked
  = Returned {[ "__proto__"%string := VStr "MEDIUM" ]}.
Proof. vm_compute. reflexivity. Qed.

Example sigma_at_the_end :
  Wide.toLowerCase (H := Sample.engine) Wide.alpha_sigma = [945; 962]%N
  /\ Wide.toLowerCase (H := Sample.engine) Wide.alpha_sigma_alpha = [945; 963; 945]%N.
Proof. split; reflexivity. Qed.

Example text_of_sample_reply :
  responseText (Sample.text_doc "hello" 3 4) = Returned (VStr "hello").
Proof. reflexivity. Qed.

Example tokens_of_sample_reply :
  tokenCount (H := Sample.engine) (Sample.text_doc "hello" 3 4) = Returned (VNum (Fin 7)).
Proof. reflexivity. Qed.

Example ratings_of_sample_reply :
  safetyRatings (H := Sample.engine) (Sample.text_doc "hello" 3 4)
  = Returned {[ "HARM_CATEGORY_HARASSMENT"%string := VStr "NEGLIGIBLE" ]}.
Proof. vm_compute. reflexivity. Qed.

Example empty_object_reply :
  responseText (VObj []) = Returned (VStr EmptyString)
  /\ safetyRatings (H := Sample.engine) (VObj []) = Returned ∅
  /\ tokenCount (H := Sample.engine) (VObj []) = Returned (VNum (Fin 0)).
Proof. repeat split. Qed.

(** A [k] that is not an integer passes the range test; the loop then runs
    up to the next integer while the divisions use [k] itself. *)
Example fractional_k :
  exists res w',
    Sample.evaluate (Sample.post (Sample.evaluate_body (Some 2.5%Q) None))
      (Sample.world (Sample.steady "ok"))
    = (Returned (Build_Response 200 jsonHeaders (BodyJson res)), w')
    /\ length (Evaluate.runs res) = 3%nat
    /\ (Evaluate.total_runs res == 2.5)%Q
    /\ (Evaluate.pass_at_k res == 120)%Q.
Proof.
  eexists _, _. split; [vm_compute; reflexivity|]. repeat split.
Qed.

End Examples.

(** * The claims of the specification *)

Module Claims.
Import Js Runner Effects Loop Spec.

(** Helper: a number other than zero outside [1, 10] is rejected by both
    handlers with status 400 and the world is untouched. *)
Lemma out_of_range_is_rejected `{JsEngine} (GEMINI_API_KEY : option string) (q : Q) :
  configured GEMINI_API_KEY = true ->
  ~ (q == 0)%Q -> ((q < 1)%Q \/ (10 < q)%Q) ->
  (forall req body text w,
      method req <> "OPTIONS"%string -> req_json req = Returned body ->
      Evaluate.task body = Some text -> whitespace_only text = false ->
      Evaluate.k body = Some q ->
      Evaluate.handler GEMINI_API_KEY req w =
        (Returned (Build_Response 400 jsonHeaders (BodyDetail "k must be between 1 and 10")), w))
  /\
  (forall req body text w,
      method req <> "OPTIONS"%string -> req_json req = Returned body ->
      ABTest.task body = Some text -> whitespace_only text = false ->
      ABTest.runs_per_model body = Some q ->
      ABTest.handler GEMINI_API_KEY req w =
        (Returned (Build_Response 400 jsonHeaders
                     (BodyDetail "runs_per_model must be between 1 and 10")), w)).
Proof.
  intros Hkey Hq Hout. apply OrderFacts.out_of_range_test in Hout.
  split; intros req body text w Hm Hb Ht Hw Hk.
  - rewrite EvaluateFacts.evaluate_handler_cases.
    apply String.eqb_neq in Hm. rewrite Hm, Hkey, Hb, Ht, Hw, Hk. cbn [negb].
    rewrite (OrderFacts.num_or_nonzero q 3 Hq), Hout. reflexivity.
  - rewrite ABTestFacts.compare_handler_cases.
    apply String.eqb_neq in Hm. rewrite Hm, Hkey, Hb, Ht, Hw, Hk. cbn [negb].
    rewrite (OrderFacts.num_or_nonzero q 3 Hq), Hout. reflexivity.
Qed.

(** C1 (code evaluated at the failing input).  A request with [k = 0] is
    not rejected: [body.k || 3] replaces the zero by the default before the
    range test, the evaluation runs three times, calls the provider three
    times and answers 200.  The same holds for [runs_per_model = 0] in the
    comparison, which calls the provider nine times. *)
Theorem zero_runs_are_not_rejected :
  (exists res w',
      Sample.evaluate (Sample.post (Sample.evaluate_body (Some 0%Q) None))
        (Sample.world (Sample.steady "ok"))
      = (Returned (Build_Response 200 jsonHeaders (BodyJson res)), w')
      /\ length (Evaluate.runs res) = 3%nat /\ length (calls w') = 3%nat)
  /\
  (exists res w',
      Sample.compare (Sample.post (Sample.abtest_body (Some 0%Q)))
        (Sample.world (Sample.steady "ok"))
      = (Returned (Build_Response 200 jsonHeaders (BodyJson res)), w')
      /\ length (ABTest.models res) = 3%nat /\ length (calls w') = 9%nat).
Proof.
  split; eexists _, _; (split; [vm_compute; reflexivity|]); split; reflexivity.
Qed.

(** C9.  With the credential configured, a request (other than the CORS
    preflight) whose body has a missing, empty or whitespace-only [task] is
    answered 400 by both handlers, and the world is unchanged: no call to
    the provider, no pause.  Whatever the credential and the method, such a
    request leaves the world unchanged. *)
Theorem blank_task_is_rejected `{JsEngine} (GEMINI_API_KEY : option string) :
  (configured GEMINI_API_KEY = true ->
   (forall req body w,
       method req <> "OPTIONS"%string -> req_json req = Returned body ->
       blank (Evaluate.task body) = true ->
       Evaluate.handler GEMINI_API_KEY req w =
         (Returned (Build_Response 400 jsonHeaders (BodyDetail "task cannot be empty")), w))
   /\
   (forall req body w,
       method req <> "OPTIONS"%string -> req_json req = Returned body ->
       blank (ABTest.task body) = true ->
       ABTest.handler GEMINI_API_KEY req w =
         (Returned (Build_Response 400 jsonHeaders (BodyDetail "task cannot be empty")), w)))
  /\
  (forall req body w,
      req_json req = Returned body -> blank (Evaluate.task body) = true ->
      (Evaluate.handler GEMINI_API_KEY req w).2 = w)
  /\
  (forall req body w,
      req_json req = Returned body -> blank (ABTest.task body) = true ->
      (ABTest.handler GEMINI_API_KEY req w).2 = w).
Proof.
  split; [intros Hkey; split; intros req body w Hm Hb Hblank | split; intros req body w Hb Hblank].
  - rewrite EvaluateFacts.evaluate_handler_cases.
    apply String.eqb_neq in Hm. rewrite Hm, Hkey, Hb. cbn [negb].
    destruct (Evaluate.task body) as [text|]; [|reflexivity].
    simpl in Hblank. rewrite Hblank. reflexivity.
  - rewrite ABTestFacts.compare_handler_cases.
    apply String.eqb_neq in Hm. rewrite Hm, Hkey, Hb. cbn [negb].
    destruct (ABTest.task body) as [text|]; [|reflexivity].
    simpl in Hblank. rewrite Hblank. reflexivity.
  - rewrite EvaluateFacts.evaluate_handler_cases.
    destruct (String.eqb _ _); [reflexivity|]. destruct (negb _); [reflexivity|].
    rewrite Hb. destruct (Evaluate.task body) as [text|]; [|reflexivity].
    simpl in Hblank. rewrite Hblank. reflexivity.
  - rewrite ABTestFacts.compare_handler_cases.
    destruct (String.eqb _ _); [reflexivity|]. destruct (negb _); [reflexivity|].
    rewrite Hb. destruct (ABTest.task body) as [text|]; [|reflexivity].
    simpl in Hblank. rewrite Hblank. reflexivity.
Qed.

Lemma blank_task_is_rejected_witness :
  Sample.evaluate
    (Sample.post {| Evaluate.task := Some "  "%string;
                    Evaluate.expected_output := None;
                    Evaluate.k := Some 3%Q |})
    (Sample.world (Sample.steady "ok"))
  = (Returned (Build_Response 400 jsonHeaders (BodyDetail "task cannot be empty")),
     Sample.world (Sample.steady "ok"))
  /\
  Sample.compare
    (Sample.post {| ABTest.task := None; ABTest.runs_per_model := Some 3%Q |})
    (Sample.world (Sample.steady "ok"))
  = (Returned (Build_Response 400 jsonHeaders (BodyDetail "task cannot be empty")),
     Sample.world (Sample.steady "ok")).
Proof.
  pose proof (proj1 (blank_task_is_rejected (H := Sample.engine) Sample.key) eq_refl) as [E A].
  split.
  - apply E with (body := {| Evaluate.task := Some "  "%string;
                             Evaluate.expected_output := None;
                             Evaluate.k := Some 3%Q |});
      [discriminate | reflexivity | reflexivity].
  - apply A with (body := {| ABTest.task := None; ABTest.runs_per_model := Some 3%Q |});
      [discriminate | reflexivity | reflexivity].
Defined.

(** The detail string of a provider error. *)
Lemma provider_error_detail `{JsEngine} (r : HttpReply) :
  Evaluate.error_detail (provider_error r)
  = "Gemini API error: " +:+ Number_toString (inject_Z (status r)) +:+ " - " +:+ body_text r.
Proof. reflexivity. Qed.

(** An integer of magnitude below 10^21 is printed in decimal. *)
Lemma Number_toString_integer `{JsEngine} (z : Z) :
  Z.abs z < 10 ^ 21 ->
  Number_toString (inject_Z z) = NilZero.string_of_int (Z.to_int z).
Proof.
  intros Hz. unfold Number_toString.
  assert (E : Qred (inject_Z z) = inject_Z z)
    by (apply Qcanon.Qred_identity; cbn [Qnum Qden inject_Z]; apply Z.gcd_1_r).
  rewrite E. cbn [Qnum Qden inject_Z].
  apply Z.ltb_lt in Hz. rewrite Hz. reflexivity.
Qed.

Lemma evaluate_refusal `{JsEngine} (GEMINI_API_KEY : option string) req w new c r :
  calls (Evaluate.handler GEMINI_API_KEY req w).2 = calls w ++ new ->
  In c new -> refused c = Some r ->
  (exists earlier, new = earlier ++ [c]) /\
  (Evaluate.handler GEMINI_API_KEY req w).1
  = Returned (Build_Response 500 jsonHeaders
                (BodyDetail ("Gemini API error: " +:+ Number_toString (inject_Z (status r))
                             +:+ " - " +:+ body_text r))).
Proof.
  rewrite EvaluateFacts.evaluate_handler_cases.
  assert (Hnone : calls w = calls w ++ new -> In c new -> False).
  { intros E Hin. rewrite <- (app_nil_r (calls w)) in E at 1.
    apply app_inv_head in E. subst new. contradiction. }
  repeat match goal with
         | |- context [if ?b then _ else _] =>
             destruct b; [intros E Hin; destruct (Hnone E Hin)|]
         | |- context [match ?o with Some _ => _ | None => _ end] =>
             destruct o; [|intros E Hin; destruct (Hnone E Hin)]
         | |- context [match req_json ?r with Returned _ => _ | Thrown _ => _ end] =>
             destruct (req_json r); [|intros E Hin; destruct (Hnone E Hin)]
         end.
  match goal with
  | |- context [Evaluate.calculatePassAtK ?a ?b ?c ?d ?e ?f] =>
      destruct (EvaluateFacts.calculatePassAtK_trace a b c d e f) as (new' & Hc & Hfit);
      destruct (Evaluate.calculatePassAtK a b c d e f) as [o w1]
  end.
  cbn [fst snd] in *. intros E Hin Hr.
  assert (Hw : calls w1 = calls w ++ new) by (destruct o; exact E).
  rewrite Hc in Hw. apply app_inv_head in Hw. subst new'.
  destruct (LoopFacts.trace_fits_refused o new c r Hfit Hin Hr) as [Hlast ->].
  split; [exact Hlast | reflexivity].
Qed.

Lemma compare_refusal `{JsEngine} (GEMINI_API_KEY : option string) req w new c r :
  calls (ABTest.handler GEMINI_API_KEY req w).2 = calls w ++ new ->
  In c new -> refused c = Some r ->
  (exists earlier, new = earlier ++ [c]) /\
  (ABTest.handler GEMINI_API_KEY req w).1
  = Returned (Build_Response 500 jsonHeaders
                (BodyDetail ("Gemini API error: " +:+ Number_toString (inject_Z (status r))
                             +:+ " - " +:+ body_text r))).
Proof.
  rewrite ABTestFacts.compare_handler_cases.
  assert (Hnone : calls w = calls w ++ new -> In c new -> False).
  { intros E Hin. rewrite <- (app_nil_r (calls w)) in E at 1.
    apply app_inv_head in E. subst new. contradiction. }
  repeat match goal with
         | |- context [if ?b then _ else _] =>
             destruct b; [intros E Hin; destruct (Hnone E Hin)|]
         | |- context [match ?o with Some _ => _ | None => _ end] =>
             destruct o; [|intros E Hin; destruct (Hnone E Hin)]
         | |- context [match req_json ?r with Returned _ => _ | Thrown _ => _ end] =>
             destruct (req_json r); [|intros E Hin; destruct (Hnone E Hin)]
         end.
  match goal with
  | |- context [ABTest.models_loop ?a ?b ?c ?d ?e ?f] =>
      destruct (ABTestFacts.models_loop_trace a b c d e f) as (new' & Hc & Hfit);
      destruct (ABTest.models_loop a b c d e f) as [o w1]
  end.
  cbn [fst snd] in *. intros E Hin Hr.
  assert (Hw : calls w1 = calls w ++ new) by (destruct o; exact E).
  rewrite Hc in Hw. apply app_inv_head in Hw. subst new'.
  destruct (LoopFacts.trace_fits_refused o new c r Hfit Hin Hr) as [Hlast ->].
  split; [exact Hlast | reflexivity].
Qed.

(** C7.  If, among the calls a request makes, one is answered with a status
    outside 200..299, then that call is the last one made (nothing is retried
    and no later run is attempted) and the request is answered 500 with the
    detail "Gemini API error: <status> - <raw body>" and nothing else: the
    runs collected before are not in the answer.  This holds for both
    handlers; the status is printed in decimal. *)
Theorem provider_refusal_fails_the_request `{JsEngine} (GEMINI_API_KEY : option string)
  (c : Call) (r : HttpReply) :
  refused c = Some r ->
  (forall req w new,
      calls (Evaluate.handler GEMINI_API_KEY req w).2 = calls w ++ new -> In c new ->
      (exists earlier, new = earlier ++ [c]) /\
      (Evaluate.handler GEMINI_API_KEY req w).1
      = Returned (Build_Response 500 jsonHeaders
                    (BodyDetail ("Gemini API error: " +:+ Number_toString (inject_Z (status r))
                                 +:+ " - " +:+ body_text r))))
  /\
  (forall req w new,
      calls (ABTest.handler GEMINI_API_KEY req w).2 = calls w ++ new -> In c new ->
      (exists earlier, new = earlier ++ [c]) /\
      (ABTest.handler GEMINI_API_KEY req w).1
      = Returned (Build_Response 500 jsonHeaders
                    (BodyDetail ("Gemini API error: " +:+ Number_toString (inject_Z (status r))
                                 +:+ " - " +:+ body_text r))))
  /\
  (Z.abs (status r) < 10 ^ 21 ->
   Number_toString (inject_Z (status r)) = NilZero.string_of_int (Z.to_int (status r))).
Proof.
  intros Hr. split; [|split].
  - intros req w new E Hin. exact (evaluate_refusal GEMINI_API_KEY req w new c r E Hin Hr).
  - intros req w new E Hin. exact (compare_refusal GEMINI_API_KEY req w new c r E Hin Hr).
  - apply Number_toString_integer.
Qed.

Lemma provider_refusal_fails_the_request_witness :
  (Sample.evaluate (Sample.post (Sample.evaluate_body (Some 3%Q) None))
     (Sample.world Sample.out_of_quota)).1
  = Returned (Build_Response 500 jsonHeaders
                (BodyDetail "Gemini API error: 429 - quota exceeded")).
Proof.
  pose proof (provider_refusal_fails_the_request (H := Sample.engine) Sample.key
                {| call_url := endpoint Sample.key Evaluate.default_model;
                   call_payload := payload "Summarize the report";
                   call_reply := {| elapsed := 7; result := Responded Sample.quota_reply |} |}
                Sample.quota_reply eq_refl) as (E & _ & _).
  refine (proj2 (E (Sample.post (Sample.evaluate_body (Some 3%Q) None))
                   (Sample.world Sample.out_of_quota) _ _ _)).
  - vm_compute. reflexivity.
  - right. left. reflexivity.
Defined.

Lemma filter_success_length (runs : list RunResult) :
  length (List.filter (fun r => success r) runs) = successes runs.
Proof.
  induction runs as [|r rest IH]; [reflexivity|]. cbn [List.filter successes].
  destruct (success r); cbn [length]; congruence.
Qed.

Lemma positive_integer_test (K : Z) : 1 <= K -> Qltb 0 (inject_Z K) = true.
Proof.
  intros HK. apply OrderFacts.Qltb_lt.
  replace 0%Q with (inject_Z 0) by reflexivity. rewrite <- Zlt_Qlt. lia.
Qed.

Lemma one_to_length (n : nat) : length (one_to n) = n.
Proof. unfold one_to. rewrite length_map, length_seq. reflexivity. Qed.

Lemma loop_length `{JsEngine} (runner : M RunResult) (K : Z) w rs w' :
  run_loop runner (inject_Z K) 0 [] w = (Returned rs, w') ->
  List.map run_number rs = one_to (Z.to_nat K) /\ length rs = Z.to_nat K.
Proof.
  intros E. apply LoopFacts.run_loop_numbering in E. rewrite Qceiling_Z in E.
  split; [exact E|]. rewrite <- (length_map run_number), E. apply one_to_length.
Qed.

(** C3.  For an integer K in [1, 10] the aggregate [calculatePassAtK]
    returns holds exactly K runs, numbered 1, 2, ..., K in that order, and
    [total_runs] is K; so does the answer of the handler to a request with
    [k = K].  The numbers are given by the loop of the aggregator: the runner
    returns every run with the placeholder 0. *)
Theorem runs_are_numbered_one_to_K `{JsEngine} (GEMINI_API_KEY : option string) (K : Z) :
  1 <= K <= 10 ->
  (forall task expected model w res w',
      Evaluate.calculatePassAtK GEMINI_API_KEY task expected (inject_Z K) model w
      = (Returned res, w') ->
      length (Evaluate.runs res) = Z.to_nat K
      /\ List.map run_number (Evaluate.runs res) = one_to (Z.to_nat K)
      /\ Evaluate.total_runs res = inject_Z K)
  /\ (forall req body w resp w' res,
        req_json req = Returned body -> Evaluate.k body = Some (inject_Z K) ->
        Evaluate.handler GEMINI_API_KEY req w = (Returned resp, w') ->
        resp_body resp = BodyJson res ->
        length (Evaluate.runs res) = Z.to_nat K
        /\ List.map run_number (Evaluate.runs res) = one_to (Z.to_nat K)
        /\ Evaluate.total_runs res = inject_Z K)
  /\ (forall task expected model w r w',
        Evaluate.runSingleEvaluation GEMINI_API_KEY task expected model w = (Returned r, w') ->
        run_number r = 0).
Proof.
  intros HK.
  assert (Hf : forall task expected model w res w',
             Evaluate.calculatePassAtK GEMINI_API_KEY task expected (inject_Z K) model w
             = (Returned res, w') ->
             length (Evaluate.runs res) = Z.to_nat K
             /\ List.map run_number (Evaluate.runs res) = one_to (Z.to_nat K)
             /\ Evaluate.total_runs res = inject_Z K).
  { intros task expected model w res w'. rewrite EvaluateFacts.calculatePassAtK_cases.
    destruct (run_loop _ _ _ _ _) as [[rs|e] w1] eqn:El; [|discriminate].
    intros [= <- <-]. cbn [Evaluate.runs Evaluate.total_runs].
    destruct (loop_length _ _ _ _ _ El) as [Hn Hl]. auto. }
  split; [exact Hf|]. split.
  - intros req body w resp w' res Hb Hk Hh Hres.
    destruct (EvaluateFacts.evaluate_handler_result _ _ _ _ _ _ Hh Hres)
      as (body' & text & Hb' & _ & _ & _ & _ & _ & Hc).
    rewrite Hb in Hb'. injection Hb' as <-. rewrite Hk in Hc.
    rewrite OrderFacts.num_or_nonzero in Hc; [exact (Hf _ _ _ _ _ _ Hc)|].
    replace 0%Q with (inject_Z 0) by reflexivity. rewrite inject_Z_injective. lia.
  - intros task expected model w r w' Er.
    apply EvaluateFacts.evaluate_run_returned in Er as (? & ? & Er). tauto.
Qed.

Lemma runs_are_numbered_one_to_K_witness :
  exists res w',
    Evaluate.calculatePassAtK (H := Sample.engine) Sample.key "Summarize the report" ""
      (inject_Z 3) Evaluate.default_model (Sample.world (Sample.steady "ok"))
    = (Returned res, w')
    /\ List.map run_number (Evaluate.runs res) = [1; 2; 3].
Proof.
  eexists _, _. split; [vm_compute; reflexivity|].
  refine (proj1 (proj2 (proj1 (runs_are_numbered_one_to_K (H := Sample.engine) Sample.key 3 _)
                          "Summarize the report"%string EmptyString Evaluate.default_model
                          (Sample.world (Sample.steady "ok")) _ _ _))).
  - lia.
  - vm_compute. reflexivity.
Defined.

Lemma rounded_to_2_decimals_equal (x x' y : Q) :
  (x == x')%Q -> rounded_to_2_decimals x y -> rounded_to_2_decimals x' y.
Proof.
  intros E (m & Hy & Hlo & Hhi). exists m. rewrite <- E. auto.
Qed.

(** For an integer K the aggregate has K runs, [pass_at_k] is (number of
    runs with [success = true] / K) * 100 rounded to 2 decimal places, and
    [success_rate] is the same number. *)
Lemma percentage_for_integer_k `{JsEngine} (GEMINI_API_KEY : option string)
  (K : Z) task expected model w res w' :
  1 <= K ->
  Evaluate.calculatePassAtK GEMINI_API_KEY task expected (inject_Z K) model w
  = (Returned res, w') ->
  length (Evaluate.runs res) = Z.to_nat K
  /\ rounded_to_2_decimals
       (inject_Z (Z.of_nat (successes (Evaluate.runs res))) / inject_Z K * 100)
       (Evaluate.pass_at_k res)
  /\ Evaluate.success_rate res = Evaluate.pass_at_k res.
Proof.
  intros HK. rewrite EvaluateFacts.calculatePassAtK_cases.
  destruct (run_loop _ _ _ _ _) as [[rs|e] w1] eqn:El; [|discriminate].
  intros [= <- <-].
  cbn [Evaluate.runs Evaluate.pass_at_k Evaluate.success_rate].
  destruct (loop_length _ _ _ _ _ El) as [_ Hl].
  rewrite (positive_integer_test K HK), filter_success_length.
  repeat split; [exact Hl|]. apply NumberFacts.round2_rounds.
Qed.

(** No number is 100 rounded to 2 decimal places but 100. *)
Lemma rounded_to_2_decimals_whole (n : Z) (y : Q) :
  rounded_to_2_decimals (inject_Z n) y -> (y == inject_Z n)%Q.
Proof.
  intros (m & Hy & Hlo & Hhi). rewrite Hy.
  assert (Hm : m = n * 100).
  { unfold Qle, Qlt in Hlo, Hhi. cbn in Hlo, Hhi. lia. }
  subst m. rewrite inject_Z_mult. field.
Qed.

(** C2 (code evaluated at the failing input).  A request with [k = 2.5]
    passes the range test [k < 1 || k > 10]; the loop makes 3 runs, which all
    succeed, and the aggregate divides their number by 2.5 instead of 3:
    [pass_at_k] and [success_rate] are 120, which is not the percentage of
    successful runs (3 out of 3 runs, 100) rounded to 2 decimal places. *)
Theorem fractional_k_overstates_the_percentage :
  exists res w',
    Sample.evaluate (Sample.post (Sample.evaluate_body (Some 2.5%Q) None))
      (Sample.world (Sample.steady "ok"))
    = (Returned (Build_Response 200 jsonHeaders (BodyJson res)), w')
    /\ length (Evaluate.runs res) = 3%nat
    /\ successes (Evaluate.runs res) = 3%nat
    /\ (Evaluate.pass_at_k res == 120)%Q
    /\ (Evaluate.success_rate res == 120)%Q
    /\ ~ rounded_to_2_decimals
           (inject_Z (Z.of_nat (successes (Evaluate.runs res)))
            / inject_Z (Z.of_nat (length (Evaluate.runs res))) * 100)
           (Evaluate.pass_at_k res).
Proof.
  eexists _, _. split; [vm_compute; reflexivity|].
  split; [reflexivity|]. split; [reflexivity|]. split; [reflexivity|].
  split; [reflexivity|].
  cbn [Evaluate.runs Evaluate.pass_at_k length successes success].
  intros Hr.
  eapply rounded_to_2_decimals_equal in Hr; [apply (rounded_to_2_decimals_whole 100) in Hr|];
    [|reflexivity].
  revert Hr. vm_compute. discriminate.
Qed.

Lemma str_or_empty (e : option string) :
  str_or e EmptyString = match e with Some text => text | None => EmptyString end.
Proof. destruct e as [[|c rest]|]; reflexivity. Qed.

(** What [checkSuccess] decides, in the words of the specification. *)
Lemma checkSuccess_meaning (responseText : value) (expected : string) (passed : bool) :
  Evaluate.checkSuccess responseText expected = Returned passed ->
  (whitespace_only expected = true -> passed = true)
  /\ (whitespace_only expected = false ->
      exists text, responseText = VStr text
                   /\ (passed = true <-> occurs_ignoring_case expected text)).
Proof.
  unfold Evaluate.checkSuccess. rewrite StringFacts.blank_test.
  destruct (whitespace_only expected).
  - intros [= <-]. split; [reflexivity | discriminate].
  - destruct responseText as [| |b|n|text|items|props]; try discriminate.
    intros [= <-]. split; [discriminate|]. intros _. exists text.
    split; [reflexivity|]. apply StringFacts.includes_lower_iff.
Qed.

Lemma evaluate_runs_Forall `{JsEngine} (GEMINI_API_KEY : option string)
  (P : RunResult -> Prop) task expected k model w res w' :
  (forall w0 r w1,
      Evaluate.runSingleEvaluation GEMINI_API_KEY task expected model w0 = (Returned r, w1) ->
      P r) ->
  (forall m r, P r -> P (set_run_number m r)) ->
  Evaluate.calculatePassAtK GEMINI_API_KEY task expected k model w = (Returned res, w') ->
  Forall P (Evaluate.runs res).
Proof.
  intros Hrun Hset. rewrite EvaluateFacts.calculatePassAtK_cases.
  destruct (run_loop _ _ _ _ _) as [[rs|e] w1] eqn:El; [|discriminate].
  intros [= <- <-]. cbn [Evaluate.runs].
  eapply LoopFacts.run_loop_Forall; [exact Hrun | exact Hset | constructor | exact El].
Qed.




Lemma compare_runs_Forall `{JsEngine} (GEMINI_API_KEY : option string)
  (P : RunResult -> Prop) req w resp w' res :
  (forall task model w0 r w1,
      ABTest.runSingleEvaluation GEMINI_API_KEY task model w0 = (Returned r, w1) -> P r) ->
  (forall m r, P r -> P (set_run_number m r)) ->
  ABTest.handler GEMINI_API_KEY req w = (Returned resp, w') ->
  resp_body resp = BodyJson res ->
  Forall (fun modelResult => Forall P (ABTest.runs modelResult)) (ABTest.models res).
Proof.
  intros Hrun Hset Hh Hres.
  destruct (ABTestFacts.compare_handler_result _ _ _ _ _ _ Hh Hres)
    as (body & text & _ & _ & _ & _ & _ & _ & Hm).
  apply ABTestFacts.models_loop_returned in Hm as (added & -> & Hall).
  cbn [app]. clear - Hrun Hset Hall.
  induction Hall as [|m mr ms mrs (w1 & w2 & Ht) _ IH]; constructor; [|exact IH].
  rewrite ABTestFacts.testModel_cases in Ht.
  destruct (run_loop _ _ _ _ _) as [[rs|e] w3] eqn:El; [|discriminate].
  injection Ht as <- _. cbn [ABTest.runs].
  eapply LoopFacts.run_loop_Forall; [apply Hrun | exact Hset | constructor | exact El].
Qed.

(** C10.  The latency of a run is a whole number of milliseconds: it is the
    difference of the two clock readings around the call, which are integers,
    and rounding a whole number to 2 decimal places gives it back.  This holds
    for the runner of either function and so for every run in the answers of
    both handlers. *)
Theorem latency_is_a_whole_number `{JsEngine} (GEMINI_API_KEY : option string) :
  (forall task expected model w r w',
      Evaluate.runSingleEvaluation GEMINI_API_KEY task expected model w = (Returned r, w') ->
      (latency_ms r == inject_Z (clock w' - clock w))%Q)
  /\ (forall task model w r w',
        ABTest.runSingleEvaluation GEMINI_API_KEY task model w = (Returned r, w') ->
        (latency_ms r == inject_Z (clock w' - clock w))%Q)
  /\ (forall req w resp w' res,
        Evaluate.handler GEMINI_API_KEY req w = (Returned resp, w') ->
        resp_body resp = BodyJson res ->
        Forall (fun r => exists n : Z, (latency_ms r == inject_Z n)%Q) (Evaluate.runs res))
  /\ (forall req w resp w' res,
        ABTest.handler GEMINI_API_KEY req w = (Returned resp, w') ->
        resp_body resp = BodyJson res ->
        Forall (fun modelResult =>
                  Forall (fun r => exists n : Z, (latency_ms r == inject_Z n)%Q)
                    (ABTest.runs modelResult))
          (ABTest.models res))
  /\ (forall n : Z, (JsNumber.round2 (inject_Z n) == inject_Z n)%Q).
Proof.
  assert (He : forall task expected model w r w',
             Evaluate.runSingleEvaluation GEMINI_API_KEY task expected model w = (Returned r, w') ->
             (latency_ms r == inject_Z (clock w' - clock w))%Q).
  { intros task expected model w r w' Er.
    apply EvaluateFacts.evaluate_run_returned in Er
      as (? & ? & _ & _ & _ & _ & _ & _ & _ & _ & -> & _).
    apply NumberFacts.round2_integer. }
  assert (Ha : forall task model w r w',
             ABTest.runSingleEvaluation GEMINI_API_KEY task model w = (Returned r, w') ->
             (latency_ms r == inject_Z (clock w' - clock w))%Q).
  { intros task model w r w' Er.
    apply ABTestFacts.compare_run_returned in Er
      as (? & ? & _ & _ & _ & _ & _ & _ & _ & _ & -> & _).
    apply NumberFacts.round2_integer. }
  split; [exact He|]. split; [exact Ha|]. split; [|split].
  - intros req w resp w' res Hh Hres.
    destruct (EvaluateFacts.evaluate_handler_result _ _ _ _ _ _ Hh Hres)
      as (body & text & _ & _ & _ & _ & _ & _ & Hc).
    eapply evaluate_runs_Forall in Hc; [exact Hc | |].
    + intros w0 r w1 Er. eexists. eapply He. exact Er.
    + intros m r Hr. exact Hr.
  - intros req w resp w' res Hh Hres.
    eapply compare_runs_Forall; [ | | exact Hh | exact Hres].
    + intros task model w0 r w1 Er. eexists. eapply Ha. exact Er.
    + intros m r Hr. exact Hr.
  - apply NumberFacts.round2_integer.
Qed.

Lemma latency_is_a_whole_number_witness :
  exists r w',
    ABTest.runSingleEvaluation (H := Sample.engine) Sample.key "Summarize the report"
      "gemini-1.5-pro" (Sample.world (Sample.steady "ok")) = (Returned r, w')
    /\ (latency_ms r == inject_Z (clock w' - clock (Sample.world (Sample.steady "ok"))))%Q
    /\ clock w' - clock (Sample.world (Sample.steady "ok")) = 100.
Proof.
  eexists _, _. split; [vm_compute; reflexivity|]. split; [|reflexivity].
  apply (proj1 (proj2 (latency_is_a_whole_number (H := Sample.engine) Sample.key))
           "Summarize the report"%string "gemini-1.5-pro"%string).
  vm_compute. reflexivity.
Defined.

(** C5.  A comparison answered with a result lists exactly three models, in
    the order fast, balanced, quality, whatever [runs_per_model] was; every
    [success_rate] is 100 and every run is marked successful. *)
Theorem comparison_lists_three_models `{JsEngine} (GEMINI_API_KEY : option string)
  req w resp w' res :
  ABTest.handler GEMINI_API_KEY req w = (Returned resp, w') ->
  resp_body resp = BodyJson res ->
  List.map ABTest.model_name (ABTest.models res)
  = [ "Gemini 1.5 Flash 8B (Fast)"; "Gemini 1.5 Flash (Balanced)";
      "Gemini 1.5 Pro (Quality)" ]%string
  /\ length (ABTest.models res) = 3%nat
  /\ Forall (fun modelResult => ABTest.success_rate modelResult = 100%Q) (ABTest.models res)
  /\ Forall (fun modelResult => Forall (fun r => success r = true) (ABTest.runs modelResult))
       (ABTest.models res).
Proof.
  intros Hh Hres.
  assert (Hruns : Forall (fun modelResult =>
                            Forall (fun r => success r = true) (ABTest.runs modelResult))
                    (ABTest.models res)).
  { eapply compare_runs_Forall; [ | | exact Hh | exact Hres].
    - intros task model w0 r w1 Er.
      apply ABTestFacts.compare_run_returned in Er as (? & ? & Er). tauto.
    - intros m r Hr. exact Hr. }
  destruct (ABTestFacts.compare_handler_result _ _ _ _ _ _ Hh Hres)
    as (body & text & _ & _ & _ & _ & _ & _ & Hm).
  apply ABTestFacts.models_loop_returned in Hm as (added & Hadded & Hall).
  cbn [app] in Hadded. rewrite Hadded in *. clear Hadded.
  assert (Heach : Forall2 (fun m mr => ABTest.model_name mr = m.2
                                       /\ ABTest.success_rate mr = 100%Q)
                    ABTest.models_table added).
  { eapply Forall2_impl; [exact Hall|]. intros m mr (w1 & w2 & Ht).
    rewrite ABTestFacts.testModel_cases in Ht.
    destruct (run_loop _ _ _ _ _) as [[rs|e] w3]; [|discriminate].
    injection Ht as <- _. split; reflexivity. }
  unfold ABTest.models_table in Heach.
  repeat match goal with
         | Hx : Forall2 _ (_ :: _) _ |- _ =>
             apply Forall2_cons_inv_l in Hx as (? & ? & [? ?] & Hx & ->)
         | Hx : Forall2 _ [] _ |- _ => apply Forall2_nil_inv_l in Hx as ->
         end.
  cbn [snd] in *. split; [cbn [List.map]; congruence|].
  split; [reflexivity|]. split; [|exact Hruns].
  repeat constructor; assumption.
Qed.

Lemma comparison_lists_three_models_witness :
  exists resp w' res,
    Sample.compare (Sample.post (Sample.abtest_body (Some 1%Q)))
      (Sample.world (Sample.steady "ok")) = (Returned resp, w')
    /\ resp_body resp = BodyJson res
    /\ List.map ABTest.model_name (ABTest.models res)
       = [ "Gemini 1.5 Flash 8B (Fast)"; "Gemini 1.5 Flash (Balanced)";
           "Gemini 1.5 Pro (Quality)" ]%string.
Proof.
  eexists _, _, _. split; [vm_compute; reflexivity|]. split; [reflexivity|].
  eapply (fun resp w' res Hh Hres =>
            proj1 (comparison_lists_three_models (H := Sample.engine) Sample.key
                     (Sample.post (Sample.abtest_body (Some 1%Q)))
                     (Sample.world (Sample.steady "ok")) resp w' res Hh Hres)).
  - vm_compute. reflexivity.
  - reflexivity.
Defined.








(** C6, as the specification states it, fails: the root of the reply is
    read without a guard, so a reply whose JSON body is [null] makes the
    extraction throw a TypeError, and so does a [null] entry in the safety
    ratings of the first candidate.  The token counts are added and the
    categories used as keys without a look at what they are, so a count or a
    category that is an object with a [toString] entry of its own makes the
    extraction throw a TypeError as well. *)
Lemma reading_a_null_reply_throws :
  (exists e, responseText VNull = Thrown e /\ is_TypeError e = true)
  /\ (exists e, safetyRatings (H := Sample.engine) Sample.null_rating = Thrown e
                /\ is_TypeError e = true)
  /\ (ABTest.runSingleEvaluation (H := Sample.engine) Sample.key "Summarize the report"
        "gemini-1.5-flash" (Sample.world Sample.null_body)).1
     = Thrown (ErrorObject "TypeError" "Cannot read properties of null (reading 'candidates')")
  /\ (exists e, tokenCount (H := Sample.engine) Sample2.odd_count = Thrown e
                /\ is_TypeError e = true)
  /\ (exists e, safetyRatings (H := Sample.engine) Sample2.odd_category = Thrown e
                /\ is_TypeError e = true).
Proof.
  split; [|split; [|split; [|split]]].
  - eexists. split; reflexivity.
  - eexists. split; [vm_compute; reflexivity | reflexivity].
  - vm_compute. reflexivity.
  - eexists. split; [vm_compute; reflexivity | reflexivity].
  - eexists. split; [vm_compute; reflexivity | reflexivity].
Qed.

(** C6, amended.  For every reply other than [null] whose two usage counts
    can be converted to primitive values and whose first candidate has no
    safety entries or has an array of entries none of which is [null] and
    all of which have a category that can be converted, reading the reply
    throws nothing: the text is the empty string when any of the levels
    candidates, element 0, content, parts, element 0, text is missing; the
    safety ratings are the empty map when the first candidate has no (or an
    empty list of) safety entries; the token count is the sum of the two usage
    fields, each replaced by 0 when missing.  The runner of the comparison
    then returns a run with these three values. *)
Theorem reply_is_read_tolerantly `{JsEngine} (GEMINI_API_KEY : option string) (data : value) :
  nullish data = false ->
  convertible (prompt_tokens data) = true ->
  convertible (completion_tokens data) = true ->
  (truthy (safety_entries data) = true ->
   exists items, safety_entries data = VArr items
                 /\ Forall (fun entry => nullish entry = false
                                         /\ convertible (read entry "category") = true)
                      items) ->
  exists text ratings tokens,
    responseText data = Returned text
    /\ safetyRatings data = Returned ratings
    /\ tokenCount data = Returned tokens
    /\ (Exists (fun level => nullish level = true) (text_levels data) ->
        text = VStr EmptyString)
    /\ (truthy (safety_entries data) = false \/ safety_entries data = VArr [] ->
        ratings = ∅)
    /\ plus (or_else (prompt_tokens data) zero) (or_else (completion_tokens data) zero)
       = Returned tokens
    /\ (nullish (prompt_tokens data) = true -> or_else (prompt_tokens data) zero = zero)
    /\ (nullish (completion_tokens data) = true -> or_else (completion_tokens data) zero = zero)
    /\ (forall task model w response,
          result (next_reply w (endpoint GEMINI_API_KEY model) (payload task))
          = Responded response ->
          ok response = true -> body_json response = Returned data ->
          exists r,
            (ABTest.runSingleEvaluation GEMINI_API_KEY task model w).1 = Returned r
            /\ response_text r = text /\ safety_ratings r = ratings /\ token_count r = tokens).
Proof.
  intros Hd Hp Hc Hs.
  assert (Hr : exists ratings, safetyRatings data = Returned ratings
                               /\ (truthy (safety_entries data) = false
                                   \/ safety_entries data = VArr [] -> ratings = ∅)).
  { destruct (truthy (safety_entries data)) eqn:Et.
    - destruct (Hs eq_refl) as (items & Hi & Hall).
      destruct (RunnerFacts.safetyRatings_defined data items Hd Hi Hall) as (ratings & E).
      exists ratings. split; [exact E|]. intros [Hf | Hnil]; [discriminate|].
      rewrite (RunnerFacts.safetyRatings_array data [] Hd Hnil) in E.
      cbn [safetyRatings_loop obind empty_object own] in E. congruence.
    - exists ∅. split; [apply RunnerFacts.safetyRatings_absent; assumption | reflexivity]. }
  destruct Hr as (ratings & Er & Hempty).
  destruct (RunnerFacts.tokenCount_returns data Hd Hp Hc) as (tokens & En).
  eexists _, ratings, tokens.
  split; [apply RunnerFacts.responseText_defined; exact Hd|].
  split; [exact Er|].
  split; [exact En|].
  split.
  { intros Hex. apply RunnerFacts.text_levels_missing in Hex.
    apply RunnerFacts.or_else_nullish. exact Hex. }
  split; [exact Hempty|].
  split; [rewrite <- (RunnerFacts.tokenCount_defined data Hd); exact En|].
  split; [apply RunnerFacts.or_else_nullish|].
  split; [apply RunnerFacts.or_else_nullish|].
  intros task model w response Hres Hok Hjson.
  rewrite ABTestFacts.compare_run_cases. cbv zeta. cbn [fst].
  rewrite Hres, Hok, Hjson, Er, En.
  rewrite (RunnerFacts.responseText_defined data Hd).
  cbn [obind]. eexists. split; [reflexivity|]. repeat split.
Qed.

Lemma reply_is_read_tolerantly_witness :
  exists text ratings tokens,
    responseText (Sample.text_doc "ok" 3 4) = Returned text
    /\ safetyRatings (H := Sample.engine) (Sample.text_doc "ok" 3 4) = Returned ratings
    /\ tokenCount (H := Sample.engine) (Sample.text_doc "ok" 3 4) = Returned tokens.
Proof.
  destruct (reply_is_read_tolerantly (H := Sample.engine) Sample.key
              (Sample.text_doc "ok" 3 4) eq_refl eq_refl eq_refl)
    as (text & ratings & tokens & Ht & Hr & Hn & _).
  - intros _. eexists. split; [reflexivity|]. repeat constructor.
  - exists text, ratings, tokens. auto.
Defined.

End Claims.

(** * Further properties of the two functions *)

(** ** Traffic and time *)

Module FootprintFacts.
Import Js Runner Effects Loop Spec Footprint.

Lemma duration_app (a b : list Call) : duration (a ++ b) = duration a + duration b.
Proof. induction a as [|c a IH]; simpl; [reflexivity | rewrite IH; lia]. Qed.

Lemma total_app (a b : list Z) : total (a ++ b) = total a + total b.
Proof. induction a as [|c a IH]; simpl; [reflexivity | rewrite IH; lia]. Qed.

Lemma extends_refl (w : World) : extends w w [] [].
Proof. unfold extends. rewrite !app_nil_r. simpl. repeat split. lia. Qed.

Lemma extends_trans (w w1 w2 : World) n1 p1 n2 p2 :
  extends w w1 n1 p1 -> extends w1 w2 n2 p2 -> extends w w2 (n1 ++ n2) (p1 ++ p2).
Proof.
  intros (Hp1 & Hc1 & Hs1 & Hk1) (Hp2 & Hc2 & Hs2 & Hk2). unfold extends.
  rewrite Hp2, Hp1, Hc2, Hc1, Hs2, Hs1, Hk2, Hk1, duration_app, total_app, !app_assoc.
  repeat split. lia.
Qed.

Lemma extends_after_call (w : World) url body :
  extends w (after_call w url body)
    [ {| call_url := url; call_payload := body; call_reply := next_reply w url body |} ] [].
Proof. unfold extends, after_call. simpl. rewrite app_nil_r. repeat split. lia. Qed.

Lemma extends_sleep (w : World) ms : extends w (sleep ms w).2 [] [ms].
Proof. unfold extends, sleep. simpl. rewrite app_nil_r. repeat split. lia. Qed.

Lemma pause_test (n : Q) (i : Z) :
  Qltb (inject_Z i) (n - 1) = Qltb (inject_Z (i + 1)) n.
Proof.
  assert (Hiff : (inject_Z i < n - 1)%Q <-> (inject_Z (i + 1) < n)%Q).
  { destruct n as [a b]. unfold Qlt, Qminus, Qplus, Qopp, inject_Z. simpl. lia. }
  destruct (Qltb (inject_Z (i + 1)) n) eqn:E.
  - apply OrderFacts.Qltb_lt. apply Hiff. apply OrderFacts.Qltb_lt. exact E.
  - destruct (Qltb (inject_Z i) (n - 1)) eqn:F; [|reflexivity].
    apply OrderFacts.Qltb_lt, Hiff, OrderFacts.Qltb_lt in F. congruence.
Qed.

Lemma extends_pause (n : Q) (i : Z) (w : World) :
  extends w (pause_between n i w).2
    [] (if Qltb (inject_Z (i + 1)) n then [500] else []).
Proof.
  unfold pause_between. rewrite pause_test.
  destruct (Qltb (inject_Z (i + 1)) n); [apply extends_sleep | apply extends_refl].
Qed.

Section LoopFootprint.
Variable runner : M RunResult.
Variable n : Q.
Variable url : string.
Variable body : value.
Hypothesis runner_calls : forall w0, (runner w0).2 = after_call w0 url body.

Local Abbreviation footprint_of := (Footprint.footprint_of url body).

Lemma footprint_step (w w0 : World) count gaps :
  footprint_of w w0 count gaps ->
  footprint_of w (runner w0).2 (S count) gaps.
Proof.
  intros (new & He & Hs). rewrite runner_calls.
  eexists. split.
  - replace (replicate gaps 500) with (replicate gaps 500 ++ []) by apply app_nil_r.
    eapply extends_trans; [exact He | apply extends_after_call].
  - rewrite List.map_app, Hs. cbn [List.map sent call_url call_payload].
    symmetry. apply (replicate_cons_app count (url, body)).
Qed.

Lemma footprint_pause (w w1 : World) (i : Z) count gaps :
  footprint_of w w1 count gaps ->
  footprint_of w (pause_between n i w1).2 count
    (if Qltb (inject_Z (i + 1)) n then S gaps else gaps).
Proof.
  intros (new & He & Hs). exists new. split; [|exact Hs].
  pose proof (extends_trans _ _ _ _ _ _ _ He (extends_pause n i w1)) as Ht.
  rewrite app_nil_r in Ht.
  destruct (Qltb (inject_Z (i + 1)) n); [|rewrite app_nil_r in Ht; exact Ht].
  rewrite <- (replicate_cons_app gaps 500) in Ht. exact Ht.
Qed.

(** The loop makes one call per run and pauses between consecutive runs
    only; when it is stopped by an exception it has made no call after the
    failing one. *)
Lemma run_loop_footprint (w : World) :
  match run_loop runner n 0 [] w with
  | (Returned rs, w') =>
      footprint_of w w' (Z.to_nat (Qceiling n)) (Z.to_nat (Qceiling n) - 1)
      /\ length rs = Z.to_nat (Qceiling n)
  | (Thrown e, w') =>
      exists count, footprint_of w w' (S count) count /\ (Z.of_nat count < Qceiling n)
  end.
Proof.
  pose proof (LoopFacts.run_loop_rule runner n
    (fun i runs w1 =>
       0 <= i <= Z.max 0 (Qceiling n) /\ length runs = Z.to_nat i /\
       footprint_of w w1 (Z.to_nat i)
         (Z.to_nat (if Qltb (inject_Z i) n then i else i - 1)))
    (fun e w1 => exists count, footprint_of w w1 (S count) count
                               /\ (Z.of_nat count < Qceiling n))) as R.
  specialize (R ltac:(
    intros i runs w0 (Hi & Hl & Hf) Hlt;
    pose proof (LoopFacts.Qceiling_above n i Hlt) as Hc;
    apply OrderFacts.Qltb_lt in Hlt as Hb; rewrite Hb in Hf;
    pose proof (footprint_step w w0 _ _ Hf) as Hs;
    destruct (runner w0) as [[r|e] w1]; cbn [snd] in Hs;
    [ split; [lia|]; split;
      [ rewrite length_app, Hl; cbn [length]; lia |];
      apply (footprint_pause w w1 i) in Hs;
      replace (Z.to_nat (i + 1)) with (S (Z.to_nat i)) by lia;
      destruct (Qltb (inject_Z (i + 1)) n);
        [ replace (Z.to_nat (i + 1)) with (S (Z.to_nat i)) by lia; exact Hs
        | replace (Z.to_nat (i + 1 - 1)) with (Z.to_nat i) by lia; exact Hs ]
    | exists (Z.to_nat i); split; [exact Hs | lia] ]) 0 [] w).
  assert (H0 : 0 <= 0 <= Z.max 0 (Qceiling n) /\ length (@nil RunResult) = Z.to_nat 0 /\
               footprint_of w w (Z.to_nat 0)
                 (Z.to_nat (if Qltb (inject_Z 0) n then 0 else 0 - 1))).
  { split; [lia|]. split; [reflexivity|].
    replace (Z.to_nat (if Qltb (inject_Z 0) n then 0 else 0 - 1)) with 0%nat
      by (destruct (Qltb (inject_Z 0) n); reflexivity).
    exists []. split; [apply extends_refl | reflexivity]. }
  specialize (R H0).
  destruct (run_loop runner n 0 [] w) as [[rs|e] w']; [|exact R].
  destruct R as (j & (Hj & Hl & Hf) & Hn).
  pose proof (LoopFacts.Qceiling_least n j Hn) as Hc.
  apply OrderFacts.Qltb_ge in Hn. rewrite Hn in Hf.
  assert (Ej : Z.to_nat j = Z.to_nat (Qceiling n)) by lia.
  rewrite Ej in Hf, Hl. split; [|exact Hl].
  replace (Z.to_nat (Qceiling n) - 1)%nat with (Z.to_nat (j - 1)) by lia. exact Hf.
Qed.

End LoopFootprint.

Section Handlers.
Context `{JsEngine}.
Variable GEMINI_API_KEY : option string.

Lemma evaluate_run_world task expected model w0 :
  (Evaluate.runSingleEvaluation GEMINI_API_KEY task expected model w0).2
  = after_call w0 (endpoint GEMINI_API_KEY model) (payload task).
Proof. rewrite EvaluateFacts.evaluate_run_cases. reflexivity. Qed.

Lemma compare_run_world task model w0 :
  (ABTest.runSingleEvaluation GEMINI_API_KEY task model w0).2
  = after_call w0 (endpoint GEMINI_API_KEY model) (payload task).
Proof. rewrite ABTestFacts.compare_run_cases. reflexivity. Qed.

Lemma range_of_ceiling (q : Q) : (1 <= q)%Q -> (q <= 10)%Q -> 1 <= Qceiling q <= 10.
Proof.
  intros H1 H10. split.
  - apply (LoopFacts.Qceiling_above q 0).
    eapply Qlt_le_trans; [|exact H1]. reflexivity.
  - apply LoopFacts.Qceiling_least. exact H10.
Qed.

Lemma testModel_footprint task modelId name runsPerModel w modelResult w' :
  ABTest.testModel GEMINI_API_KEY task modelId name runsPerModel w = (Returned modelResult, w') ->
  footprint_of (endpoint GEMINI_API_KEY modelId) (payload task) w w'
    (Z.to_nat (Qceiling runsPerModel)) (Z.to_nat (Qceiling runsPerModel) - 1).
Proof.
  rewrite ABTestFacts.testModel_cases.
  pose proof (run_loop_footprint
                (ABTest.runSingleEvaluation GEMINI_API_KEY task modelId) runsPerModel
                (endpoint GEMINI_API_KEY modelId) (payload task)
                (compare_run_world task modelId) w) as F.
  destruct (run_loop _ _ _ _ _) as [[rs|e] w1]; [|discriminate].
  intros [= _ <-]. exact (proj1 F).
Qed.

Lemma models_loop_footprint task runsPerModel models results w out w' :
  ABTest.models_loop GEMINI_API_KEY task runsPerModel models results w = (Returned out, w') ->
  exists new,
    extends w w' new
      (concat (List.map (fun _ => model_pauses (Z.to_nat (Qceiling runsPerModel))) models))
    /\ List.map sent new
       = concat (List.map (fun m => model_calls (endpoint GEMINI_API_KEY m.1) (payload task)
                                      (Z.to_nat (Qceiling runsPerModel))) models).
Proof.
  revert results w. induction models as [|[modelId name] rest IH]; intros results w.
  - intros [= _ <-]. exists []. split; [apply extends_refl | reflexivity].
  - rewrite ABTestFacts.models_loop_cons.
    destruct (ABTest.testModel _ _ _ _ _ _) as [[mr|e] w1] eqn:Et; [|discriminate].
    intros E. apply IH in E as (new2 & He2 & Hs2).
    apply testModel_footprint in Et as (new1 & He1 & Hs1).
    pose proof (extends_trans _ _ _ _ _ _ _ He1 (extends_sleep w1 1000)) as He.
    pose proof (extends_trans _ _ _ _ _ _ _ He He2) as Hall.
    rewrite app_nil_r in Hall.
    exists (new1 ++ new2). split.
    + cbn [List.map concat]. unfold model_pauses at 1. exact Hall.
    + rewrite List.map_app, Hs1, Hs2. reflexivity.
Qed.

End Handlers.

End FootprintFacts.

(** ** The success percentage *)

Module PercentageFacts.
Import JsNumber Spec.

Lemma successes_le (runs : list RunResult) : (successes runs <= length runs)%nat.
Proof.
  induction runs as [|r rest IH]; simpl; [lia|]. destruct (success r); lia.
Qed.

Lemma successes_all (runs : list RunResult) :
  successes runs = length runs <-> Forall (fun r => success r = true) runs.
Proof.
  induction runs as [|r rest IH]; simpl.
  - split; [constructor | reflexivity].
  - pose proof (successes_le rest) as Hle. destruct (success r) eqn:E.
    + split.
      * intros [= Hs]. constructor; [exact E | apply IH; exact Hs].
      * intros Hall. apply Forall_cons in Hall as [_ Hall]. f_equal. apply IH. exact Hall.
    + split; [lia|]. intros Hall. apply Forall_cons in Hall as [Hr _]. congruence.
Qed.

Lemma successes_none (runs : list RunResult) :
  successes runs = 0%nat <-> Forall (fun r => success r = false) runs.
Proof.
  induction runs as [|r rest IH]; simpl.
  - split; [constructor | reflexivity].
  - destruct (success r) eqn:E.
    + split; [discriminate|]. intros Hall. apply Forall_cons in Hall as [Hr _]. congruence.
    + rewrite IH. split.
      * intros Hall. constructor; assumption.
      * intros Hall. apply Forall_cons in Hall as [_ Hall]. exact Hall.
Qed.

Lemma hundredths_of_ratio (s K : Z) :
  0 <= s <= K -> 1 <= K <= 10 ->
  let z := Qfloor (inject_Z s / inject_Z K * 100 * 100 + (1 # 2)) in
  0 <= z <= 10000 /\ (s = K -> z = 10000) /\ (s < K -> z <= 9000)
  /\ (s = 0 -> z = 0) /\ (1 <= s -> 1000 <= z).
Proof.
  intros Hs HK. cbv zeta. destruct K as [|p|p]; try lia.
  unfold Qfloor, Qdiv, Qmult, Qplus, Qinv, inject_Z. cbn [Qnum Qden].
  rewrite !Z.mul_1_r, !Pos.mul_1_r, !Pos.mul_1_l, ?Z.mul_1_l.
  rewrite Pos2Z.inj_mul.
  generalize dependent (Z.pos p). intros P Hs HK.
  assert (Hcases : P = 1 \/ P = 2 \/ P = 3 \/ P = 4 \/ P = 5 \/ P = 6 \/ P = 7
                   \/ P = 8 \/ P = 9 \/ P = 10) by lia.
  repeat destruct Hcases as [-> | Hcases]; try subst P;
    (split; [split | split; [intros ? | split; [intros ? | split; intros ?]]]);
    Z.div_mod_to_equations; lia.
Qed.

(** The percentage of [s] successes out of [K] runs, as the aggregate
    computes it. *)
Lemma percentage_bounds (s K : Z) :
  0 <= s <= K -> 1 <= K <= 10 ->
  let p := round2 (inject_Z s / inject_Z K * 100) in
  (0 <= p)%Q /\ (p <= 100)%Q /\ ((p == 100)%Q <-> s = K) /\ ((p == 0)%Q <-> s = 0).
Proof.
  intros Hs HK. cbv zeta.
  destruct (hundredths_of_ratio s K Hs HK) as (Hz & Hfull & Hless & Hzero & Hsome).
  unfold round2, Math_round.
  set (z := Qfloor (inject_Z s / inject_Z K * 100 * 100 + (1 # 2))) in *.
  assert (E : forall c : Z, (inject_Z z / 100 == inject_Z c)%Q <-> z = 100 * c).
  { intros c. unfold Qeq, Qdiv, Qmult, Qinv, inject_Z. cbn [Qnum Qden]. lia. }
  repeat split.
  - unfold Qle, Qdiv, Qmult, Qinv, inject_Z. cbn [Qnum Qden]. lia.
  - unfold Qle, Qdiv, Qmult, Qinv, inject_Z. cbn [Qnum Qden]. lia.
  - intros H100. apply (E 100) in H100. destruct (Z.eq_dec s K) as [|Hne]; [assumption|].
    assert (s < K) by lia. specialize (Hless ltac:(assumption)). lia.
  - intros ->. apply (E 100). rewrite Hfull; reflexivity.
  - intros H0. apply (E 0) in H0. destruct (Z.eq_dec s 0) as [|Hne]; [assumption|].
    assert (1 <= s) by lia. specialize (Hsome ltac:(assumption)). lia.
  - intros ->. apply (E 0). rewrite Hzero; reflexivity.
Qed.

End PercentageFacts.

(** ** Further properties, stated on the handlers *)

Module Extras.
Import Js Runner Effects Loop Spec Footprint.

(** X1.  Neither handler lets an exception escape: every request is
    answered, with status 200, 400 or 500.  A 400 or 500 answer carries a
    detail string and a 200 answer a result (or nothing, to the CORS
    preflight); every answer but the preflight's has the JSON content type. *)
Theorem handlers_always_answer `{JsEngine} (GEMINI_API_KEY : option string) :
  (forall req w, exists resp,
      (Evaluate.handler GEMINI_API_KEY req w).1 = Returned resp
      /\ match resp_body resp with
         | BodyNull => resp_status resp = 200 /\ method req = "OPTIONS"%string
                       /\ resp_headers resp = corsHeaders
         | BodyDetail _ => (resp_status resp = 400 \/ resp_status resp = 500)
                           /\ resp_headers resp = jsonHeaders
         | BodyJson _ => resp_status resp = 200 /\ resp_headers resp = jsonHeaders
         end)
  /\ (forall req w, exists resp,
        (ABTest.handler GEMINI_API_KEY req w).1 = Returned resp
        /\ match resp_body resp with
           | BodyNull => resp_status resp = 200 /\ method req = "OPTIONS"%string
                         /\ resp_headers resp = corsHeaders
           | BodyDetail _ => (resp_status resp = 400 \/ resp_status resp = 500)
                             /\ resp_headers resp = jsonHeaders
           | BodyJson _ => resp_status resp = 200 /\ resp_headers resp = jsonHeaders
           end).
Proof.
  split; intros req w.
  - rewrite EvaluateFacts.evaluate_handler_cases.
    destruct (String.eqb_spec (method req) "OPTIONS");
      [eexists; split; [reflexivity|]; cbn; auto|].
    repeat match goal with
           | |- context [if ?b then _ else _] =>
               destruct b; [eexists; split; [reflexivity|]; cbn; auto|]
           | |- context [match req_json ?r with Returned _ => _ | Thrown _ => _ end] =>
               destruct (req_json r); [|eexists; split; [reflexivity|]; cbn; auto]
           | |- context [match ?o with Some _ => _ | None => _ end] =>
               destruct o; [|eexists; split; [reflexivity|]; cbn; auto]
           end.
    destruct (Evaluate.calculatePassAtK _ _ _ _ _ _) as [[res|e] w'];
      eexists; (split; [reflexivity|]); cbn; auto.
  - rewrite ABTestFacts.compare_handler_cases.
    destruct (String.eqb_spec (method req) "OPTIONS");
      [eexists; split; [reflexivity|]; cbn; auto|].
    repeat match goal with
           | |- context [if ?b then _ else _] =>
               destruct b; [eexists; split; [reflexivity|]; cbn; auto|]
           | |- context [match req_json ?r with Returned _ => _ | Thrown _ => _ end] =>
               destruct (req_json r); [|eexists; split; [reflexivity|]; cbn; auto]
           | |- context [match ?o with Some _ => _ | None => _ end] =>
               destruct o; [|eexists; split; [reflexivity|]; cbn; auto]
           end.
    destruct (ABTest.models_loop _ _ _ _ _ _) as [[res|e] w'];
      eexists; (split; [reflexivity|]); cbn; auto.
Qed.

(** X2.  The credential is tested before the body is read, and the body is
    parsed before the task is looked at: without a credential every request
    but the preflight is answered 500 with the message about the credential,
    whatever its body; with one, a body that is not JSON is answered 500 with
    the message of the parse error.  In both cases, and for both handlers,
    the world is untouched. *)
Theorem credential_and_body_come_first `{JsEngine} (GEMINI_API_KEY : option string) :
  (configured GEMINI_API_KEY = false ->
   (forall req w, method req <> "OPTIONS"%string ->
      Evaluate.handler GEMINI_API_KEY req w
      = (Returned (Build_Response 500 jsonHeaders
                     (BodyDetail "GEMINI_API_KEY environment variable is required")), w))
   /\ (forall req w, method req <> "OPTIONS"%string ->
        ABTest.handler GEMINI_API_KEY req w
        = (Returned (Build_Response 500 jsonHeaders
                       (BodyDetail "GEMINI_API_KEY environment variable is required")), w)))
  /\ (configured GEMINI_API_KEY = true ->
      (forall req w e, method req <> "OPTIONS"%string -> req_json req = Thrown e ->
         Evaluate.handler GEMINI_API_KEY req w
         = (Returned (Build_Response 500 jsonHeaders
                        (BodyDetail (Evaluate.error_detail e))), w))
      /\ (forall req w e, method req <> "OPTIONS"%string -> req_json req = Thrown e ->
           ABTest.handler GEMINI_API_KEY req w
           = (Returned (Build_Response 500 jsonHeaders
                          (BodyDetail (ABTest.error_detail e))), w))).
Proof.
  split; intros Hk; split.
  - intros req w Hm. apply String.eqb_neq in Hm.
    rewrite EvaluateFacts.evaluate_handler_cases, Hm, Hk. reflexivity.
  - intros req w Hm. apply String.eqb_neq in Hm.
    rewrite ABTestFacts.compare_handler_cases, Hm, Hk. reflexivity.
  - intros req w e Hm Hb. apply String.eqb_neq in Hm.
    rewrite EvaluateFacts.evaluate_handler_cases, Hm, Hk, Hb. reflexivity.
  - intros req w e Hm Hb. apply String.eqb_neq in Hm.
    rewrite ABTestFacts.compare_handler_cases, Hm, Hk, Hb. reflexivity.
Qed.

Lemma credential_and_body_come_first_witness :
  Evaluate.handler (H := Sample.engine) None
    (Sample.post (Sample.evaluate_body (Some 3%Q) None)) (Sample.world (Sample.steady "ok"))
  = (Returned (Build_Response 500 jsonHeaders
                 (BodyDetail "GEMINI_API_KEY environment variable is required")),
     Sample.world (Sample.steady "ok")).
Proof.
  apply (proj1 (proj1 (credential_and_body_come_first (H := Sample.engine) None) eq_refl)).
  discriminate.
Defined.

(** X3.  The number of runs is the least integer not below the effective
    [k] (the request's [k], or 3 when it is absent, null or 0), while
    [total_runs] is the effective [k] itself: a fractional [k] within
    [1, 10] is accepted, runs up to the next integer and is reported as
    sent.  In the comparison every model gets that many runs. *)
Theorem runs_round_k_up `{JsEngine} (GEMINI_API_KEY : option string) :
  (forall req body w resp w' res,
      req_json req = Returned body ->
      Evaluate.handler GEMINI_API_KEY req w = (Returned resp, w') ->
      resp_body resp = BodyJson res ->
      length (Evaluate.runs res) = Z.to_nat (Qceiling (num_or (Evaluate.k body) 3))
      /\ List.map run_number (Evaluate.runs res)
         = one_to (Z.to_nat (Qceiling (num_or (Evaluate.k body) 3)))
      /\ Evaluate.total_runs res = num_or (Evaluate.k body) 3
      /\ 1 <= Qceiling (num_or (Evaluate.k body) 3) <= 10)
  /\ (forall req body w resp w' res,
        req_json req = Returned body ->
        ABTest.handler GEMINI_API_KEY req w = (Returned resp, w') ->
        resp_body resp = BodyJson res ->
        Forall (fun modelResult =>
                  List.map run_number (ABTest.runs modelResult)
                  = one_to (Z.to_nat (Qceiling (num_or (ABTest.runs_per_model body) 3))))
          (ABTest.models res)
        /\ 1 <= Qceiling (num_or (ABTest.runs_per_model body) 3) <= 10).
Proof.
  split; intros req body w resp w' res Hb Hh Hres.
  - destruct (EvaluateFacts.evaluate_handler_result _ _ _ _ _ _ Hh Hres)
      as (body' & text & Hb' & _ & _ & H1 & H10 & _ & Hc).
    rewrite Hb in Hb'. injection Hb' as <-.
    rewrite EvaluateFacts.calculatePassAtK_cases in Hc.
    destruct (run_loop _ _ _ _ _) as [[rs|e] w1] eqn:El; [|discriminate].
    injection Hc as <- _. cbn [Evaluate.runs Evaluate.total_runs].
    apply LoopFacts.run_loop_numbering in El.
    split; [rewrite <- (length_map run_number), El; apply Claims.one_to_length|].
    split; [exact El|]. split; [reflexivity|].
    apply FootprintFacts.range_of_ceiling; assumption.
  - destruct (ABTestFacts.compare_handler_result _ _ _ _ _ _ Hh Hres)
      as (body' & text & Hb' & _ & _ & H1 & H10 & _ & Hm).
    rewrite Hb in Hb'. injection Hb' as <-.
    split; [|apply FootprintFacts.range_of_ceiling; assumption].
    apply ABTestFacts.models_loop_returned in Hm as (added & -> & Hall).
    cbn [app]. clear - Hall.
    induction Hall as [|m mr ms mrs (w1 & w2 & Ht) _ IH]; constructor; [|exact IH].
    rewrite ABTestFacts.testModel_cases in Ht.
    destruct (run_loop _ _ _ _ _) as [[rs|e] w3] eqn:El; [|discriminate].
    injection Ht as <- _. cbn [ABTest.runs].
    apply LoopFacts.run_loop_numbering in El. exact El.
Qed.

Lemma runs_round_k_up_witness :
  exists resp w' res,
    Sample.evaluate (Sample.post (Sample.evaluate_body (Some 2.5%Q) None))
      (Sample.world (Sample.steady "ok")) = (Returned resp, w')
    /\ resp_body resp = BodyJson res
    /\ length (Evaluate.runs res) = 3%nat
    /\ Evaluate.total_runs res = 2.5%Q.
Proof.
  eexists _, _, _. split; [vm_compute; reflexivity|]. split; [reflexivity|].
  pose proof (fun resp w' res Hh Hres =>
                proj1 (runs_round_k_up (H := Sample.engine) Sample.key)
                  (Sample.post (Sample.evaluate_body (Some 2.5%Q) None))
                  (Sample.evaluate_body (Some 2.5%Q) None)
                  (Sample.world (Sample.steady "ok")) resp w' res eq_refl Hh Hres) as E.
  edestruct E as (Hl & _ & Ht & _); [vm_compute; reflexivity | reflexivity |].
  split; [exact Hl | exact Ht].
Defined.

(** X4.  What an evaluation request does to the world, however it ends: it
    either leaves the world as it was, or it has a task and makes between 1
    and 10 calls, every one to the endpoint of the default model with the
    task as payload, with a pause of 500 ms between consecutive calls and
    none after the last; the clock advances by the time of the calls plus
    the pauses and the provider is unchanged.  When the request is answered
    with a result the number of calls is the number of runs. *)
Theorem evaluation_traffic `{JsEngine} (GEMINI_API_KEY : option string) req body w :
  req_json req = Returned body ->
  (Evaluate.handler GEMINI_API_KEY req w).2 = w
  \/ exists text count,
       Evaluate.task body = Some text
       /\ footprint_of (endpoint GEMINI_API_KEY Evaluate.default_model) (payload text)
            w (Evaluate.handler GEMINI_API_KEY req w).2 count (count - 1)
       /\ (1 <= count <= 10)%nat
       /\ (forall resp res,
             (Evaluate.handler GEMINI_API_KEY req w).1 = Returned resp ->
             resp_body resp = BodyJson res ->
             count = length (Evaluate.runs res)).
Proof.
  intros Hb. rewrite EvaluateFacts.evaluate_handler_cases, Hb.
  destruct (String.eqb _ _); [left; reflexivity|].
  destruct (negb _); [left; reflexivity|].
  destruct (Evaluate.task body) as [text|]; [|left; reflexivity].
  destruct (whitespace_only text); [left; reflexivity|].
  destruct (Qltb _ 1 || Qltb 10 _) eqn:Er; [left; reflexivity|].
  apply orb_false_elim in Er as [E1 E2].
  apply OrderFacts.Qltb_ge in E1. apply OrderFacts.Qltb_ge in E2.
  pose proof (FootprintFacts.range_of_ceiling _ E1 E2) as Hrange.
  right. exists text. rewrite EvaluateFacts.calculatePassAtK_cases.
  pose proof (FootprintFacts.run_loop_footprint
                (Evaluate.runSingleEvaluation GEMINI_API_KEY text
                   (str_or (Evaluate.expected_output body) EmptyString)
                   Evaluate.default_model)
                (num_or (Evaluate.k body) 3)
                (endpoint GEMINI_API_KEY Evaluate.default_model) (payload text)
                (FootprintFacts.evaluate_run_world GEMINI_API_KEY text _ _) w) as F.
  destruct (run_loop _ _ _ _ _) as [[rs|e] w1]; cbn [fst snd].
  - destruct F as [F Hl]. eexists. split; [reflexivity|]. split; [exact F|].
    split; [lia|]. intros resp res [= <-] [= <-]. cbn [Evaluate.runs]. lia.
  - destruct F as (count & F & Hc). exists (S count). split; [reflexivity|].
    replace (S count - 1)%nat with count by lia. split; [exact F|]. split; [lia|].
    intros resp res [= <-]. discriminate.
Qed.

Lemma evaluation_traffic_witness :
  exists count,
    footprint_of (endpoint Sample.key Evaluate.default_model) (payload "Summarize the report")
      (Sample.world Sample.out_of_quota)
      (Sample.evaluate (Sample.post (Sample.evaluate_body (Some 3%Q) None))
         (Sample.world Sample.out_of_quota)).2 count (count - 1)
    /\ (1 <= count <= 10)%nat.
Proof.
  destruct (evaluation_traffic (H := Sample.engine) Sample.key
              (Sample.post (Sample.evaluate_body (Some 3%Q) None))
              (Sample.evaluate_body (Some 3%Q) None)
              (Sample.world Sample.out_of_quota) eq_refl)
    as [Hsame | (text & count & Ht & Hf & Hc & _)].
  - exfalso. apply (f_equal (fun w => length (calls w))) in Hsame.
    vm_compute in Hsame. discriminate.
  - injection Ht as <-. exists count. split; [exact Hf | exact Hc].
Defined.

(** X5.  A comparison answered with a result has called the three models in
    the order fast, balanced, quality, each as many times as there are runs
    per model and always with the task as payload; between the calls to one
    model it paused 500 ms, and after each model, the last one included, it
    paused 1000 ms.  At most 30 calls are made. *)
Theorem comparison_traffic `{JsEngine} (GEMINI_API_KEY : option string)
  req body w resp w' res :
  req_json req = Returned body ->
  ABTest.handler GEMINI_API_KEY req w = (Returned resp, w') ->
  resp_body resp = BodyJson res ->
  exists text new n,
    ABTest.task body = Some text
    /\ n = Z.to_nat (Qceiling (num_or (ABTest.runs_per_model body) 3))
    /\ (1 <= n <= 10)%nat
    /\ extends w w' new (model_pauses n ++ model_pauses n ++ model_pauses n)
    /\ List.map sent new
       = model_calls (endpoint GEMINI_API_KEY "gemini-1.5-flash-8b") (payload text) n
         ++ model_calls (endpoint GEMINI_API_KEY "gemini-1.5-flash") (payload text) n
         ++ model_calls (endpoint GEMINI_API_KEY "gemini-1.5-pro") (payload text) n.
Proof.
  intros Hb Hh Hres.
  destruct (ABTestFacts.compare_handler_result _ _ _ _ _ _ Hh Hres)
    as (body' & text & Hb' & Ht & _ & H1 & H10 & _ & Hm).
  rewrite Hb in Hb'. injection Hb' as <-.
  apply FootprintFacts.models_loop_footprint in Hm as (new & He & Hs).
  pose proof (FootprintFacts.range_of_ceiling _ H1 H10) as Hrange.
  exists text, new, (Z.to_nat (Qceiling (num_or (ABTest.runs_per_model body) 3))).
  split; [exact Ht|]. split; [reflexivity|]. split; [lia|].
  cbn [ABTest.models_table List.map concat fst] in He, Hs.
  rewrite !app_nil_r in He, Hs. split; assumption.
Qed.

Lemma comparison_traffic_witness :
  exists resp w' res new,
    Sample.compare (Sample.post (Sample.abtest_body (Some 2%Q)))
      (Sample.world (Sample.steady "ok")) = (Returned resp, w')
    /\ resp_body resp = BodyJson res
    /\ pauses w' = [500; 1000; 500; 1000; 500; 1000]
    /\ calls w' = new /\ length new = 6%nat.
Proof.
  eexists _, _, _, _. split; [vm_compute; reflexivity|]. split; [reflexivity|].
  destruct (comparison_traffic (H := Sample.engine) Sample.key
              (Sample.post (Sample.abtest_body (Some 2%Q)))
              (Sample.abtest_body (Some 2%Q))
              (Sample.world (Sample.steady "ok")) _ _ _ eq_refl
              ltac:(vm_compute; reflexivity) eq_refl)
    as (text & new & n & _ & Hn & _ & (_ & Hc & Hp & _) & _).
  split; [|split; reflexivity].
  rewrite Hp, Hn. reflexivity.
Defined.

Lemma integer_range (K : Z) (q : Q) :
  q = inject_Z K -> (1 <= q)%Q -> (q <= 10)%Q -> 1 <= K <= 10.
Proof.
  intros -> H1 H10. rewrite !Zle_Qle. split; assumption.
Qed.

(** The percentage of an aggregate of [K] runs, [K] an integer in [1, 10]. *)
Lemma aggregate_percentage `{JsEngine} (GEMINI_API_KEY : option string)
  (K : Z) task expected model w res w' :
  1 <= K <= 10 ->
  Evaluate.calculatePassAtK GEMINI_API_KEY task expected (inject_Z K) model w
  = (Returned res, w') ->
  (0 <= Evaluate.pass_at_k res)%Q /\ (Evaluate.pass_at_k res <= 100)%Q
  /\ ((Evaluate.pass_at_k res == 100)%Q
      <-> Forall (fun r => success r = true) (Evaluate.runs res))
  /\ ((Evaluate.pass_at_k res == 0)%Q
      <-> Forall (fun r => success r = false) (Evaluate.runs res)).
Proof.
  intros HK. rewrite EvaluateFacts.calculatePassAtK_cases.
  destruct (run_loop _ _ _ _ _) as [[rs|e] w1] eqn:El; [|discriminate].
  intros [= <- <-]. cbn [Evaluate.runs Evaluate.pass_at_k].
  destruct (Claims.loop_length _ _ _ _ _ El) as [_ Hl].
  rewrite (Claims.positive_integer_test K ltac:(lia)), Claims.filter_success_length.
  pose proof (PercentageFacts.successes_le rs) as Hle.
  destruct (PercentageFacts.percentage_bounds (Z.of_nat (successes rs)) K
              ltac:(lia) HK) as (H0 & H100 & Hall & Hnone).
  split; [exact H0|]. split; [exact H100|]. split.
  - rewrite Hall, <- PercentageFacts.successes_all. lia.
  - rewrite Hnone, <- PercentageFacts.successes_none. lia.
Qed.

(** X6.  When [k] is an integer, [pass_at_k] in the answer is a percentage:
    it lies between 0 and 100, it is 100 exactly when every run succeeded and
    0 exactly when none did. *)
Theorem pass_at_k_is_a_percentage `{JsEngine} (GEMINI_API_KEY : option string)
  (K : Z) req body w resp w' res :
  req_json req = Returned body ->
  num_or (Evaluate.k body) 3 = inject_Z K ->
  Evaluate.handler GEMINI_API_KEY req w = (Returned resp, w') ->
  resp_body resp = BodyJson res ->
  (0 <= Evaluate.pass_at_k res)%Q /\ (Evaluate.pass_at_k res <= 100)%Q
  /\ ((Evaluate.pass_at_k res == 100)%Q
      <-> Forall (fun r => success r = true) (Evaluate.runs res))
  /\ ((Evaluate.pass_at_k res == 0)%Q
      <-> Forall (fun r => success r = false) (Evaluate.runs res)).
Proof.
  intros Hb Hk Hh Hres.
  destruct (EvaluateFacts.evaluate_handler_result _ _ _ _ _ _ Hh Hres)
    as (body' & text & Hb' & _ & _ & H1 & H10 & _ & Hc).
  rewrite Hb in Hb'. injection Hb' as <-.
  pose proof (integer_range K _ Hk H1 H10) as HK. rewrite Hk in Hc.
  exact (aggregate_percentage _ _ _ _ _ _ _ _ HK Hc).
Qed.

Lemma pass_at_k_is_a_percentage_witness :
  exists resp w' res,
    Sample.evaluate (Sample.post (Sample.evaluate_body (Some 3%Q) (Some "diagnosis"%string)))
      (Sample.world Sample.one_in_three) = (Returned resp, w')
    /\ resp_body resp = BodyJson res
    /\ (0 <= Evaluate.pass_at_k res)%Q /\ (Evaluate.pass_at_k res <= 100)%Q.
Proof.
  eexists _, _, _. split; [vm_compute; reflexivity|]. split; [reflexivity|].
  destruct (pass_at_k_is_a_percentage (H := Sample.engine) Sample.key 3
              (Sample.post (Sample.evaluate_body (Some 3%Q) (Some "diagnosis"%string)))
              (Sample.evaluate_body (Some 3%Q) (Some "diagnosis"%string))
              (Sample.world Sample.one_in_three) _ _ _ eq_refl eq_refl
              ltac:(vm_compute; reflexivity) eq_refl) as (H0 & H100 & _).
  split; [exact H0 | exact H100].
Defined.

(** X7.  When the request leaves [expected_output] out, or sends an empty or
    whitespace-only one, and [k] is an integer, every evaluation that is
    answered with a result reports [pass_at_k] and [success_rate] 100. *)
Theorem no_expectation_passes `{JsEngine} (GEMINI_API_KEY : option string)
  (K : Z) req body w resp w' res :
  req_json req = Returned body ->
  blank (Evaluate.expected_output body) = true ->
  num_or (Evaluate.k body) 3 = inject_Z K ->
  Evaluate.handler GEMINI_API_KEY req w = (Returned resp, w') ->
  resp_body resp = BodyJson res ->
  (Evaluate.pass_at_k res == 100)%Q /\ (Evaluate.success_rate res == 100)%Q.
Proof.
  intros Hb Hblank Hk Hh Hres.
  destruct (EvaluateFacts.evaluate_handler_result _ _ _ _ _ _ Hh Hres)
    as (body' & text & Hb' & _ & _ & H1 & H10 & _ & Hc).
  rewrite Hb in Hb'. injection Hb' as <-.
  pose proof (integer_range K _ Hk H1 H10) as HK. rewrite Hk in Hc.
  assert (Hall : Forall (fun r => success r = true) (Evaluate.runs res)).
  { eapply Claims.evaluate_runs_Forall in Hc as Hf; [exact Hf | |].
    - intros w0 r w1 Er.
      apply EvaluateFacts.evaluate_run_returned in Er
        as (? & ? & _ & _ & _ & _ & _ & _ & Hs & _).
      apply Claims.checkSuccess_meaning in Hs as [Hs _]. apply Hs.
      rewrite Claims.str_or_empty.
      destruct (Evaluate.expected_output body); exact Hblank.
    - intros m r Hr. exact Hr. }
  assert (Hp : (Evaluate.pass_at_k res == 100)%Q)
    by (apply (aggregate_percentage _ _ _ _ _ _ _ _ HK Hc); exact Hall).
  split; [exact Hp|].
  rewrite EvaluateFacts.calculatePassAtK_cases in Hc.
  destruct (run_loop _ _ _ _ _) as [[rs|e] w1]; [|discriminate].
  injection Hc as <- _. exact Hp.
Qed.

Lemma no_expectation_passes_witness :
  exists resp w' res,
    Sample.evaluate (Sample.post (Sample.evaluate_body (Some 2%Q) (Some "  "%string)))
      (Sample.world (Sample.steady "anything")) = (Returned resp, w')
    /\ resp_body resp = BodyJson res
    /\ (Evaluate.pass_at_k res == 100)%Q.
Proof.
  eexists _, _, _. split; [vm_compute; reflexivity|]. split; [reflexivity|].
  eapply (fun resp w' res Hh Hres =>
            proj1 (no_expectation_passes (H := Sample.engine) Sample.key 2
                     (Sample.post (Sample.evaluate_body (Some 2%Q) (Some "  "%string)))
                     (Sample.evaluate_body (Some 2%Q) (Some "  "%string))
                     (Sample.world (Sample.steady "anything")) resp w' res
                     eq_refl eq_refl eq_refl Hh Hres)).
  - vm_compute. reflexivity.
  - reflexivity.
Defined.

End Extras.

(** ** Replies that can and cannot be processed *)

Module ProcessingFacts.
Import Js Runner Effects Loop Spec Processing.

Section WithEngine.
Context `{JsEngine}.
Variable GEMINI_API_KEY : option string.

Lemma evaluate_run_reading task expected model w :
  match (Evaluate.runSingleEvaluation GEMINI_API_KEY task expected model w).1 with
  | Returned _ =>
      reading (Some expected) (next_reply w (endpoint GEMINI_API_KEY model) (payload task))
      = Returned tt
  | Thrown e =>
      reading (Some expected) (next_reply w (endpoint GEMINI_API_KEY model) (payload task))
      = Thrown e
  end.
Proof.
  rewrite EvaluateFacts.evaluate_run_cases. cbv zeta. cbn [fst]. unfold reading.
  destruct (result (next_reply w _ _)) as [response|e]; [|reflexivity].
  destruct (ok response); [|reflexivity].
  destruct (body_json response) as [data|e]; [|reflexivity]. cbn [obind].
  destruct (responseText data) as [text|e]; [|reflexivity]. cbn [obind].
  destruct (safetyRatings data) as [ratings|e]; [|reflexivity]. cbn [obind].
  destruct (tokenCount data) as [tokens|e]; [|reflexivity]. cbn [obind].
  destruct (Evaluate.checkSuccess text expected) as [passed|e]; reflexivity.
Qed.

Lemma compare_run_reading task model w :
  match (ABTest.runSingleEvaluation GEMINI_API_KEY task model w).1 with
  | Returned _ =>
      reading None (next_reply w (endpoint GEMINI_API_KEY model) (payload task)) = Returned tt
  | Thrown e =>
      reading None (next_reply w (endpoint GEMINI_API_KEY model) (payload task)) = Thrown e
  end.
Proof.
  rewrite ABTestFacts.compare_run_cases. cbv zeta. cbn [fst]. unfold reading.
  destruct (result (next_reply w _ _)) as [response|e]; [|reflexivity].
  destruct (ok response); [|reflexivity].
  destruct (body_json response) as [data|e]; [|reflexivity]. cbn [obind].
  destruct (responseText data) as [text|e]; [|reflexivity]. cbn [obind].
  destruct (safetyRatings data) as [ratings|e]; [|reflexivity]. cbn [obind].
  destruct (tokenCount data) as [tokens|e]; reflexivity.
Qed.

End WithEngine.

Section Traces.
Context `{JsEngine}.
Variable expected : option string.

Lemma ends_with_app {A} (o : Outcome A) (before new : list Call) :
  Forall (processable expected) before -> ends_with expected o new ->
  ends_with expected o (before ++ new).
Proof.
  intros Hb Hfit. destruct o as [a|e]; simpl in *.
  - apply Forall_app; split; assumption.
  - destruct Hfit as (earlier & c & -> & He & Hc).
    exists (before ++ earlier), c. rewrite app_assoc.
    split; [reflexivity|]. split; [apply Forall_app; split; assumption | exact Hc].
Qed.

(** A call that cannot be processed is the last call, and its error is the
    one thrown. *)
Lemma ends_with_failure {A} (o : Outcome A) (new : list Call) c e :
  ends_with expected o new -> In c new -> reading expected (call_reply c) = Thrown e ->
  (exists earlier, new = earlier ++ [c]) /\ o = Thrown e.
Proof.
  intros Hfit Hin Hr. destruct o as [a|e']; simpl in Hfit.
  - rewrite Forall_forall in Hfit. apply list_elem_of_In in Hin.
    specialize (Hfit c Hin). unfold processable in Hfit. congruence.
  - destruct Hfit as (earlier & c' & -> & He & Hc).
    apply in_app_or in Hin as [Hin | [<- | []]].
    + rewrite Forall_forall in He. apply list_elem_of_In in Hin.
      specialize (He c Hin). unfold processable in He. congruence.
    + split; [exists earlier; reflexivity|]. congruence.
Qed.

Variable runner : M RunResult.
Variable n : Q.
Hypothesis runner_reads :
  forall w0, exists c, calls (runner w0).2 = calls w0 ++ [c]
                       /\ match (runner w0).1 with
                          | Returned _ => reading expected (call_reply c) = Returned tt
                          | Thrown e => reading expected (call_reply c) = Thrown e
                          end.

Lemma run_loop_ends i runs w :
  exists new,
    calls (run_loop runner n i runs w).2 = calls w ++ new /\
    ends_with expected (run_loop runner n i runs w).1 new.
Proof.
  pose proof (LoopFacts.run_loop_rule runner n
    (fun _ _ w1 => exists new, calls w1 = calls w ++ new
                               /\ Forall (processable expected) new)
    (fun e w1 => exists new, calls w1 = calls w ++ new
                             /\ ends_with expected (@Thrown unit e) new)) as R.
  specialize (R ltac:(
    intros i0 runs0 w0 (new & Hc & Hall) _;
    destruct (runner_reads w0) as (c & Hc1 & Hread);
    destruct (runner w0) as [[r|e] w1]; simpl in *;
    [ destruct (LoopFacts.pause_between_returns n i0 w1) as (w2 & -> & Hc2 & _); simpl;
      exists (new ++ [c]); rewrite Hc2, Hc1, Hc, <- app_assoc; split; [reflexivity|];
      apply Forall_app; split; [exact Hall | constructor; [exact Hread | constructor]]
    | exists (new ++ [c]); rewrite Hc1, Hc, <- app_assoc; split; [reflexivity|];
      exists new, c; auto ]) i runs w).
  assert (H0 : exists new, calls w = calls w ++ new /\ Forall (processable expected) new)
    by (exists []; rewrite app_nil_r; split; [reflexivity | constructor]).
  specialize (R H0).
  destruct (run_loop runner n i runs w) as [[rs|e] w']; simpl.
  - destruct R as (j & (new & Hc & Hall) & _). exists new. auto.
  - destruct R as (new & Hc & Hfit). exists new. auto.
Qed.

(** When every reply the provider can give is processable, the loop
    returns. *)
Lemma run_loop_returns w :
  (forall k url body, reading expected (provider w k url body) = Returned tt) ->
  (forall w0, provider (runner w0).2 = provider w0) ->
  (forall w0 c, calls (runner w0).2 = calls w0 ++ [c] ->
                exists k url body, call_reply c = provider w0 k url body) ->
  exists rs w', run_loop runner n 0 [] w = (Returned rs, w').
Proof.
  intros Hgood Hprov Hreply.
  pose proof (LoopFacts.run_loop_rule runner n
    (fun _ _ w1 => provider w1 = provider w) (fun _ _ => False)) as R.
  specialize (R ltac:(
    intros i0 runs0 w0 Hp _;
    destruct (runner_reads w0) as (c & Hc1 & Hread);
    destruct (Hreply w0 c Hc1) as (k & url & body & Hk);
    pose proof (Hprov w0) as Hp1;
    rewrite Hk, Hp, Hgood in Hread;
    destruct (runner w0) as [[r|e] w1]; simpl in *; [|discriminate];
    destruct (LoopFacts.pause_between_returns n i0 w1) as (w2 & -> & _ & Hp2); simpl;
    congruence) 0 [] w eq_refl).
  destruct (run_loop runner n 0 [] w) as [[rs|e] w']; [eauto | contradiction].
Qed.

End Traces.

Section Handlers.
Context `{JsEngine}.
Variable GEMINI_API_KEY : option string.

Lemma evaluate_run_reads task expected model w0 :
  exists c, calls (Evaluate.runSingleEvaluation GEMINI_API_KEY task expected model w0).2
            = calls w0 ++ [c]
            /\ match (Evaluate.runSingleEvaluation GEMINI_API_KEY task expected model w0).1 with
               | Returned _ => reading (Some expected) (call_reply c) = Returned tt
               | Thrown e => reading (Some expected) (call_reply c) = Thrown e
               end.
Proof.
  pose proof (evaluate_run_reading GEMINI_API_KEY task expected model w0) as Hr.
  rewrite FootprintFacts.evaluate_run_world. eexists. split; [reflexivity|]. exact Hr.
Qed.

Lemma compare_run_reads task model w0 :
  exists c, calls (ABTest.runSingleEvaluation GEMINI_API_KEY task model w0).2 = calls w0 ++ [c]
            /\ match (ABTest.runSingleEvaluation GEMINI_API_KEY task model w0).1 with
               | Returned _ => reading None (call_reply c) = Returned tt
               | Thrown e => reading None (call_reply c) = Thrown e
               end.
Proof.
  pose proof (compare_run_reading GEMINI_API_KEY task model w0) as Hr.
  rewrite FootprintFacts.compare_run_world. eexists. split; [reflexivity|]. exact Hr.
Qed.

Lemma calculatePassAtK_ends task expected k model w :
  exists new,
    calls (Evaluate.calculatePassAtK GEMINI_API_KEY task expected k model w).2 = calls w ++ new
    /\ ends_with (Some expected)
         (Evaluate.calculatePassAtK GEMINI_API_KEY task expected k model w).1 new.
Proof.
  rewrite EvaluateFacts.calculatePassAtK_cases.
  destruct (run_loop_ends (Some expected) _ k (evaluate_run_reads task expected model) 0 [] w)
    as (new & Hc & Hfit).
  exists new. destruct (run_loop _ _ _ _ _) as [[rs|e] w']; auto.
Qed.

Lemma testModel_ends task modelId name runsPerModel w :
  exists new,
    calls (ABTest.testModel GEMINI_API_KEY task modelId name runsPerModel w).2 = calls w ++ new
    /\ ends_with None (ABTest.testModel GEMINI_API_KEY task modelId name runsPerModel w).1 new.
Proof.
  rewrite ABTestFacts.testModel_cases.
  destruct (run_loop_ends None _ runsPerModel (compare_run_reads task modelId) 0 [] w)
    as (new & Hc & Hfit).
  exists new. destruct (run_loop _ _ _ _ _) as [[rs|e] w']; auto.
Qed.

Lemma models_loop_ends task runsPerModel models results w :
  match (ABTest.models_loop GEMINI_API_KEY task runsPerModel models results w).1 with
  | Returned _ =>
      exists new,
        calls (ABTest.models_loop GEMINI_API_KEY task runsPerModel models results w).2
        = calls w ++ new /\ Forall (processable None) new
  | Thrown e =>
      exists new,
        calls (ABTest.models_loop GEMINI_API_KEY task runsPerModel models results w).2
        = calls w ++ new /\ ends_with None (@Thrown unit e) new
  end.
Proof.
  revert results w. induction models as [|[modelId name] rest IH]; intros results w.
  - exists []. rewrite app_nil_r. split; [reflexivity | constructor].
  - rewrite ABTestFacts.models_loop_cons.
    destruct (testModel_ends task modelId name runsPerModel w) as (new1 & Hc1 & Hfit1).
    destruct (ABTest.testModel _ _ _ _ _ _) as [[mr|e] w1]; cbn [fst snd] in *.
    + specialize (IH (results ++ [mr]) (sleep 1000 w1).2).
      destruct (ABTest.models_loop _ _ _ _ _ _) as [[out|e] w2]; cbn [fst snd] in *;
        destruct IH as (new2 & Hc2 & Hfit2); exists (new1 ++ new2);
        (split; [rewrite Hc2; cbn [sleep snd calls]; rewrite Hc1, app_assoc; reflexivity|]).
      * apply Forall_app; split; assumption.
      * apply (ends_with_app None (@Thrown unit e)); assumption.
    + exists new1. auto.
Qed.

Lemma evaluate_run_provider task expected model w0 :
  provider (Evaluate.runSingleEvaluation GEMINI_API_KEY task expected model w0).2 = provider w0.
Proof. rewrite FootprintFacts.evaluate_run_world. reflexivity. Qed.

Lemma compare_run_provider task model w0 :
  provider (ABTest.runSingleEvaluation GEMINI_API_KEY task model w0).2 = provider w0.
Proof. rewrite FootprintFacts.compare_run_world. reflexivity. Qed.

Lemma after_call_reply w0 url body c :
  calls (after_call w0 url body) = calls w0 ++ [c] ->
  exists k url' body', call_reply c = provider w0 k url' body'.
Proof.
  cbn [after_call calls]. intros E. apply app_inv_head in E. injection E as <-.
  eexists _, _, _. reflexivity.
Qed.

Lemma testModel_returns task modelId name runsPerModel w :
  (forall k url body, reading None (provider w k url body) = Returned tt) ->
  exists modelResult w',
    ABTest.testModel GEMINI_API_KEY task modelId name runsPerModel w = (Returned modelResult, w')
    /\ provider w' = provider w.
Proof.
  intros Hgood. rewrite ABTestFacts.testModel_cases.
  destruct (run_loop_returns None _ runsPerModel (compare_run_reads task modelId) w Hgood
              (compare_run_provider task modelId)) as (rs & w' & E).
  { intros w0 c. rewrite FootprintFacts.compare_run_world. apply after_call_reply. }
  pose proof (FootprintFacts.run_loop_footprint _ runsPerModel _ _
                (FootprintFacts.compare_run_world GEMINI_API_KEY task modelId) w) as F.
  rewrite E in *. destruct F as [(new & (Hp & _) & _) _].
  eexists _, _. split; [reflexivity | exact Hp].
Qed.

Lemma models_loop_returns task runsPerModel models results w :
  (forall k url body, reading None (provider w k url body) = Returned tt) ->
  exists out w',
    ABTest.models_loop GEMINI_API_KEY task runsPerModel models results w = (Returned out, w').
Proof.
  revert results w. induction models as [|[modelId name] rest IH]; intros results w Hgood.
  - eexists _, _. reflexivity.
  - rewrite ABTestFacts.models_loop_cons.
    destruct (testModel_returns task modelId name runsPerModel w Hgood)
      as (mr & w1 & -> & Hp).
    apply IH. intros k url body. cbn [sleep snd provider]. rewrite Hp. apply Hgood.
Qed.

End Handlers.

End ProcessingFacts.

(** ** Further properties: replies and failures *)

Module ExtrasReplies.
Import Js Runner Effects Loop Spec Processing.

Lemma reading_well_shaped `{JsEngine} (expected : option string) (r : Reply) response data :
  result r = Responded response -> ok response = true ->
  body_json response = Returned data -> well_shaped data ->
  reading expected r
  = match expected with
    | Some wanted => obind (Evaluate.checkSuccess (text_of data) wanted) (fun _ => Returned tt)
    | None => Returned tt
    end.
Proof.
  intros Hr Hok Hj (Hd & Hp & Hc & Hs). unfold reading. rewrite Hr, Hok, Hj. cbn [obind].
  rewrite (RunnerFacts.responseText_defined data Hd). cbn [obind].
  destruct (RunnerFacts.tokenCount_returns data Hd Hp Hc) as (tokens & ->).
  destruct (truthy (safety_entries data)) eqn:Et.
  - destruct (Hs eq_refl) as (items & Hi & Hall).
    destruct (RunnerFacts.safetyRatings_defined data items Hd Hi Hall) as (ratings & ->).
    reflexivity.
  - rewrite (RunnerFacts.safetyRatings_absent data Hd Et). reflexivity.
Qed.

Lemma checkSuccess_returns (text : value) (wanted : string) :
  whitespace_only wanted = true \/ (exists t, text = VStr t) ->
  exists passed, Evaluate.checkSuccess text wanted = Returned passed.
Proof.
  unfold Evaluate.checkSuccess. rewrite StringFacts.blank_test.
  intros [-> | (t & ->)]; [eauto|]. destruct (whitespace_only wanted); eauto.
Qed.

Lemma checkSuccess_throws (text : value) (wanted : string) :
  whitespace_only wanted = false -> (forall t, text <> VStr t) ->
  Evaluate.checkSuccess text wanted
  = Thrown (ErrorObject "TypeError" "responseText.toLowerCase is not a function").
Proof.
  unfold Evaluate.checkSuccess. rewrite StringFacts.blank_test. intros -> Hn.
  destruct text; try reflexivity. destruct (Hn s eq_refl).
Qed.

(** X8.  A valid request to a provider whose replies are all good is
    answered with a result: when the credential is set, the task is not blank,
    the effective [k] is within [1, 10] and every reply the provider can give
    has a success status and a well-shaped JSON body (not [null], usage
    counts and safety categories that can be converted to primitive values,
    safety entries that are absent or an array without [null]; and a text
    that is a string, unless no expected output was sent), the evaluation is
    answered 200 with an aggregate; so is the comparison, which needs no
    string. *)
Theorem good_replies_give_a_result `{JsEngine} (GEMINI_API_KEY : option string) :
  configured GEMINI_API_KEY = true ->
  (forall req body text w,
      method req <> "OPTIONS"%string -> req_json req = Returned body ->
      Evaluate.task body = Some text -> whitespace_only text = false ->
      (1 <= num_or (Evaluate.k body) 3)%Q -> (num_or (Evaluate.k body) 3 <= 10)%Q ->
      (forall n url payload, exists response data,
          result (provider w n url payload) = Responded response
          /\ ok response = true /\ body_json response = Returned data
          /\ well_shaped data
          /\ (blank (Evaluate.expected_output body) = true \/ exists t, text_of data = VStr t)) ->
      exists res w',
        Evaluate.handler GEMINI_API_KEY req w
        = (Returned (Build_Response 200 jsonHeaders (BodyJson res)), w'))
  /\ (forall req body text w,
        method req <> "OPTIONS"%string -> req_json req = Returned body ->
        ABTest.task body = Some text -> whitespace_only text = false ->
        (1 <= num_or (ABTest.runs_per_model body) 3)%Q ->
        (num_or (ABTest.runs_per_model body) 3 <= 10)%Q ->
        (forall n url payload, exists response data,
            result (provider w n url payload) = Responded response
            /\ ok response = true /\ body_json response = Returned data
            /\ well_shaped data) ->
        exists res w',
          ABTest.handler GEMINI_API_KEY req w
          = (Returned (Build_Response 200 jsonHeaders (BodyJson res)), w')).
Proof.
  intros Hkey. split; intros req body text w Hm Hb Ht Hw H1 H10 Hgood.
  - rewrite EvaluateFacts.evaluate_handler_cases.
    apply String.eqb_neq in Hm. rewrite Hm, Hkey, Hb, Ht, Hw. cbn [negb].
    apply OrderFacts.Qltb_ge in H1. apply OrderFacts.Qltb_ge in H10.
    rewrite H1, H10. cbn [orb].
    rewrite EvaluateFacts.calculatePassAtK_cases.
    set (expected := str_or (Evaluate.expected_output body) EmptyString).
    destruct (ProcessingFacts.run_loop_returns (Some expected) _ (num_or (Evaluate.k body) 3)
                (ProcessingFacts.evaluate_run_reads GEMINI_API_KEY text expected
                   Evaluate.default_model) w) as (rs & w' & ->).
    + intros n url payload.
      destruct (Hgood n url payload) as (response & data & Hr & Hok & Hj & Hs & Htext).
      rewrite (reading_well_shaped _ _ response data Hr Hok Hj Hs).
      destruct (checkSuccess_returns (text_of data) expected) as (passed & ->);
        [|reflexivity].
      destruct Htext as [Hblank | Hstr]; [left | right; exact Hstr].
      unfold expected. rewrite Claims.str_or_empty.
      destruct (Evaluate.expected_output body); exact Hblank.
    + apply ProcessingFacts.evaluate_run_provider.
    + intros w0 c. rewrite FootprintFacts.evaluate_run_world.
      apply ProcessingFacts.after_call_reply.
    + eexists _, _. reflexivity.
  - rewrite ABTestFacts.compare_handler_cases.
    apply String.eqb_neq in Hm. rewrite Hm, Hkey, Hb, Ht, Hw. cbn [negb].
    apply OrderFacts.Qltb_ge in H1. apply OrderFacts.Qltb_ge in H10.
    rewrite H1, H10. cbn [orb].
    destruct (ProcessingFacts.models_loop_returns GEMINI_API_KEY text
                (num_or (ABTest.runs_per_model body) 3) ABTest.models_table [] w)
      as (out & w' & ->).
    + intros n url payload.
      destruct (Hgood n url payload) as (response & data & Hr & Hok & Hj & Hs).
      apply (reading_well_shaped None _ response data Hr Hok Hj Hs).
    + eexists _, _. reflexivity.
Qed.

Lemma good_replies_give_a_result_witness :
  exists res w',
    Evaluate.handler (H := Sample.engine) Sample.key
      (Sample.post (Sample.evaluate_body (Some 2%Q) (Some "ok"%string)))
      (Sample.world (Sample.steady "ok"))
    = (Returned (Build_Response 200 jsonHeaders (BodyJson res)), w').
Proof.
  apply (proj1 (good_replies_give_a_result (H := Sample.engine) Sample.key eq_refl))
    with (body := Sample.evaluate_body (Some 2%Q) (Some "ok"%string))
         (text := "Summarize the report"%string);
    try reflexivity; try discriminate.
  intros n url payload. eexists _, _.
  split; [reflexivity|]. split; [reflexivity|]. split; [reflexivity|]. split.
  - split; [reflexivity|]. split; [reflexivity|]. split; [reflexivity|].
    intros _. eexists. split; [reflexivity|]. repeat constructor.
  - right. eexists. reflexivity.
Defined.

(** X9.  The first reply that cannot be processed ends the request, whatever
    the cause (a rejected [fetch], a refusal status, a body that is not JSON,
    a body the extraction or the success check chokes on): if processing the
    reply of a call made during the request throws [e], that call is the last
    one made and the request is answered 500 with the message of [e] (or "An
    error occurred" when [e] is not an Error) and no runs.  This holds for the
    evaluation, with its expected output, and for the comparison. *)
Theorem failed_reply_ends_the_request `{JsEngine} (GEMINI_API_KEY : option string)
  (c : Call) (e : exn) :
  (forall req body w new,
      req_json req = Returned body ->
      reading (Some (str_or (Evaluate.expected_output body) EmptyString)) (call_reply c)
      = Thrown e ->
      calls (Evaluate.handler GEMINI_API_KEY req w).2 = calls w ++ new -> In c new ->
      (exists earlier, new = earlier ++ [c])
      /\ (Evaluate.handler GEMINI_API_KEY req w).1
         = Returned (Build_Response 500 jsonHeaders (BodyDetail (Evaluate.error_detail e))))
  /\ (forall req w new,
        reading None (call_reply c) = Thrown e ->
        calls (ABTest.handler GEMINI_API_KEY req w).2 = calls w ++ new -> In c new ->
        (exists earlier, new = earlier ++ [c])
        /\ (ABTest.handler GEMINI_API_KEY req w).1
           = Returned (Build_Response 500 jsonHeaders (BodyDetail (ABTest.error_detail e)))).
Proof.
  split.
  - intros req body w new Hb Hr. rewrite EvaluateFacts.evaluate_handler_cases, Hb.
    assert (Hnone : calls w = calls w ++ new -> In c new -> False).
    { intros E Hin. rewrite <- (app_nil_r (calls w)) in E at 1.
      apply app_inv_head in E. subst new. contradiction. }
    repeat match goal with
           | |- context [if ?b then _ else _] =>
               destruct b; [intros E Hin; destruct (Hnone E Hin)|]
           | |- context [match ?o with Some _ => _ | None => _ end] =>
               destruct o; [|intros E Hin; destruct (Hnone E Hin)]
           end.
    match goal with
    | |- context [Evaluate.calculatePassAtK ?a ?b ?c ?d ?e ?f] =>
        destruct (ProcessingFacts.calculatePassAtK_ends a b c d e f) as (new' & Hc & Hfit);
        destruct (Evaluate.calculatePassAtK a b c d e f) as [o w1]
    end.
    cbn [fst snd] in *. intros E Hin.
    assert (Hw : calls w1 = calls w ++ new) by (destruct o; exact E).
    rewrite Hc in Hw. apply app_inv_head in Hw. subst new'.
    destruct (ProcessingFacts.ends_with_failure _ o new c e Hfit Hin Hr) as [Hlast ->].
    split; [exact Hlast | reflexivity].
  - intros req w new Hr. rewrite ABTestFacts.compare_handler_cases.
    assert (Hnone : calls w = calls w ++ new -> In c new -> False).
    { intros E Hin. rewrite <- (app_nil_r (calls w)) in E at 1.
      apply app_inv_head in E. subst new. contradiction. }
    repeat match goal with
           | |- context [if ?b then _ else _] =>
               destruct b; [intros E Hin; destruct (Hnone E Hin)|]
           | |- context [match ?o with Some _ => _ | None => _ end] =>
               destruct o; [|intros E Hin; destruct (Hnone E Hin)]
           | |- context [match req_json ?r with Returned _ => _ | Thrown _ => _ end] =>
               destruct (req_json r); [|intros E Hin; destruct (Hnone E Hin)]
           end.
    match goal with
    | |- context [ABTest.models_loop ?a ?b ?c ?d ?e ?f] =>
        pose proof (ProcessingFacts.models_loop_ends a b c d e f) as Hends;
        destruct (ABTest.models_loop a b c d e f) as [o w1]
    end.
    cbn [fst snd] in *. intros E Hin.
    destruct o as [out|e']; destruct Hends as (new' & Hc & Hfit);
      cbn [snd] in E; rewrite Hc in E; apply app_inv_head in E; subst new'.
    + rewrite Forall_forall in Hfit. apply list_elem_of_In in Hin.
      specialize (Hfit c Hin). unfold processable in Hfit. congruence.
    + destruct (ProcessingFacts.ends_with_failure None (@Thrown unit e') new c e Hfit Hin Hr)
        as [Hlast [= ->]].
      split; [exact Hlast | reflexivity].
Qed.

Lemma failed_reply_ends_the_request_witness :
  (Sample.evaluate (Sample.post (Sample.evaluate_body (Some 3%Q) None))
     (Sample.world Sample2.broken_line)).1
  = Returned (Build_Response 500 jsonHeaders (BodyDetail "error sending request")).
Proof.
  pose proof (proj1 (failed_reply_ends_the_request (H := Sample.engine) Sample.key
                       {| call_url := endpoint Sample.key Evaluate.default_model;
                          call_payload := payload "Summarize the report";
                          call_reply := Sample2.broken_line 0%nat EmptyString VNull |}
                       (ErrorObject "TypeError" "error sending request"))) as E.
  refine (proj2 (E (Sample.post (Sample.evaluate_body (Some 3%Q) None))
                   (Sample.evaluate_body (Some 3%Q) None)
                   (Sample.world Sample2.broken_line) _ eq_refl eq_refl _ _)).
  - vm_compute. reflexivity.
  - left. reflexivity.
Defined.

(** X10.  A reply with a success status and a well-shaped body (not [null],
    usage counts and safety categories that can be converted to primitive
    values, safety entries that are absent or an array without [null]) whose
    text is not a string (a number, say) is accepted by the runner of the
    comparison
    and by an evaluation without expected output, which keep the value as
    [response_text]; with an expected output the runner of the evaluation
    throws the TypeError "responseText.toLowerCase is not a function".  When
    the text is a string the runner of the evaluation always returns. *)
Theorem text_must_be_a_string_to_be_checked `{JsEngine} (GEMINI_API_KEY : option string)
  task model w response data :
  result (next_reply w (endpoint GEMINI_API_KEY model) (payload task)) = Responded response ->
  ok response = true -> body_json response = Returned data -> well_shaped data ->
  (forall expected,
      whitespace_only expected = false -> (forall t, text_of data <> VStr t) ->
      (Evaluate.runSingleEvaluation GEMINI_API_KEY task expected model w).1
      = Thrown (ErrorObject "TypeError" "responseText.toLowerCase is not a function"))
  /\ (forall expected,
        whitespace_only expected = true \/ (exists t, text_of data = VStr t) ->
        exists r,
          (Evaluate.runSingleEvaluation GEMINI_API_KEY task expected model w).1 = Returned r
          /\ response_text r = text_of data)
  /\ (exists r,
        (ABTest.runSingleEvaluation GEMINI_API_KEY task model w).1 = Returned r
        /\ response_text r = text_of data).
Proof.
  intros Hr Hok Hj (Hd & Hp & Hc & Hs).
  assert (Hsafe : exists ratings, safetyRatings data = Returned ratings).
  { destruct (truthy (safety_entries data)) eqn:Et.
    - destruct (Hs eq_refl) as (items & Hi & Hall).
      exact (RunnerFacts.safetyRatings_defined data items Hd Hi Hall).
    - exists ∅. apply RunnerFacts.safetyRatings_absent; assumption. }
  destruct Hsafe as (ratings & Es).
  destruct (RunnerFacts.tokenCount_returns data Hd Hp Hc) as (tokens & En).
  split; [|split].
  - intros expected Hw Hn. rewrite EvaluateFacts.evaluate_run_cases. cbv zeta. cbn [fst].
    rewrite Hr, Hok, Hj, Es, En, (RunnerFacts.responseText_defined data Hd). cbn [obind].
    fold (text_of data). rewrite (checkSuccess_throws _ _ Hw Hn). reflexivity.
  - intros expected Hcan. rewrite EvaluateFacts.evaluate_run_cases. cbv zeta. cbn [fst].
    rewrite Hr, Hok, Hj, Es, En, (RunnerFacts.responseText_defined data Hd). cbn [obind].
    fold (text_of data). destruct (checkSuccess_returns _ _ Hcan) as (passed & ->).
    cbn [obind]. eexists. split; reflexivity.
  - rewrite ABTestFacts.compare_run_cases. cbv zeta. cbn [fst].
    rewrite Hr, Hok, Hj, Es, En, (RunnerFacts.responseText_defined data Hd). cbn [obind].
    eexists. split; reflexivity.
Qed.

Lemma text_must_be_a_string_to_be_checked_witness :
  (Evaluate.runSingleEvaluation (H := Sample.engine) Sample.key "Summarize the report"
     "42" Evaluate.default_model (Sample.world Sample2.numeric_text)).1
  = Thrown (ErrorObject "TypeError" "responseText.toLowerCase is not a function").
Proof.
  refine (proj1 (text_must_be_a_string_to_be_checked (H := Sample.engine) Sample.key
                   "Summarize the report" Evaluate.default_model
                   (Sample.world Sample2.numeric_text) _ Sample2.number_doc
                   eq_refl eq_refl eq_refl _) "42"%string eq_refl _).
  - split; [reflexivity|]. split; [reflexivity|]. split; [reflexivity|]. discriminate.
  - intros t. discriminate.
Defined.






Lemma replace_first_T (date rest : string) :
  Forall (fun c => c <> "T"%char) (list_ascii_of_string date) ->
  JsString.replace_first "T" " " (date +:+ String "T" rest) = date +:+ String " " rest.
Proof.
  induction date as [|c date IH]; [reflexivity|].
  cbn -[Ascii.eqb]. intros Hno. apply Forall_cons in Hno as [Hc Hno].
  change (String c date +:+ String "T" rest) with (String c (date +:+ String "T" rest)).
  change (String c date +:+ String " " rest) with (String c (date +:+ String " " rest)).
  cbn [JsString.replace_first].
  apply Ascii.eqb_neq in Hc. rewrite Hc. f_equal. apply IH. exact Hno.
Qed.

Lemma substring0_app (date rest : string) (n : nat) :
  JsString.substring0 (String.length date + n) (date +:+ rest)
  = date +:+ JsString.substring0 n rest.
Proof.
  unfold JsString.substring0. induction date as [|c date IH]; [reflexivity|].
  change (String c date +:+ rest) with (String c (date +:+ rest)).
  cbn [String.length Nat.add String.substring]. rewrite IH. reflexivity.
Qed.

(** X12.  The timestamp of a run is the ISO date of the moment after the
    call with the "T" between day and time replaced by a space and everything
    after the seconds cut off: when the ISO string is a 10-character date
    without "T", a "T", and the rest, the timestamp is the date, a space and
    the first 8 characters of the rest.  Both runners stamp their runs this
    way. *)
Theorem timestamp_is_date_space_time `{JsEngine} (GEMINI_API_KEY : option string)
  (date rest : string) (w' : World) :
  Date_toISOString (clock w') = date +:+ String "T" rest ->
  String.length date = 10%nat ->
  Forall (fun c => c <> "T"%char) (list_ascii_of_string date) ->
  (forall task expected model w r,
      Evaluate.runSingleEvaluation GEMINI_API_KEY task expected model w = (Returned r, w') ->
      timestamp r = date +:+ String " " (String.substring 0 8 rest))
  /\ (forall task model w r,
        ABTest.runSingleEvaluation GEMINI_API_KEY task model w = (Returned r, w') ->
        timestamp r = date +:+ String " " (String.substring 0 8 rest)).
Proof.
  intros Hiso Hlen Hno.
  assert (Hstamp : JsString.substring0 19
                     (JsString.replace_first "T" " " (Date_toISOString (clock w')))
                   = date +:+ String " " (String.substring 0 8 rest)).
  { rewrite Hiso, (replace_first_T date rest Hno).
    change 19%nat with (10 + 9)%nat. rewrite <- Hlen, substring0_app. reflexivity. }
  split.
  - intros task expected model w r. rewrite EvaluateFacts.evaluate_run_cases. cbv zeta.
    intros E. injection E as Eo Ew. rewrite <- Ew in Hstamp.
    unfold Spec.after_call in Hstamp. cbn [clock] in Hstamp.
    repeat (cbn [obind] in Eo;
            match type of Eo with
            | context [obind ?x _] => destruct x; try discriminate
            | context [match ?x with _ => _ end] => destruct x; try discriminate
            | context [if ?x then _ else _] => destruct x; try discriminate
            end).
    injection Eo as <-. exact Hstamp.
  - intros task model w r. rewrite ABTestFacts.compare_run_cases. cbv zeta.
    intros E. injection E as Eo Ew. rewrite <- Ew in Hstamp.
    unfold Spec.after_call in Hstamp. cbn [clock] in Hstamp.
    repeat (cbn [obind] in Eo;
            match type of Eo with
            | context [obind ?x _] => destruct x; try discriminate
            | context [match ?x with _ => _ end] => destruct x; try discriminate
            | context [if ?x then _ else _] => destruct x; try discriminate
            end).
    injection Eo as <-. exact Hstamp.
Qed.

Lemma timestamp_is_date_space_time_witness :
  exists r w',
    Evaluate.runSingleEvaluation (H := Sample.engine) Sample.key "Say hello" "hello"
      Evaluate.default_model (Sample.world (Sample.steady "Hello there")) = (Returned r, w')
    /\ timestamp r = "2024-05-01 12:00:00"%string.
Proof.
  eexists. eexists. split.
  - vm_compute. reflexivity.
  - refine (proj1 (timestamp_is_date_space_time (H := Sample.engine) Sample.key
                     "2024-05-01" "12:00:00.000Z" _ _ _ _) "Say hello"%string "hello"%string
                  Evaluate.default_model (Sample.world (Sample.steady "Hello there")) _ _).
    + reflexivity.
    + reflexivity.
    + repeat constructor; discriminate.
    + vm_compute. reflexivity.
Defined.

End ExtrasReplies.

(** ** The page components *)

Module ExtrasPage.
Import Js Runner Spec.

Lemma toggle_elem `{Countable K} (n m : K) (s : gset K) :
  m ∈ (if decide (n ∈ s) then s ∖ {[ n ]} else s ∪ {[ n ]})
  <-> if decide (m = n) then m ∉ s else m ∈ s.
Proof.
  destruct (decide (n ∈ s)) as [Hin | Hout], (decide (m = n)) as [-> | Hne];
    rewrite ?elem_of_difference, ?elem_of_union, ?elem_of_singleton; tauto.
Qed.

Lemma toggle_twice `{Countable K} (n : K) (s : gset K) :
  (let t := if decide (n ∈ s) then s ∖ {[ n ]} else s ∪ {[ n ]} in
   if decide (n ∈ t) then t ∖ {[ n ]} else t ∪ {[ n ]}) = s.
Proof.
  cbv zeta. apply set_eq. intros m. rewrite toggle_elem.
  destruct (decide (m = n)) as [-> | Hne].
  - rewrite toggle_elem, decide_True by reflexivity.
    split; [apply dec_stable | tauto].
  - rewrite toggle_elem, decide_False by exact Hne. reflexivity.
Qed.

(** X13.  Expanding and collapsing are inverse: [toggleRun] and
    [toggleModel] applied twice to the same entry give back the state they
    started from, and one application flips the membership of that entry and
    of no other. *)
Theorem toggling_twice_restores :
  (forall n s, SingleEvaluation.toggleRun n (SingleEvaluation.toggleRun n s) = s)
  /\ (forall n m s,
        m ∈ SingleEvaluation.expandedRuns (SingleEvaluation.toggleRun n s)
        <-> if decide (m = n) then m ∉ SingleEvaluation.expandedRuns s
            else m ∈ SingleEvaluation.expandedRuns s)
  /\ (forall n s, ABTesting.toggleModel n (ABTesting.toggleModel n s) = s)
  /\ (forall n m s,
        m ∈ ABTesting.expandedModels (ABTesting.toggleModel n s)
        <-> if decide (m = n) then m ∉ ABTesting.expandedModels s
            else m ∈ ABTesting.expandedModels s).
Proof.
  repeat split.
  - intros n [t e k l r err c runs]. unfold SingleEvaluation.toggleRun.
    cbn. unfold SingleEvaluation.setExpandedRuns. cbn. f_equal.
    apply toggle_twice.
  - unfold SingleEvaluation.toggleRun. cbn. apply toggle_elem.
  - unfold SingleEvaluation.toggleRun. cbn. apply toggle_elem.
  - intros n [t k l r err names]. unfold ABTesting.toggleModel.
    cbn. unfold ABTesting.setExpandedModels. cbn. f_equal.
    apply toggle_twice.
  - unfold ABTesting.toggleModel. cbn. apply toggle_elem.
  - unfold ABTesting.toggleModel. cbn. apply toggle_elem.
Qed.

Lemma toggling_twice_restores_witness :
  SingleEvaluation.toggleRun 2 (SingleEvaluation.toggleRun 2 (Deployment.fresh "Say hello" "" (Fin 3)))
  = Deployment.fresh "Say hello" "" (Fin 3).
Proof. exact (proj1 toggling_twice_restores 2 (Deployment.fresh "Say hello" "" (Fin 3))). Defined.

Section Pages.
Context `{JsEngine}.
Variable VITE_SUPABASE_URL : primitive.
Variable unreadable : value -> string.

Local Abbreviation evaluate_url :=
  (String.append (SingleEvaluation.API_URL VITE_SUPABASE_URL) "/evaluate").
Local Abbreviation compare_url :=
  (String.append (ABTesting.API_URL VITE_SUPABASE_URL) "/ab-test").

(** X14.  A click with a blank task sends nothing and only sets the error
    text, leaving a result shown earlier in place.  Any other click sends
    exactly one request, shows [loading] with no result and no error while
    it is under way, and ends not loading with either what the answer's body
    parsed to and no error, or no result and the text of what was thrown; an
    answer outside 200..299 never gives a result. *)
Theorem a_click_settles :
  (forall network s,
      let s' := SingleEvaluation.handleEvaluate VITE_SUPABASE_URL unreadable network s in
      let begun := SingleEvaluation.handleEvaluate_begin VITE_SUPABASE_URL s in
      if whitespace_only (SingleEvaluation.task s) then
        begun.2 = None /\ s' = SingleEvaluation.setError "Task cannot be empty" s
      else
        begun.2 = Some (evaluate_url, SingleEvaluation.request_body s)
        /\ SingleEvaluation.loading begun.1 = true
        /\ SingleEvaluation.result begun.1 = VNull
        /\ SingleEvaluation.error begun.1 = EmptyString
        /\ SingleEvaluation.loading s' = false
        /\ match SingleEvaluation.answer_data unreadable
                   (network evaluate_url (SingleEvaluation.request_body s)) with
           | Returned data =>
               SingleEvaluation.result s' = data /\ SingleEvaluation.error s' = EmptyString
           | Thrown err =>
               SingleEvaluation.result s' = VNull
               /\ SingleEvaluation.error s' = SingleEvaluation.shown err
           end)
  /\ (forall network s,
      let s' := ABTesting.handleABTest VITE_SUPABASE_URL unreadable network s in
      let begun := ABTesting.handleABTest_begin VITE_SUPABASE_URL s in
      if whitespace_only (ABTesting.task s) then
        begun.2 = None /\ s' = ABTesting.setError "Task cannot be empty" s
      else
        begun.2 = Some (compare_url, ABTesting.request_body s)
        /\ ABTesting.loading begun.1 = true
        /\ ABTesting.result begun.1 = VNull
        /\ ABTesting.error begun.1 = EmptyString
        /\ ABTesting.loading s' = false
        /\ match ABTesting.answer_data unreadable
                   (network compare_url (ABTesting.request_body s)) with
           | Returned data =>
               ABTesting.result s' = data /\ ABTesting.error s' = EmptyString
           | Thrown err =>
               ABTesting.result s' = VNull /\ ABTesting.error s' = ABTesting.shown err
           end)
  /\ (forall response,
        Effects.ok response = false ->
        (exists err, SingleEvaluation.answer_data unreadable (Responded response) = Thrown err)
        /\ (exists err, ABTesting.answer_data unreadable (Responded response) = Thrown err)).
Proof.
  split; [|split].
  - intros network s. cbv zeta.
    unfold SingleEvaluation.handleEvaluate, SingleEvaluation.handleEvaluate_begin.
    rewrite StringFacts.blank_test.
    destruct (whitespace_only (SingleEvaluation.task s)); [split; reflexivity|].
    cbn [fst snd]. repeat (split; [reflexivity|]).
    unfold SingleEvaluation.handleEvaluate_end.
    destruct (SingleEvaluation.answer_data _ _); split; reflexivity.
  - intros network s. cbv zeta.
    unfold ABTesting.handleABTest, ABTesting.handleABTest_begin.
    rewrite StringFacts.blank_test.
    destruct (whitespace_only (ABTesting.task s)); [split; reflexivity|].
    cbn [fst snd]. repeat (split; [reflexivity|]).
    unfold ABTesting.handleABTest_end.
    destruct (ABTesting.answer_data _ _); split; reflexivity.
  - intros response Hok.
    unfold SingleEvaluation.answer_data, ABTesting.answer_data. rewrite Hok. cbn [negb].
    destruct (body_json response) as [errorData | e]; cbn [obind];
      [destruct (nullish errorData);
       [|cbv zeta;
         repeat match goal with
                | |- context [to_string ?v] => destruct (to_string v)
                end]|];
      split; eexists; reflexivity.
Qed.

Lemma carried_detail {A} (encode : A -> value) (code : Z) (headers : list (string * string))
  (detail : string) (answer : HttpReply) :
  code = 400 \/ code = 500 ->
  Deployment.carries encode (Build_Response code headers (BodyDetail detail)) answer ->
  Effects.ok answer = false
  /\ body_json answer = Returned (VObj [ ("detail"%string, VStr detail) ]).
Proof.
  intros Hcode [Hs Hb]. cbn in Hs, Hb. split; [|exact Hb].
  unfold Effects.ok. rewrite Hs. destruct Hcode as [-> | ->]; reflexivity.
Qed.

Lemma carried_result {A} (encode : A -> value) (headers : list (string * string))
  (a : A) (answer : HttpReply) :
  Deployment.carries encode (Build_Response 200 headers (BodyJson a)) answer ->
  Effects.ok answer = true /\ body_json answer = Returned (encode a).
Proof.
  intros [Hs Hb]. cbn in Hs, Hb. split; [|exact Hb].
  unfold Effects.ok. rewrite Hs. reflexivity.
Qed.

Lemma detail_text (detail fallback : string) :
  to_string (or_else (read (VObj [ ("detail"%string, VStr detail) ]) "detail") (VStr fallback))
  = Returned (if JsString.nonempty detail then detail else fallback).
Proof.
  cbn [read assoc]. change (String.eqb "detail" "detail") with true. cbv iota.
  unfold or_else. cbn [truthy]. destruct (JsString.nonempty detail); reflexivity.
Qed.

(** X15.  The page in front of its function.  When the request of a click
    with a non-blank task reaches the function and the function's response
    comes back, the page ends not loading and shows either the function's
    result with no error, or no result and the function's detail text (the
    page's own fallback text when the detail is empty).  The function never
    answers such a request with its own blank-task rejection: a 400 answer
    is about the number of runs. *)
Theorem the_page_shows_the_answer (GEMINI_API_KEY : option string) :
  (forall (encode : Evaluate.EvaluationResponse -> value) network s w resp w' answer,
      whitespace_only (SingleEvaluation.task s) = false ->
      Evaluate.handler GEMINI_API_KEY (Deployment.evaluate_request s) w = (Returned resp, w') ->
      network evaluate_url (SingleEvaluation.request_body s) = Responded answer ->
      Deployment.carries encode resp answer ->
      let s' := SingleEvaluation.handleEvaluate VITE_SUPABASE_URL unreadable network s in
      SingleEvaluation.loading s' = false
      /\ match resp_body resp with
         | BodyJson res =>
             SingleEvaluation.result s' = encode res
             /\ SingleEvaluation.error s' = EmptyString
         | BodyDetail detail =>
             SingleEvaluation.result s' = VNull
             /\ SingleEvaluation.error s'
                = (if JsString.nonempty detail then detail else "Evaluation failed"%string)
             /\ (resp_status resp = 400 -> detail = "k must be between 1 and 10"%string)
         | BodyNull => False
         end)
  /\ (forall (encode : ABTest.ABTestResponse -> value) network s w resp w' answer,
      whitespace_only (ABTesting.task s) = false ->
      ABTest.handler GEMINI_API_KEY (Deployment.compare_request s) w = (Returned resp, w') ->
      network compare_url (ABTesting.request_body s) = Responded answer ->
      Deployment.carries encode resp answer ->
      let s' := ABTesting.handleABTest VITE_SUPABASE_URL unreadable network s in
      ABTesting.loading s' = false
      /\ match resp_body resp with
         | BodyJson res =>
             ABTesting.result s' = encode res /\ ABTesting.error s' = EmptyString
         | BodyDetail detail =>
             ABTesting.result s' = VNull
             /\ ABTesting.error s'
                = (if JsString.nonempty detail then detail else "A/B test failed"%string)
             /\ (resp_status resp = 400
                 -> detail = "runs_per_model must be between 1 and 10"%string)
         | BodyNull => False
         end).
Proof.
  split.
  - intros encode network s w resp w' answer Hblank Hh Hnet Hc. cbv zeta.
    unfold SingleEvaluation.handleEvaluate, SingleEvaluation.handleEvaluate_begin.
    rewrite StringFacts.blank_test, Hblank, Hnet.
    unfold SingleEvaluation.handleEvaluate_end, SingleEvaluation.answer_data.
    split; [reflexivity|].
    rewrite EvaluateFacts.evaluate_handler_cases in Hh.
    cbn [method req_json Deployment.evaluate_request Evaluate.task] in Hh.
    change (String.eqb "POST" "OPTIONS") with false in Hh. cbv iota in Hh.
    rewrite Hblank in Hh.
    repeat match type of Hh with
           | context [if ?b then _ else _] => destruct b
           | context [match ?p with (_, _) => _ end] => destruct p as [[? | ?] ?]
           end;
      injection Hh as <- <-;
      first [ apply (carried_result encode) in Hc as [-> ->]; cbn; split; reflexivity
            | apply (carried_detail encode) in Hc as [-> ->]; [|auto]; cbn [negb obind nullish];
              cbv zeta; rewrite detail_text; cbn;
              (repeat split; try reflexivity); intros; congruence ].
  - intros encode network s w resp w' answer Hblank Hh Hnet Hc. cbv zeta.
    unfold ABTesting.handleABTest, ABTesting.handleABTest_begin.
    rewrite StringFacts.blank_test, Hblank, Hnet.
    unfold ABTesting.handleABTest_end, ABTesting.answer_data.
    split; [reflexivity|].
    rewrite ABTestFacts.compare_handler_cases in Hh.
    cbn [method req_json Deployment.compare_request ABTest.task] in Hh.
    change (String.eqb "POST" "OPTIONS") with false in Hh. cbv iota in Hh.
    rewrite Hblank in Hh.
    repeat match type of Hh with
           | context [if ?b then _ else _] => destruct b
           | context [match ?p with (_, _) => _ end] => destruct p as [[? | ?] ?]
           end;
      injection Hh as <- <-;
      first [ apply (carried_result encode) in Hc as [-> ->]; cbn; split; reflexivity
            | apply (carried_detail encode) in Hc as [-> ->]; [|auto]; cbn [negb obind nullish];
              cbv zeta; rewrite detail_text; cbn;
              (repeat split; try reflexivity); intros; congruence ].
Qed.

End Pages.

Lemma a_click_settles_witness :
  exists err,
    SingleEvaluation.answer_data (H := Sample.engine) (fun _ => EmptyString)
      (Responded Deployment.too_many) = Thrown err.
Proof.
  exact (proj1 (proj2 (proj2 (a_click_settles (H := Sample.engine) PUndefined (fun _ => EmptyString)))
                 Deployment.too_many eq_refl)).
Defined.

Lemma the_page_shows_the_answer_witness :
  SingleEvaluation.error
    (SingleEvaluation.handleEvaluate (H := Sample.engine) PUndefined (fun _ => EmptyString)
       (fun _ _ => Responded Deployment.too_many)
       (Deployment.fresh "Say hello" "hello" (Fin 11)))
  = "k must be between 1 and 10"%string.
Proof.
  refine (proj1 (proj2 (proj2
            (proj1 (the_page_shows_the_answer (H := Sample.engine) PUndefined
                      (fun _ => EmptyString) Sample.key)
               (fun _ => VNull) (fun _ _ => Responded Deployment.too_many)
               (Deployment.fresh "Say hello" "hello" (Fin 11))
               (Sample.world (Sample.steady "Hello there"))
               (Build_Response 400 jsonHeaders (BodyDetail "k must be between 1 and 10"))
               (Sample.world (Sample.steady "Hello there"))
               Deployment.too_many _ _ _ _)))).
  - vm_compute. reflexivity.
  - vm_compute. reflexivity.
  - reflexivity.
  - split; reflexivity.
Defined.

End ExtrasPage.
